(** * Investment-Chat-Agent: the chat agent, its date normaliser and the metric engine

    A shallow embedding of
    - [agent_api/app/main.py]      (the conversational agent),
    - [analytics_api/app/main.py]  (the analytics service and its formulas),
    - [formula_api/app/services/formulas.py], [formula_api/app/routes.py]
      (the stand-alone formula service),
    with the properties of the natural-language specification stated and
    settled against these definitions.

    Conventions of the embedding.
    - Python [int] is [Z]; a Python [str] is a [string] whose characters are
      the code points below 256 (none of them but [0]..[9] is a decimal digit,
      so [\d] and [int()] agree with the model; case mapping is modelled on
      ASCII letters only).
    - A Python call that can raise is a value of [outcome]: [Return v] or
      [Raise e]; [try ... except] is a [match] on it.
    - A Python [float] and a numpy [float64] are a binary64 [float]: the
      formulas of the metric engine are computed with the rounding, the
      infinities and the [nan] of IEEE 754, and [format(v, ".6f")] is
      computed exactly. *)

From Stdlib Require Import Floats.
From Stdlib Require Import ZArith String Ascii List Lia Reals Lra DecimalString.
From stdpp Require Import gmap strings list.
Close Scope float_scope.
Open Scope string_scope.
Open Scope Z_scope.
Set Warnings "-inexact-float".

(* ===================================================================== *)
(** ** Python run-time: exceptions and outcomes *)
(* ===================================================================== *)

Inductive exn : Type :=
| ValueError (msg : string)
| TypeError (msg : string)
| KeyError (msg : string)
| OverflowError (msg : string)
| AttributeError (msg : string)
| ConnectionError (msg : string)
| HTTPException (status_code : Z) (detail : string).

Inductive outcome (A : Type) : Type :=
| Return (a : A)
| Raise (e : exn).
Arguments Return {A} a.
Arguments Raise {A} e.

(** Sequencing: the first exception ends the computation. The notation is
    stdpp's [x ← c; k]. *)
#[global] Instance outcome_bind : MBind outcome := λ A B k c,
  match c with
  | Return a => k a
  | Raise e => Raise e
  end.
#[global] Instance outcome_ret : MRet outcome := λ A a, Return a.

Definition is_ValueError (e : exn) : bool :=
  match e with ValueError _ => true | _ => false end.

(** [str(e)]. Starlette prints an [HTTPException] as the status, a colon
    and the detail. *)
Definition exn_str (e : exn) : string :=
  match e with
  | ValueError msg | TypeError msg | KeyError msg | OverflowError msg
  | AttributeError msg | ConnectionError msg => msg
  | HTTPException status_code detail =>
      DecimalString.NilZero.string_of_int (Z.to_int status_code)
        +:+ ": " +:+ detail
  end.

(* ===================================================================== *)
(** ** Decimal digits and fixed-width fields *)
(* ===================================================================== *)

Definition is_digit (c : ascii) : bool :=
  let n := Z.of_nat (nat_of_ascii c) in (48 <=? n) && (n <=? 57).

Definition digit_val (c : ascii) : Z := Z.of_nat (nat_of_ascii c) - 48.

Definition digit_char (d : Z) : ascii := ascii_of_nat (Z.to_nat (48 + d)).

(** A natural number in base ten. *)
Definition decimal (n : Z) : string :=
  DecimalString.NilZero.string_of_uint (N.to_uint (Z.to_N n)).

(** [%02d] and [%04d]. *)
Definition two_digits (n : Z) : string :=
  String (digit_char (n / 10 mod 10)) (String (digit_char (n mod 10)) "").

Definition four_digits (n : Z) : string :=
  String (digit_char (n / 1000 mod 10))
    (String (digit_char (n / 100 mod 10)) (two_digits n)).

(* ===================================================================== *)
(** ** [datetime]: the calendar, [strptime], [strftime], [timedelta] *)
(* ===================================================================== *)

Module Datetime.

(** A [datetime] parsed with a format that has no time directive is at
    midnight; only the date part varies, and only it is represented. *)
Record datetime : Type := mk_datetime { year : Z; month : Z; day : Z }.

Definition datetime_eqb (a b : datetime) : bool :=
  (year a =? year b) && (month a =? month b) && (day a =? day b).

Definition MINYEAR : Z := 1.
Definition MAXYEAR : Z := 9999.

Definition is_leap (y : Z) : bool :=
  (y mod 4 =? 0) && (negb (y mod 100 =? 0) || (y mod 400 =? 0)).

Definition DAYS_IN_MONTH : list Z :=
  [-1; 31; 28; 31; 30; 31; 30; 31; 31; 30; 31; 30; 31].

Definition days_in_month (y m : Z) : Z :=
  if (m =? 2) && is_leap y then 29
  else nth (Z.to_nat m) DAYS_IN_MONTH (-1).

(** The constructor's range checks ([_check_date_fields]). *)
Definition new_datetime (y m d : Z) : outcome datetime :=
  if negb ((MINYEAR <=? y) && (y <=? MAXYEAR)) then
    Raise (ValueError "year is out of range")
  else if negb ((1 <=? m) && (m <=? 12)) then
    Raise (ValueError "month must be in 1..12")
  else if negb ((1 <=? d) && (d <=? days_in_month y m)) then
    Raise (ValueError "day is out of range for month")
  else Return (mk_datetime y m d).

(** *** The regular expression [strptime] compiles the format into

    [_strptime.TimeRE] turns ["%Y-%m-%d"] into
    [(?P<Y>\d\d\d\d)-(?P<m>1[0-2]|0[1-9]|[1-9])-(?P<d>3[0-1]|[1-2]\d|0[1-9]|[1-9]| [1-9])]
    and matches it at the start of the string. A pattern of this shape is a
    sequence of groups, a group an ordered choice of alternatives, an
    alternative a sequence of character classes; matching backtracks over the
    alternatives in order. *)

Inductive cclass : Type :=
| Digit                      (* \d *)
| Range (lo hi : ascii)      (* [lo-hi] *)
| Lit (c : ascii).           (* a literal character *)

Definition cclass_match (k : cclass) (c : ascii) : bool :=
  match k with
  | Digit => is_digit c
  | Range lo hi =>
      let n := Z.of_nat (nat_of_ascii c) in
      (Z.of_nat (nat_of_ascii lo) <=? n) && (n <=? Z.of_nat (nat_of_ascii hi))
  | Lit l => Ascii.eqb l c
  end.

(** One alternative against a prefix of [s]: the matched text and the rest. *)
Fixpoint match_alt (alt : list cclass) (s : string) : option (string * string) :=
  match alt with
  | [] => Some ("", s)
  | k :: alt' =>
      match s with
      | EmptyString => None
      | String c s' =>
          if cclass_match k c then
            match match_alt alt' s' with
            | Some (txt, rest) => Some (String c txt, rest)
            | None => None
            end
          else None
      end
  end.

(** The first alternative, from the left, on which [f] succeeds. *)
Fixpoint first_some {A B} (f : A → option B) (l : list A) : option B :=
  match l with
  | [] => None
  | a :: l' => match f a with Some b => Some b | None => first_some f l' end
  end.

(** A sequence of groups: the texts of the groups and the unmatched rest of
    the first way to match, alternatives being tried left to right and
    given up when a later group fails. *)
Fixpoint match_groups (gs : list (list (list cclass))) (s : string)
  : option (list string * string) :=
  match gs with
  | [] => Some ([], s)
  | alts :: gs' =>
      first_some
        (λ alt,
           match match_alt alt s with
           | Some (txt, rest) =>
               match match_groups gs' rest with
               | Some (txts, rest') => Some (txt :: txts, rest')
               | None => None
               end
           | None => None
           end) alts
  end.

Definition re_Y : list (list cclass) := [[Digit; Digit; Digit; Digit]].
Definition re_dash : list (list cclass) := [[Lit "-"]].
Definition re_m : list (list cclass) :=
  [[Lit "1"; Range "0" "2"]; [Lit "0"; Range "1" "9"]; [Range "1" "9"]].
Definition re_d : list (list cclass) :=
  [[Lit "3"; Range "0" "1"]; [Range "1" "2"; Digit]; [Lit "0"; Range "1" "9"];
   [Range "1" "9"]; [Lit " "; Range "1" "9"]].

Definition format_regex : list (list (list cclass)) :=
  [re_Y; re_dash; re_m; re_dash; re_d].

(** [int(text)] on the text of a group: leading blanks are skipped, the
    digits read in base ten. *)
Fixpoint int_digits (acc : Z) (s : string) : Z :=
  match s with
  | EmptyString => acc
  | String c s' => int_digits (10 * acc + digit_val c) s'
  end.

Fixpoint lstrip (s : string) : string :=
  match s with
  | String " " s' => lstrip s'
  | _ => s
  end.

Definition py_int (s : string) : Z := int_digits 0 (lstrip s).

(** [datetime.strptime(data_string, "%Y-%m-%d")]. *)
Definition strptime (data_string : string) : outcome datetime :=
  match match_groups format_regex data_string with
  | None =>
      Raise (ValueError "time data does not match format '%Y-%m-%d'")
  | Some (txts, rest) =>
      match rest with
      | String _ _ => Raise (ValueError "unconverted data remains")
      | EmptyString =>
          match txts with
          | [Y; _; m; _; d] => new_datetime (py_int Y) (py_int m) (py_int d)
          | _ => Raise (ValueError "time data does not match format '%Y-%m-%d'")
          end
      end
  end.

(** [dt.strftime("%Y-%m-%d")]. CPython hands [%Y] to the C library. Python
    documents the year as zero-filled ([0001], [0002], ...), and CPython does
    the filling itself from version 3.13 on; before that, glibc writes the
    year of [strftime] as a plain number, so that year 999 comes out as
    [999]. [zero_fill] tells which of the two the platform does; from year
    1000 on they agree. *)
Definition year_text (zero_fill : bool) (y : Z) : string :=
  if zero_fill then four_digits y else decimal y.

Definition strftime (zero_fill : bool) (dt : datetime) : string :=
  year_text zero_fill (year dt) +:+ "-" +:+ two_digits (month dt) +:+ "-"
    +:+ two_digits (day dt).

(** [dt.replace(day=28)]: every month has a 28th, so it cannot fail. *)
Definition replace_day28 (dt : datetime) : datetime :=
  mk_datetime (year dt) (month dt) 28.

(** *** [dt + timedelta(days=k)]: [k] steps along the calendar, refused
    with [OverflowError] outside years 1..9999. *)

Definition next_day (dt : datetime) : datetime :=
  if day dt <? days_in_month (year dt) (month dt) then
    mk_datetime (year dt) (month dt) (day dt + 1)
  else if month dt <? 12 then mk_datetime (year dt) (month dt + 1) 1
  else mk_datetime (year dt + 1) 1 1.

Definition prev_day (dt : datetime) : datetime :=
  if 1 <? day dt then mk_datetime (year dt) (month dt) (day dt - 1)
  else if 1 <? month dt then
    mk_datetime (year dt) (month dt - 1) (days_in_month (year dt) (month dt - 1))
  else mk_datetime (year dt - 1) 12 31.

Definition add_days (dt : datetime) (k : Z) : outcome datetime :=
  let r := if 0 <=? k then Nat.iter (Z.to_nat k) next_day dt
           else Nat.iter (Z.to_nat (- k)) prev_day dt in
  if (MINYEAR <=? year r) && (year r <=? MAXYEAR) then Return r
  else Raise (OverflowError "date value out of range").

End Datetime.

(* ===================================================================== *)
(** ** Python run-time: strings, truth values, number formatting *)
(* ===================================================================== *)

Module Py.

Fixpoint string_map (f : ascii → ascii) (s : string) : string :=
  match s with
  | EmptyString => EmptyString
  | String c s' => String (f c) (string_map f s')
  end.

(** [sep.join(l)]. *)
Fixpoint join (sep : string) (l : list string) : string :=
  match l with
  | [] => ""
  | [x] => x
  | x :: l' => x +:+ sep +:+ join sep l'
  end.

Definition code (c : ascii) : Z := Z.of_nat (nat_of_ascii c).
Definition is_upper (c : ascii) : bool := (65 <=? code c) && (code c <=? 90).
Definition is_lower (c : ascii) : bool := (97 <=? code c) && (code c <=? 122).
Definition to_upper (c : ascii) : ascii :=
  if is_lower c then ascii_of_nat (nat_of_ascii c - 32) else c.
Definition to_lower (c : ascii) : ascii :=
  if is_upper c then ascii_of_nat (nat_of_ascii c + 32) else c.

(** [s.replace("_", " ")]. *)
Definition replace_underscores (s : string) : string :=
  string_map (λ c, if Ascii.eqb c "_" then " "%char else c) s.

(** [s.capitalize()]: the first character in upper case, the rest in lower
    case. *)
Definition capitalize (s : string) : string :=
  match s with
  | EmptyString => EmptyString
  | String c s' => String (to_upper c) (string_map to_lower s')
  end.

(** [s.title()]: a letter that follows a letter is put in lower case, any
    other letter in upper case. *)
Fixpoint title_from (previous_is_cased : bool) (s : string) : string :=
  match s with
  | EmptyString => EmptyString
  | String c s' =>
      let c' := if is_lower c then (if previous_is_cased then c else to_upper c)
                else if is_upper c then (if previous_is_cased then to_lower c else c)
                else c in
      String c' (title_from (is_lower c || is_upper c) s')
  end.

Definition title (s : string) : string := title_from false s.

(** *** [format(x, ".6f")]

    The decimal expansion of the binary64 value rounded to six places, ties
    to even, computed on the exact value [m * 2^e]. *)

Definition six_digits (n : Z) : string :=
  String (digit_char (n / 100000 mod 10))
    (String (digit_char (n / 10000 mod 10)) (four_digits n)).

(** [num / den] rounded to the nearest integer, ties to the even one. *)
Definition div_round_half_even (num den : Z) : Z :=
  let q := num / den in
  let r := num mod den in
  if 2 * r <? den then q
  else if den <? 2 * r then q + 1
  else if Z.even q then q else q + 1.

Definition format_6f_spec (x : SpecFloat.spec_float) : string :=
  match x with
  | SpecFloat.S754_zero s => (if s then "-" else "") +:+ "0.000000"
  | SpecFloat.S754_infinity s => if s then "-inf" else "inf"
  | SpecFloat.S754_nan => "nan"
  | SpecFloat.S754_finite s m e =>
      let scaled :=
        if 0 <=? e then Zpos m * 2 ^ e * 1000000
        else div_round_half_even (Zpos m * 1000000) (2 ^ (- e)) in
      (if s then "-" else "") +:+ decimal (scaled / 1000000) +:+ "."
        +:+ six_digits (scaled mod 1000000)
  end.

Definition format_6f (x : float) : string := format_6f_spec (FloatOps.Prim2SF x).

(** [float(n)] for a Python [int]: the nearest binary64, [OverflowError]
    beyond the largest one. *)
Definition float_of_int (n : Z) : outcome SpecFloat.spec_float :=
  match SpecFloat.binary_normalize FloatOps.prec FloatOps.emax n 0 false with
  | SpecFloat.S754_infinity _ =>
      Raise (OverflowError "int too large to convert to float")
  | x => Return x
  end.

End Py.
(* ===================================================================== *)
(** ** agent_api/app/main.py *)
(* ===================================================================== *)

Module AgentApi.

Import Datetime Py.

(** *** The parameter record

    [params] is the dict decoded from the oracle's JSON answer. Its values
    are the JSON forms the extraction prompt asks for: [null], a string, a
    list of strings. A key may also be absent: the oracle's failure gives
    the empty dict. *)
Inductive pvalue : Type :=
| PNull
| PStr (s : string)
| PList (l : list string).

#[global] Instance pvalue_eq_dec : EqDecision pvalue.
Proof. solve_decision. Defined.

(** Python's truth value of [params.get(key)]. *)
Definition truthy (v : option pvalue) : bool :=
  match v with
  | None | Some PNull | Some (PStr "") | Some (PList []) => false
  | Some (PStr _) | Some (PList _) => true
  end.

(** [params[key]]. *)
Definition subscript (params : gmap string pvalue) (key : string)
  : outcome pvalue :=
  match params !! key with
  | Some v => Return v
  | None => Raise (KeyError ("'" +:+ key +:+ "'"))
  end.

(** [for x in v]: the items a loop over [v] visits. *)
Fixpoint characters (s : string) : list string :=
  match s with
  | EmptyString => []
  | String c s' => String c "" :: characters s'
  end.

Definition py_iter (v : pvalue) : outcome (list string) :=
  match v with
  | PNull => Raise (TypeError "'NoneType' object is not iterable")
  | PStr s => Return (characters s)
  | PList l => Return l
  end.

(** [value in names], for a list of strings [names]. *)
Definition py_in (v : pvalue) (names : list string) : bool :=
  match v with
  | PStr s => bool_decide (s ∈ names)
  | PNull | PList _ => false
  end.

(** *** Request and response models *)

Record ChatRequest : Type := {
  message : string;
  conversation_history : list (gmap string string)
}.

(** A scalar of a JSON document, as [json] decodes it. *)
Inductive jscalar : Type :=
| JNull
| JBool (b : bool)
| JInt (n : Z)
| JFloat (x : float)
| JStr (s : string).

(** The body the analytics service answers with on success:
    [{"portfolio": ..., "benchmark": ..., "results": {metric: value}}],
    the results in the order of the document. This is the answer of
    [compute_analytics]; a 200 answer with another JSON document (an empty
    object, a list) is not a value of the model. *)
Record AnalyticsBody : Type := {
  body_portfolio : jscalar;
  body_benchmark : jscalar;
  body_results : list (string * jscalar)
}.

Record ChatResponse : Type := {
  response : string;
  parameters : option (gmap string pvalue);
  results : option AnalyticsBody;
  reset_history : bool
}.

(** The query of the call to the analytics service; [None] is Python's
    [None], which [requests] leaves out of the URL. *)
Record QueryParams : Type := {
  q_portfolio_name : option pvalue;
  q_benchmark_name : option pvalue;
  q_risk_free_portfolio_name : option pvalue;
  q_start_date : option pvalue;
  q_end_date : option pvalue;
  q_metrics : option pvalue
}.

Record HttpResponse : Type := {
  status_code : Z;
  text : string;
  json : outcome AnalyticsBody
}.

(** *** The collaborators of a chat turn

    The table store (absent when it is not configured), the language oracle
    (given the transcript of the history and the message, it answers with
    the decoded record or fails), the analytics service, and the library
    functions whose text is not part of the properties below
    ([difflib.get_close_matches], [str()] of a value and of a response
    body), and the platform's way of writing the year of a date. *)
Record Env : Type := {
  supabase_portfolios : option (outcome (list string));
  supabase_benchmarks : option (outcome (list string));
  oracle : string → string → outcome (gmap string pvalue);
  requests_get : QueryParams → outcome HttpResponse;
  get_close_matches : pvalue → list string → list string;
  str_value : pvalue → string;
  str_body : AnalyticsBody → string;
  zero_filled_year : bool
}.

(** *** Module constants *)

Definition METRICS_REQUIREMENTS : list (string * list string) :=
  [ ("volatility", ["portfolio_name"; "start_date"; "end_date"]);
    ("beta", ["portfolio_name"; "benchmark_name"; "start_date"; "end_date"]);
    ("sharpe_ratio",
       ["portfolio_name"; "risk_free_portfolio_name"; "start_date"; "end_date"]);
    ("tracking_error",
       ["portfolio_name"; "benchmark_name"; "start_date"; "end_date"]);
    ("information_ratio",
       ["portfolio_name"; "benchmark_name"; "start_date"; "end_date"]) ].

(** [METRICS_REQUIREMENTS.get(metric, [])]. *)
Fixpoint dict_get {V} (d : list (string * V)) (key : string) : option V :=
  match d with
  | [] => None
  | (k, v) :: d' => if String.eqb k key then Some v else dict_get d' key
  end.

Definition requirements (metric : string) : list string :=
  default [] (dict_get METRICS_REQUIREMENTS metric).

Definition FALLBACK_PORTFOLIOS : list string :=
  ["Growth Plus"; "Global Dividend"; "Secure Income";
   "Global Macro Opportunities"].

Definition FALLBACK_BENCHMARKS : list string :=
  ["Secure Income Benchmark"; "MSCI World"; "S&P 500"].

(** [names or FALLBACK]: the fallback also replaces an empty answer. *)
Definition or_fallback (fetched : option (outcome (list string)))
    (fallback : list string) : list string :=
  match fetched with
  | None => fallback
  | Some (Raise _) => fallback
  | Some (Return []) => fallback
  | Some (Return names) => names
  end.

Definition get_portfolios (env : Env) : list string :=
  or_fallback (supabase_portfolios env) FALLBACK_PORTFOLIOS.

Definition get_benchmarks (env : Env) : list string :=
  or_fallback (supabase_benchmarks env) FALLBACK_BENCHMARKS.

Definition fuzzy_match (env : Env) (name : pvalue) (options : list string)
  : list string :=
  get_close_matches env name options.

(** [validate_date(date_str)]: [None] is [Return None]; an exception other
    than [ValueError] leaves the function. [zero_fill] is the platform's way
    of writing [%Y] (see [Datetime.strftime]). *)
Definition validate_date (zero_fill : bool) (date_str : string)
  : outcome (option string) :=
  let body :=
    dt ← strptime date_str;
    next_month ← add_days (replace_day28 dt) 4;
    end_of_month ← add_days next_month (- day next_month);
    if negb (datetime_eqb dt end_of_month) then
      Return (Some (strftime zero_fill end_of_month))
    else Return (Some date_str) in
  match body with
  | Raise (ValueError _) => Return None
  | other => other
  end.

(** [validate_date] on a value of the record: [strptime] refuses what is
    not a [str] with a [TypeError]. *)
Definition validate_date_value (zero_fill : bool) (v : pvalue)
  : outcome pvalue :=
  match v with
  | PStr s =>
      r ← validate_date zero_fill s;
      Return (match r with Some s' => PStr s' | None => PNull end)
  | PNull => Raise (TypeError "strptime() argument 1 must be str, not None")
  | PList _ => Raise (TypeError "strptime() argument 1 must be str, not list")
  end.

(** The transcript [parse_with_llm] puts in the prompt:
    [f"{msg['role']}: {msg['content']}"] for each turn of the history. *)
Fixpoint history_lines (history : list (gmap string string))
  : outcome (list string) :=
  match history with
  | [] => Return []
  | msg :: history' =>
      role ← match msg !! "role" with
             | Some r => Return r
             | None => Raise (KeyError "'role'")
             end;
      content ← match msg !! "content" with
                | Some c => Return c
                | None => Raise (KeyError "'content'")
                end;
      lines ← history_lines history';
      Return ((role +:+ ": " +:+ content) :: lines)
  end.

(** [parse_with_llm]: the prompt is built before the [try], so a turn of
    the history without ["role"] or ["content"] raises [KeyError]; whatever
    fails inside the [try] gives the empty record. *)
Definition parse_with_llm (env : Env) (msg : string)
    (history : list (gmap string string)) : outcome (gmap string pvalue) :=
  lines ← history_lines history;
  match oracle env (join (String "010" "") lines) msg with
  | Return parsed => Return parsed
  | Raise _ => Return ∅
  end.

(** [check_completeness(params)]. The two loops append to [missing];
    [list(set(missing))] keeps one copy of each name, in an order Python
    leaves unspecified (here: the order of [elements]). *)
Definition check_completeness (params : gmap string pvalue)
  : outcome (list string) :=
  let metrics := default (PList []) (params !! "metrics") in
  items ← py_iter metrics;
  let missing :=
    fold_left
      (λ (missing : list string) (metric : string),
         let req := requirements metric in
         fold_left
           (λ (missing : list string) (r : string),
              if negb (truthy (params !! r)) then (missing ++ [r])%list else missing)
           req missing)
      items [] in
  let missing := elements (list_to_set missing : gset string) in
  let missing :=
    if negb (truthy (Some metrics)) then (missing ++ ["metrics"])%list
    else missing in
  Return missing.

(** What a call of [generate_response] does besides returning: it may
    overwrite the two dates of [params], and it may call the analytics
    service. *)
Record Effects : Type := {
  params_after : gmap string pvalue;
  requests_sent : list QueryParams
}.

Definition or_none (params : gmap string pvalue) (key : string)
  : option pvalue :=
  if truthy (params !! key) then params !! key else None.

(** [if params.get(key): params[key] = validate_date(params[key])]. *)
Definition normalize_date (env : Env) (key : string)
    (params : gmap string pvalue) : outcome (gmap string pvalue) :=
  if truthy (params !! key) then
    v ← subscript params key;
    v' ← validate_date_value (zero_filled_year env) v;
    Return (<[key := v']> params)
  else Return params.

(** One of the three hints of the clarification text. *)
Definition suggestion_text (env : Env) (params : gmap string pvalue)
    (missing : list string) (key what : string) (catalog : list string)
    (all_label : string) : string :=
  if bool_decide (key ∈ missing) && truthy (params !! key) then
    let suggestions :=
      fuzzy_match env (default PNull (params !! key)) catalog in
    match suggestions with
    | _ :: _ =>
        "Did you mean one of these " +:+ what +:+ ": "
          +:+ join ", " suggestions +:+ "? "
    | [] => "Available " +:+ all_label +:+ ": " +:+ join ", " catalog +:+ ". "
    end
  else "".

Definition generate_response (env : Env) (params : gmap string pvalue)
    (missing : list string) (portfolios benchmarks : list string)
  : (string * option AnalyticsBody * bool) * Effects :=
  match missing with
  | _ :: _ =>
      let missing_pcase := map (λ m, title (replace_underscores m)) missing in
      let response :=
        "I need the following information to compute: "
          +:+ join ", " missing_pcase +:+ ". " in
      let response :=
        response +:+ suggestion_text env params missing "portfolio_name"
                       "portfolios" portfolios "portfolios" in
      let response :=
        response +:+ suggestion_text env params missing "benchmark_name"
                       "benchmarks" benchmarks "benchmarks" in
      let response :=
        response +:+ suggestion_text env params missing
                       "risk_free_portfolio_name" "risk-free portfolios"
                       portfolios "portfolios" in
      ((response, None, false),
       {| params_after := params; requests_sent := [] |})
  | [] =>
      (* try: *)
      match normalize_date env "start_date" params with
      | Raise e =>
          (("Error: " +:+ exn_str e, None, false),
           {| params_after := params; requests_sent := [] |})
      | Return params1 =>
      match normalize_date env "end_date" params1 with
      | Raise e =>
          (("Error: " +:+ exn_str e, None, false),
           {| params_after := params1; requests_sent := [] |})
      | Return params2 =>
          let query_params :=
            {| q_portfolio_name := or_none params2 "portfolio_name";
               q_benchmark_name := or_none params2 "benchmark_name";
               q_risk_free_portfolio_name :=
                 or_none params2 "risk_free_portfolio_name";
               q_start_date := or_none params2 "start_date";
               q_end_date := or_none params2 "end_date";
               q_metrics := or_none params2 "metrics" |} in
          let eff :=
            {| params_after := params2; requests_sent := [query_params] |} in
          match requests_get env query_params with
          | Raise e => (("Error: " +:+ exn_str e, None, false), eff)
          | Return resp =>
              if status_code resp =? 200 then
                match
                  results ← json resp;
                  name ← subscript params2 "portfolio_name";
                  Return
                    ("Computed analytics for " +:+ str_value env name +:+ ": "
                       +:+ str_body env results, results)
                with
                | Return (response, results) =>
                    ((response, Some results, true), eff)
                | Raise e => (("Error: " +:+ exn_str e, None, false), eff)
                end
              else
                (("Error computing analytics: " +:+ text resp, None, false),
                 eff)
          end
      end
      end
  end.

(** The sentence for one computed metric. [bool] is a subclass of [int]. *)
Definition format_metric (key : string) (value : jscalar) : outcome string :=
  let name := capitalize (replace_underscores key) in
  match value with
  | JFloat x => Return (name +:+ " is " +:+ format_6f x)
  | JInt n => x ← float_of_int n; Return (name +:+ " is " +:+ format_6f_spec x)
  | JBool b =>
      Return (name +:+ " is " +:+ (if b then "1.000000" else "0.000000"))
  | JStr s => Return (name +:+ " is " +:+ s)
  | JNull => Return (name +:+ " is None")
  end.

Fixpoint formatted_metrics (items : list (string * jscalar))
  : outcome (list string) :=
  match items with
  | [] => Return []
  | (key, value) :: items' =>
      line ← format_metric key value;
      lines ← formatted_metrics items';
      Return (line :: lines)
  end.

(** The part of [chat] that completes the missing list: a name that is
    given but is not in its catalog is appended. The suggestions computed
    at this point are not used. *)
Definition check_catalog (env : Env) (params : gmap string pvalue)
    (key : string) (catalog : list string) (missing : list string)
  : list string :=
  if truthy (params !! key) then
    if negb (py_in (default PNull (params !! key)) catalog) then
      let suggestions :=
        fuzzy_match env (default PNull (params !! key)) catalog in
      (missing ++ [key])%list
    else missing
  else missing.

Definition missing_fields (env : Env) (params : gmap string pvalue)
    (portfolios benchmarks : list string) : outcome (list string) :=
  missing ← check_completeness params;
  let missing := check_catalog env params "portfolio_name" portfolios missing in
  let missing := check_catalog env params "benchmark_name" benchmarks missing in
  let missing :=
    check_catalog env params "risk_free_portfolio_name" portfolios missing in
  Return missing.

(** [chat(request)]. A non-empty dict is true, and the body of a successful
    answer has three keys: [if results:] is the test for [Some]. The two
    assignments to [request] write to the object of this call, which is not
    read again. *)
Definition chat (env : Env) (request : ChatRequest) : outcome ChatResponse :=
  let portfolios := get_portfolios env in
  let benchmarks := get_benchmarks env in
  params ← parse_with_llm env (message request) (conversation_history request);
  missing ← missing_fields env params portfolios benchmarks;
  let '((response, results, reset_history), eff) :=
    generate_response env params missing portfolios benchmarks in
  let params := params_after eff in
  let reset_history := if reset_history then false else reset_history in
  response_text ←
    match results with
    | Some body =>
        formatted ← formatted_metrics (body_results body);
        Return (join "; " formatted)
    | None => Return response
    end;
  Return {| response := response_text;
            parameters := match missing with _ :: _ => Some params | [] => None end;
            results := results;
            reset_history := reset_history |}.

End AgentApi.
(* ===================================================================== *)
(** ** formula_api/app/services/formulas.py

    (and the copy of the five formulas in analytics_api/app/main.py).
    A number is a binary64 [float], and every operation is the IEEE 754 one
    numpy performs, rounded to nearest: no operation on floats raises, a
    division by zero or an overflow gives [inf] or [nan]. The sum of an
    array is taken in the order of numpy's [add.reduce]. Two things are
    left to the library and are parameters of the model ([Numpy]): the
    entries of [np.cov], computed by a matrix product whose order of
    additions belongs to the BLAS, and the texts of numpy's errors. *)
(* ===================================================================== *)

Module Formulas.

Record Numpy : Type := {
  (** the entries [0, 1] and [1, 1] of [np.cov(x, y)] for two series of
      the same length *)
  cov_entries : list float → list float → float * float;
  (** the text of the [ValueError] of an operation on two arrays of
      lengths [n] and [m] that cannot be broadcast *)
  broadcast_error : nat → nat → string;
  (** the text of the [ValueError] of [np.cov] for series of lengths [n]
      and [m] that cannot be stacked *)
  concatenate_error : nat → nat → string
}.

(** An argument of a formula: a Python float or a list of floats. *)
Inductive pyvalue : Type :=
| PyFloat (x : float)
| PyList (l : list float).

(** A numpy array of dimension 0 or 1. *)
Inductive ndarray : Type :=
| Arr0 (x : float)
| Arr1 (l : list float).

Definition np_array (v : pyvalue) : ndarray :=
  match v with
  | PyFloat x => Arr0 x
  | PyList l => Arr1 l
  end.

Fixpoint zip_with_F (op : float → float → float) (a b : list float)
  : list float :=
  match a, b with
  | x :: a', y :: b' => op x y :: zip_with_F op a' b'
  | _, _ => []
  end.

(** [a - b] with numpy's broadcasting: equal lengths go element by element,
    a scalar or an array of length one is stretched over the other operand,
    any other pair of lengths is refused. *)
Definition np_sub (np : Numpy) (a b : ndarray) : outcome ndarray :=
  match a, b with
  | Arr0 x, Arr0 y => Return (Arr0 (x - y)%float)
  | Arr0 x, Arr1 l => Return (Arr1 (map (λ y, (x - y)%float) l))
  | Arr1 l, Arr0 y => Return (Arr1 (map (λ x, (x - y)%float) l))
  | Arr1 l1, Arr1 l2 =>
      if (length l1 =? length l2)%nat then
        Return (Arr1 (zip_with_F PrimFloat.sub l1 l2))
      else if (length l1 =? 1)%nat then
        Return (Arr1 (map (λ y, (hd 0%float l1 - y)%float) l2))
      else if (length l2 =? 1)%nat then
        Return (Arr1 (map (λ x, (x - hd 0%float l2)%float) l1))
      else Raise (ValueError (broadcast_error np (length l1) (length l2)))
  end.

(** [float(n)] for an [int] that is the length of a list, or one less. *)
Definition to_float (n : Z) : float :=
  FloatOps.SF2Prim
    (SpecFloat.binary_normalize FloatOps.prec FloatOps.emax n 0 false).

(** *** [np.add.reduce] on a contiguous array of float64

    The result starts as the identity [0.0], to which numpy's pairwise sum
    of the array is added. The pairwise sum adds fewer than 8 terms from
    left to right; it adds up to 128 terms into 8 running sums (term [i]
    into sum [i mod 8]), combines the 8 sums in pairs and adds the terms
    left over one by one; it splits a longer array in two, the first part
    a multiple of 8 long, and adds the pairwise sums of the parts. *)

Definition sum_left (start : float) (l : list float) : float :=
  fold_left PrimFloat.add l start.

Fixpoint sum_in_eights (r l : list float) (blocks : nat)
  : list float * list float :=
  match blocks with
  | O => (r, l)
  | S k => sum_in_eights (zip_with_F PrimFloat.add r (take 8 l)) (drop 8 l) k
  end.

Definition block_sum (l : list float) : float :=
  let '(r, rest) :=
    sum_in_eights (take 8 l) (drop 8 l) (length l / 8 - 1)%nat in
  match r with
  | [r0; r1; r2; r3; r4; r5; r6; r7] =>
      sum_left (((r0 + r1) + (r2 + r3)) + ((r4 + r5) + (r6 + r7)))%float rest
  | _ => sum_left 0%float l
  end.

(** [depth] bounds the number of splits; the length of the array is
    enough. *)
Fixpoint pairwise_sum (depth : nat) (l : list float) : float :=
  if (length l <? 8)%nat then sum_left 0%float l
  else if (length l <=? 128)%nat then block_sum l
  else
    match depth with
    | O => block_sum l
    | S d =>
        let n2 := (length l / 2 - (length l / 2) mod 8)%nat in
        (pairwise_sum d (take n2 l) + pairwise_sum d (drop n2 l))%float
    end.

Definition add_reduce (l : list float) : float :=
  (0 + pairwise_sum (length l) l)%float.

Definition np_sum (a : ndarray) : float :=
  match a with
  | Arr0 x => x
  | Arr1 l => add_reduce l
  end.

(** [np.mean]: the sum over the number of items; [nan] for no item. *)
Definition np_mean (a : ndarray) : float :=
  match a with
  | Arr0 x => x
  | Arr1 l => (add_reduce l / to_float (Z.of_nat (length l)))%float
  end.

(** [a ** 2], which numpy computes as [a * a]. *)
Definition np_square (a : ndarray) : ndarray :=
  match a with
  | Arr0 x => Arr0 (x * x)%float
  | Arr1 l => Arr1 (map (λ x, (x * x)%float) l)
  end.

(** [a - m] for a numpy scalar [m]. *)
Definition np_sub_scalar (a : ndarray) (m : float) : ndarray :=
  match a with
  | Arr0 x => Arr0 (x - m)%float
  | Arr1 l => Arr1 (map (λ x, (x - m)%float) l)
  end.

(** [len(v)] of a Python value and of the result of a numpy operation (a
    numpy scalar when both operands had dimension 0). *)
Definition py_len (v : pyvalue) : outcome nat :=
  match v with
  | PyFloat _ => Raise (TypeError "object of type 'float' has no len()")
  | PyList l => Return (length l)
  end.

Definition np_len (a : ndarray) : outcome nat :=
  match a with
  | Arr0 _ => Raise (TypeError "object of type 'numpy.float64' has no len()")
  | Arr1 l => Return (length l)
  end.

Definition volatility (returns : pyvalue) : outcome float :=
  let squares :=
    np_square (np_sub_scalar (np_array returns) (np_mean (np_array returns))) in
  n ← py_len returns;
  Return (PrimFloat.sqrt (np_sum squares / to_float (Z.of_nat n - 1))%float).

(** [np.cov(x, y)]: the two series are stacked, which needs equal
    lengths (a float counts as a series of one). *)
Definition observations (v : pyvalue) : list float :=
  match v with
  | PyFloat x => [x]
  | PyList l => l
  end.

Definition beta (np : Numpy) (portfolio_returns benchmark_returns : pyvalue)
  : outcome float :=
  let x := observations portfolio_returns in
  let y := observations benchmark_returns in
  if (length x =? length y)%nat then
    let cov_matrix := cov_entries np x y in
    Return (cov_matrix.1 / cov_matrix.2)%float
  else Raise (ValueError (concatenate_error np (length x) (length y))).

Definition sharpe_ratio (np : Numpy) (returns risk_free_return : pyvalue)
  : outcome float :=
  excess_return ← np_sub np (np_array returns) (np_array risk_free_return);
  let mean_excess_return := np_mean excess_return in
  vol ← volatility returns;
  Return (mean_excess_return / vol)%float.

Definition tracking_error (np : Numpy)
    (portfolio_returns benchmark_returns : pyvalue) : outcome float :=
  diff ← np_sub np (np_array portfolio_returns) (np_array benchmark_returns);
  let squares := np_square (np_sub_scalar diff (np_mean diff)) in
  n ← np_len diff;
  Return (PrimFloat.sqrt (np_sum squares / to_float (Z.of_nat n - 1))%float).

Definition information_ratio (np : Numpy)
    (portfolio_returns benchmark_returns : pyvalue) : outcome float :=
  active_return ←
    np_sub np (np_array portfolio_returns) (np_array benchmark_returns);
  let mean_active_return := np_mean active_return in
  te ← tracking_error np portfolio_returns benchmark_returns;
  Return (mean_active_return / te)%float.

End Formulas.

(* ===================================================================== *)
(** ** analytics_api/app/main.py *)
(* ===================================================================== *)

Module AnalyticsApi.

Import Formulas.

(** The tables behind the service: the ids of the rows with a given name,
    and the returns of an id between two dates, in date order. A query may
    fail. *)
Record Store : Type := {
  portfolio_ids : option string → outcome (list Z);
  portfolio_return_rows :
    Z → option string → option string → outcome (list float);
  benchmark_ids : option string → outcome (list Z);
  benchmark_return_rows :
    Z → option string → option string → outcome (list float)
}.

(** [if start_date:] on an optional string: the filter is applied for a
    non-empty one. *)
Definition date_filter (d : option string) : option string :=
  match d with
  | Some "" | None => None
  | Some s => Some s
  end.

Definition get_portfolio_returns (store : Store) (portfolio_name : option string)
    (start_date end_date : option string) : outcome (list float) :=
  portfolio ← portfolio_ids store portfolio_name;
  match portfolio with
  | [] =>
      Raise (HTTPException 404
               ("Portfolio '" +:+ default "None" portfolio_name
                  +:+ "' not found"))
  | portfolio_id :: _ =>
      portfolio_return_rows store portfolio_id (date_filter start_date)
        (date_filter end_date)
  end.

Definition get_benchmark_returns (store : Store) (benchmark_name : option string)
    (start_date end_date : option string) : outcome (list float) :=
  benchmark ← benchmark_ids store benchmark_name;
  match benchmark with
  | [] =>
      Raise (HTTPException 404
               ("Benchmark '" +:+ default "None" benchmark_name
                  +:+ "' not found"))
  | benchmark_id :: _ =>
      benchmark_return_rows store benchmark_id (date_filter start_date)
        (date_filter end_date)
  end.

Definition get_risk_free_rate (store : Store)
    (risk_free_portfolio_name : option string)
    (start_date end_date : option string) : outcome float :=
  returns ← get_portfolio_returns store risk_free_portfolio_name start_date
              end_date;
  Return (match returns with
          | [] => 0%float
          | _ :: _ => np_mean (Arr1 returns)
          end).

Definition name_given (name : option string) : bool :=
  match name with
  | Some "" | None => false
  | Some _ => true
  end.

(** [results[metric] = value] on a dict kept in insertion order. *)
Fixpoint dict_set (d : list (string * float)) (key : string) (value : float)
  : list (string * float) :=
  match d with
  | [] => [(key, value)]
  | (k, v) :: d' =>
      if String.eqb k key then (k, value) :: d'
      else (k, v) :: dict_set d' key value
  end.

Record AnalyticsResult : Type := {
  portfolio : option string;
  benchmark : option string;
  results : list (string * float)
}.

(** One turn of the loop over [metrics]. *)
Definition compute_one (np : Numpy) (portfolio_returns benchmark_returns : list float)
    (risk_free_rate : float) (results : list (string * float)) (metric : string)
  : outcome (list (string * float)) :=
  if String.eqb metric "volatility" then
    v ← volatility (PyList portfolio_returns);
    Return (dict_set results metric v)
  else if String.eqb metric "beta" then
    v ← beta np (PyList portfolio_returns) (PyList benchmark_returns);
    Return (dict_set results metric v)
  else if String.eqb metric "sharpe_ratio" then
    v ← sharpe_ratio np (PyList portfolio_returns) (PyFloat risk_free_rate);
    Return (dict_set results metric v)
  else if String.eqb metric "tracking_error" then
    v ← tracking_error np (PyList portfolio_returns) (PyList benchmark_returns);
    Return (dict_set results metric v)
  else if String.eqb metric "information_ratio" then
    v ← information_ratio np (PyList portfolio_returns)
          (PyList benchmark_returns);
    Return (dict_set results metric v)
  else Raise (HTTPException 400 ("Unknown metric: " +:+ metric)).

Fixpoint compute_all (np : Numpy) (portfolio_returns benchmark_returns : list float)
    (risk_free_rate : float) (results : list (string * float))
    (metrics : list string) : outcome (list (string * float)) :=
  match metrics with
  | [] => Return results
  | metric :: metrics' =>
      results' ← compute_one np portfolio_returns benchmark_returns
                   risk_free_rate results metric;
      compute_all np portfolio_returns benchmark_returns risk_free_rate results'
        metrics'
  end.

(** [compute_analytics]: a [Raise (HTTPException status detail)] is the
    error response with that status. Every exception of the body, the
    [HTTPException]s it raises itself included, is caught by
    [except Exception] and raised again with status 500. *)
Definition compute_analytics (np : Numpy) (store : Store)
    (portfolio_name benchmark_name risk_free_portfolio_name : option string)
    (start_date end_date : option string) (metrics : list string)
  : outcome AnalyticsResult :=
  let body :=
    portfolio_returns ←
      get_portfolio_returns store portfolio_name start_date end_date;
    benchmark_returns ←
      (if name_given benchmark_name then
         get_benchmark_returns store benchmark_name start_date end_date
       else Return []);
    risk_free_rate ←
      (if name_given risk_free_portfolio_name then
         get_risk_free_rate store risk_free_portfolio_name start_date end_date
       else Return 0%float);
    results ← compute_all np portfolio_returns benchmark_returns risk_free_rate
                [] metrics;
    Return {| portfolio := portfolio_name; benchmark := benchmark_name;
              results := results |} in
  match body with
  | Return r => Return r
  | Raise e => Raise (HTTPException 500 (exn_str e))
  end.

End AnalyticsApi.

(* ===================================================================== *)
(** ** formula_api/app/routes.py *)
(* ===================================================================== *)

Module FormulaApi.

Import Formulas.

Record ComputeRequest : Type := {
  metric : string;
  inputs : gmap string pyvalue
}.

(** The dict [compute_metric] returns, [{"metric": ..., "value": ...}];
    [value] is [None] when the result of the call is not a number. What
    the framework does with the dict (it checks it against the model
    [ComputeResponse] and writes it as JSON) is not part of the function. *)
Record ComputeResponse : Type := {
  response_metric : string;
  value : option float
}.

(** What the interpreter adds to the module object of [formulas.py] and
    to a call, taken as given:
    - [module_attribute name]: what [getattr] finds for a name the file
      does not bind, one of the attributes every module object has
      ([__name__], [__sizeof__], ...). It is given by what a call of it
      with keyword arguments does: it raises ([__name__] is a string and
      cannot be called), it returns a number, or it returns something that
      is not a number ([None] here);
    - [keyword_error function given]: the text of the [TypeError] of a
      call of a formula with the keywords [given], which are not exactly
      its parameters. *)
Record Interpreter : Type := {
  module_attribute :
    string → option (gmap string pyvalue → outcome (option float));
  keyword_error : string → gset string → string
}.

(** The values [getattr(formulas, name)] can give: one of the five
    formulas, with the names of its parameters; one of the two imported
    modules; an attribute of the module object itself. *)
Inductive attribute : Type :=
| Formula1 (p : string) (f : pyvalue → outcome float)
| Formula2 (p q : string) (f : pyvalue → pyvalue → outcome float)
| ImportedModule
| ModuleAttribute (call : gmap string pyvalue → outcome (option float)).

Definition leading_underscore (name : string) : bool :=
  match name with
  | String "_" _ => true
  | _ => false
  end.

Definition formulas_getattr (np : Numpy) (py : Interpreter) (name : string)
  : outcome attribute :=
  if String.eqb name "volatility" then Return (Formula1 "returns" volatility)
  else if String.eqb name "beta" then
    Return (Formula2 "portfolio_returns" "benchmark_returns" (beta np))
  else if String.eqb name "sharpe_ratio" then
    Return (Formula2 "returns" "risk_free_return" (sharpe_ratio np))
  else if String.eqb name "tracking_error" then
    Return (Formula2 "portfolio_returns" "benchmark_returns"
              (tracking_error np))
  else if String.eqb name "information_ratio" then
    Return (Formula2 "portfolio_returns" "benchmark_returns"
              (information_ratio np))
  else if String.eqb name "np" || String.eqb name "pd" then Return ImportedModule
  else
    match (if leading_underscore name then module_attribute py name else None)
    with
    | Some call => Return (ModuleAttribute call)
    | None =>
        Raise (AttributeError
                 ("module 'app.services.formulas' has no attribute '"
                    +:+ name +:+ "'"))
    end.

(** [fn] called with the entries of [inputs] as keyword arguments: the
    keywords of a formula have to be exactly its parameters. The result
    is [None] when it is not a number. *)
Definition call_with_keywords (py : Interpreter) (name : string)
    (fn : attribute) (inputs : gmap string pyvalue) : outcome (option float) :=
  match fn with
  | Formula1 p f =>
      match inputs !! p with
      | Some a =>
          if bool_decide (dom inputs = {[p]}) then (v ← f a; Return (Some v))
          else Raise (TypeError (keyword_error py name (dom inputs)))
      | None => Raise (TypeError (keyword_error py name (dom inputs)))
      end
  | Formula2 p q f =>
      match inputs !! p, inputs !! q with
      | Some a, Some b =>
          if bool_decide (dom inputs = {[p; q]}) then (v ← f a b; Return (Some v))
          else Raise (TypeError (keyword_error py name (dom inputs)))
      | _, _ => Raise (TypeError (keyword_error py name (dom inputs)))
      end
  | ImportedModule => Raise (TypeError "'module' object is not callable")
  | ModuleAttribute call => call inputs
  end.

Definition compute_metric (np : Numpy) (py : Interpreter)
    (request : ComputeRequest) : outcome ComputeResponse :=
  match formulas_getattr np py (metric request) with
  | Raise _ =>
      Raise (HTTPException 404
               ("Metric '" +:+ metric request +:+ "' not implemented"))
  | Return fn =>
      match call_with_keywords py (metric request) fn (inputs request) with
      | Raise e => Raise (HTTPException 400 (exn_str e))
      | Return result =>
          Return {| response_metric := metric request; value := result |}
      end
  end.

End FormulaApi.
(* ===================================================================== *)
(** ** Notions of the specification *)
(* ===================================================================== *)

Import Datetime.

(** A date of the calendar of years 1 to 9999. *)
Definition calendar_date (y m d : Z) : Prop :=
  1 ≤ y ≤ 9999 ∧ 1 ≤ m ≤ 12 ∧ 1 ≤ d ≤ days_in_month y m.

(** The texts in which a month and a day of the month may be written: with
    or without the leading zero, the day also with a blank in its place. *)
Definition one_digit (n : Z) : string := String (digit_char n) "".

Definition month_texts (m : Z) : list string :=
  if m <? 10 then [two_digits m; one_digit m] else [two_digits m].

Definition day_texts (d : Z) : list string :=
  if d <? 10 then [two_digits d; one_digit d; String " " (one_digit d)]
  else [two_digits d].

Definition date_text (s : string) (y m d : Z) : Prop :=
  ∃ mt dt, mt ∈ month_texts m ∧ dt ∈ day_texts d
           ∧ s = four_digits y +:+ "-" +:+ mt +:+ "-" +:+ dt.

(** The spec's strict format: four digits, a dash, two digits, a dash, two
    digits. *)
Definition strict_ymd (s : string) : bool :=
  match s with
  | String y1 (String y2 (String y3 (String y4 (String "-"
      (String m1 (String m2 (String "-" (String d1 (String d2 "")))))))))
    => forallb is_digit [y1; y2; y3; y4; m1; m2; d1; d2]
  | _ => false
  end.

Definition last_day_of_month (dt : datetime) : datetime :=
  mk_datetime (year dt) (month dt) (days_in_month (year dt) (month dt)).

(** The sample standard deviation in the words of the specification: the
    square root of the sum over [i] of [(r_i - mean)^2], divided by [n - 1]. *)
Fixpoint sum_upto (n : nat) (f : nat → R) : R :=
  match n with
  | O => 0%R
  | S k => (sum_upto k f + f k)%R
  end.

Definition series_mean (r : list R) : R :=
  (sum_upto (length r) (λ i, nth i r 0%R) / INR (length r))%R.

Definition sum_squared_deviations (r : list R) : R :=
  sum_upto (length r) (λ i, (nth i r 0%R - series_mean r) ^ 2)%R.

Definition sample_std (r : list R) : R :=
  sqrt (sum_squared_deviations r / (INR (length r) - 1)).

(** The number a binary64 value stands for; [inf] and [nan] stand for
    none. *)
Definition float_value (x : float) : option R :=
  match FloatOps.Prim2SF x with
  | SpecFloat.S754_zero _ => Some 0%R
  | SpecFloat.S754_finite s m e =>
      Some (IZR (if s then Z.neg m else Z.pos m) * powerRZ 2 e)%R
  | SpecFloat.S754_infinity _ | SpecFloat.S754_nan => None
  end.

Definition exact_value (x : float) : R := default 0%R (float_value x).

(** The same formula evaluated in binary64, every operation rounded: the
    sum over [i] below [n] is the one numpy takes (the identity [0.0] plus
    the terms, from left to right when there are fewer than 8). *)
Definition rounded_sum (n : nat) (f : nat → float) : float :=
  Formulas.add_reduce (map f (seq 0 n)).

Definition rounded_mean (r : list float) : float :=
  (rounded_sum (length r) (λ i, nth i r 0)
   / Formulas.to_float (Z.of_nat (length r)))%float.

Definition rounded_sample_std (r : list float) : float :=
  PrimFloat.sqrt
    (rounded_sum (length r)
       (λ i, (nth i r 0 - rounded_mean r) * (nth i r 0 - rounded_mean r))
     / Formulas.to_float (Z.of_nat (length r) - 1))%float.

Fixpoint sum_upto_rounded (n : nat) (f : nat → float) : float :=
  match n with
  | O => 0%float
  | S k => (sum_upto_rounded k f + f k)%float
  end.

(** The fixed vocabulary of metric identifiers. *)
Definition METRIC_VOCABULARY : list string :=
  ["volatility"; "beta"; "sharpe_ratio"; "tracking_error"; "information_ratio"].

(** A name of the record that is given (its value is true for Python) and
    is not, as it stands, an entry of its catalog. *)
Definition unresolved_name (params : gmap string AgentApi.pvalue)
    (key : string) (catalog : list string) : Prop :=
  AgentApi.truthy (params !! key) = true
  ∧ ∀ s, params !! key = Some (AgentApi.PStr s) → s ∉ catalog.

(** C4 in the words of the claim: a required field counts when it is null
    or absent, the metric list when it is empty or absent, a name when it is
    present and not in its catalog. *)
Definition null_or_absent (v : option AgentApi.pvalue) : bool :=
  match v with
  | None | Some AgentApi.PNull => true
  | Some _ => false
  end.

Definition claimed_missing (params : gmap string AgentApi.pvalue)
    (portfolios benchmarks : list string) (f : string) : bool :=
  let requested :=
    match params !! "metrics" with
    | Some (AgentApi.PList l) => l
    | _ => []
    end in
  let not_in (catalog : list string) :=
    negb (null_or_absent (params !! f))
    && negb (AgentApi.py_in (default AgentApi.PNull (params !! f)) catalog) in
  existsb (λ metric, bool_decide (f ∈ AgentApi.requirements metric)) requested
    && null_or_absent (params !! f)
  || String.eqb f "metrics"
     && (null_or_absent (params !! "metrics")
         || bool_decide (params !! "metrics" = Some (AgentApi.PList [])))
  || String.eqb f "portfolio_name" && not_in portfolios
  || String.eqb f "benchmark_name" && not_in benchmarks
  || String.eqb f "risk_free_portfolio_name" && not_in portfolios.

(** C9 in the words of the claim: the name in title case. *)
Definition claimed_sentence (key : string) (value_text : string) : string :=
  Py.title (Py.replace_underscores key) +:+ " is " +:+ value_text.

(** The text of a value in the sentence for a metric. *)
Definition rendered_value (value : AgentApi.jscalar) (value_text : string) : Prop :=
  match value with
  | AgentApi.JFloat x => value_text = Py.format_6f x
  | AgentApi.JInt n =>
      ∃ x, Py.float_of_int n = Return x ∧ value_text = Py.format_6f_spec x
  | AgentApi.JBool b => value_text = if b then "1.000000" else "0.000000"
  | AgentApi.JStr s => value_text = s
  | AgentApi.JNull => value_text = "None"
  end.


(** *** Tables for the proofs about the format of dates *)

Definition month_numbers : list Z := [1; 2; 3; 4; 5; 6; 7; 8; 9; 10; 11; 12].
Definition day_numbers : list Z :=
  [1; 2; 3; 4; 5; 6; 7; 8; 9; 10; 11; 12; 13; 14; 15; 16; 17; 18; 19; 20; 21;
   22; 23; 24; 25; 26; 27; 28; 29; 30; 31].

(** The month and day groups on every text of every month and day: a finite
    table, checked by evaluation. *)
Definition tail_matches (m d : Z) (mt dt : string) : bool :=
  match match_groups [re_dash; re_m; re_dash; re_d]
          ("-" +:+ mt +:+ "-" +:+ dt) with
  | Some (txts, rest) =>
      bool_decide (txts = ["-"; mt; "-"; dt]) && bool_decide (rest = "")
      && (py_int mt =? m) && (py_int dt =? d)
  | None => false
  end.

(* ===================================================================== *)
(** ** Sample collaborators, for the examples *)
(* ===================================================================== *)

Module Samples.

Import AgentApi.

(** A numpy whose covariance adds the products from left to right, with
    the texts numpy gives its two errors. *)
Definition shape_text (n : nat) : string :=
  "(" +:+ decimal (Z.of_nat n) +:+ ",)".

Definition covariance (x y : list float) : float :=
  let mx := Formulas.np_mean (Formulas.Arr1 x) in
  let my := Formulas.np_mean (Formulas.Arr1 y) in
  (Formulas.sum_left 0
     (Formulas.zip_with_F (λ a b, (a - mx) * (b - my)) x y)
   * (1 / Formulas.to_float (Z.of_nat (length x) - 1)))%float.

Definition numpy : Formulas.Numpy :=
  {| Formulas.cov_entries := λ x y, (covariance x y, covariance y y);
     Formulas.broadcast_error :=
       λ n m, "operands could not be broadcast together with shapes "
                +:+ shape_text n +:+ " " +:+ shape_text m +:+ " ";
     Formulas.concatenate_error :=
       λ n m, "all the input array dimensions except for the concatenation "
                +:+ "axis must match exactly, but along dimension 1, the "
                +:+ "array at index 0 has size " +:+ decimal (Z.of_nat n)
                +:+ " and the array at index 1 has size "
                +:+ decimal (Z.of_nat m) |}.

(** An interpreter that knows two of the attributes of a module object:
    its name, a string, and [__sizeof__], a method without parameters. *)
Definition interpreter : FormulaApi.Interpreter :=
  {| FormulaApi.module_attribute :=
       λ name,
         if String.eqb name "__name__" then
           Some (λ _, Raise (TypeError "'str' object is not callable"))
         else if String.eqb name "__sizeof__" then
           Some (λ inputs : gmap string Formulas.pyvalue,
                   if bool_decide (dom inputs = ∅) then Return (Some 72%float)
                   else Raise (TypeError
                                 "module.__sizeof__() takes no keyword arguments"))
         else None;
     FormulaApi.keyword_error :=
       λ function _, function +:+ "() got an unexpected keyword argument" |}.

(** A store with one portfolio and four monthly returns. *)
Definition store : AnalyticsApi.Store :=
  {| AnalyticsApi.portfolio_ids :=
       λ name, Return (if bool_decide (name = Some "Growth Plus") then [1] else []);
     AnalyticsApi.portfolio_return_rows :=
       λ _ _ _, Return [0.01; 0.02; -0.01; 0.03]%float;
     AnalyticsApi.benchmark_ids := λ _, Return [];
     AnalyticsApi.benchmark_return_rows := λ _ _ _, Return [] |}.

Definition body (results : list (string * jscalar)) : AnalyticsBody :=
  {| body_portfolio := JStr "Growth Plus"; body_benchmark := JNull;
     body_results := results |}.

(** A chat turn's collaborators: no table store (the fallback catalogs
    apply), an oracle that answers with [extracted], an analytics service
    that answers every query with status 200 and [results]. *)
Definition env (extracted : gmap string pvalue)
    (results : list (string * jscalar)) : Env :=
  {| supabase_portfolios := None;
     supabase_benchmarks := None;
     oracle := λ _ _, Return extracted;
     requests_get :=
       λ _, Return {| status_code := 200; text := "";
                      json := Return (body results) |};
     get_close_matches := λ _ _, [];
     str_value := λ v, match v with PStr s => s | _ => "" end;
     str_body := λ _, "";
     zero_filled_year := false |}.

Definition request : ChatRequest :=
  {| message := "volatility of Growth Plus in the first quarter of 2023";
     conversation_history := [] |}.

Definition volatility_params (start_date end_date : string)
  : gmap string pvalue :=
  <["portfolio_name" := PStr "Growth Plus"]>
    (<["metrics" := PList ["volatility"]]>
       (<["start_date" := PStr start_date]>
          (<["end_date" := PStr end_date]> ∅))).

End Samples.

(* ===================================================================== *)
(** ** formula_api/app/routes.py: [list_metrics] *)
(* ===================================================================== *)

(** The names and descriptions [GET /metrics] answers with. *)
Definition list_metrics : list (string * string) :=
  [ ("volatility", "Standard deviation of realized portfolio returns");
    ("beta", "Sensitivity of portfolio returns to benchmark returns");
    ("sharpe_ratio",
       "Ex-post Sharpe ratio - realized excess return per unit of total risk");
    ("tracking_error",
       "Ex-post tracking error - volatility of active returns vs benchmark");
    ("information_ratio",
       "Ex-post information ratio - mean active return per unit of tracking error") ].

(* ===================================================================== *)
(** ** Further notions for the properties *)
(* ===================================================================== *)

(** The query [generate_response] builds from a record. *)
Definition query_of (params : gmap string AgentApi.pvalue) : AgentApi.QueryParams :=
  {| AgentApi.q_portfolio_name := AgentApi.or_none params "portfolio_name";
     AgentApi.q_benchmark_name := AgentApi.or_none params "benchmark_name";
     AgentApi.q_risk_free_portfolio_name :=
       AgentApi.or_none params "risk_free_portfolio_name";
     AgentApi.q_start_date := AgentApi.or_none params "start_date";
     AgentApi.q_end_date := AgentApi.or_none params "end_date";
     AgentApi.q_metrics := AgentApi.or_none params "metrics" |}.

(** An answer of the analytics service that is not a success: the call
    raised, or the status is not 200. *)
Definition backend_failure (r : outcome AgentApi.HttpResponse) : Prop :=
  match r with
  | Raise _ => True
  | Return http => AgentApi.status_code http ≠ 200
  end.

(** A name of the record that is given as a string of its catalog, or not
    given at all. *)
Definition catalog_name (v : option AgentApi.pvalue) (catalog : list string)
  : Prop :=
  match v with
  | None => True
  | Some w => ∃ s, w = AgentApi.PStr s ∧ s ∈ catalog
  end.

(** The keys of a dict kept as a list of entries. *)
Definition keys {V} (d : list (string * V)) : list string := map fst d.

(** A record that asks for one metric outside the vocabulary and names
    nothing else. *)
Definition unknown_metric_params : gmap string AgentApi.pvalue :=
  {["metrics" := AgentApi.PList ["alpha"]]}.

(** The same record with a start date in the middle of a month. *)
Definition dated_params : gmap string AgentApi.pvalue :=
  <["start_date" := AgentApi.PStr "2023-01-15"]> unknown_metric_params.



(** The collaborators of [env] with an analytics service that cannot be
    reached. *)
Definition unreachable_service (env : AgentApi.Env) : AgentApi.Env :=
  {| AgentApi.supabase_portfolios := AgentApi.supabase_portfolios env;
     AgentApi.supabase_benchmarks := AgentApi.supabase_benchmarks env;
     AgentApi.oracle := AgentApi.oracle env;
     AgentApi.requests_get := λ _, Raise (ConnectionError "Connection refused");
     AgentApi.get_close_matches := AgentApi.get_close_matches env;
     AgentApi.str_value := AgentApi.str_value env;
     AgentApi.str_body := AgentApi.str_body env;
     AgentApi.zero_filled_year := AgentApi.zero_filled_year env |}.


(** An attribute that is one of the formulas [formulas.py] defines. *)
Definition is_formula (fn : FormulaApi.attribute) : bool :=
  match fn with
  | FormulaApi.Formula1 _ _ | FormulaApi.Formula2 _ _ _ => true
  | FormulaApi.ImportedModule | FormulaApi.ModuleAttribute _ => false
  end.


(* ===================================================================== *)
(** * Properties *)
(* ===================================================================== *)

(* ===================================================================== *)
(** ** Examples of [validate_date] *)
(* ===================================================================== *)

Import AgentApi.

Example validate_date_examples (zero_fill : bool) :
  validate_date zero_fill "2023-01-15" = Return (Some "2023-01-31")
  ∧ validate_date zero_fill "2023-03-31" = Return (Some "2023-03-31")
  ∧ validate_date zero_fill "2023-1-15" = Return (Some "2023-01-31")
  ∧ validate_date zero_fill "2023-1-31" = Return (Some "2023-1-31")
  ∧ validate_date zero_fill "2024-02-03" = Return (Some "2024-02-29")
  ∧ validate_date zero_fill "2023-01- 5" = Return (Some "2023-01-31")
  ∧ validate_date zero_fill "2023-02-29" = Return None
  ∧ validate_date zero_fill "2023-13-01" = Return None
  ∧ validate_date zero_fill "2023-01-32" = Return None
  ∧ validate_date zero_fill "2023-01-5 " = Return None
  ∧ validate_date zero_fill "23-01-15" = Return None
  ∧ validate_date zero_fill "2023/01/15" = Return None
  ∧ validate_date zero_fill "0000-01-01" = Return None
  ∧ validate_date zero_fill "9999-11-30" = Return (Some "9999-11-30")
  ∧ validate_date zero_fill "9999-12-31"
    = Raise (OverflowError "date value out of range").
Proof. destruct zero_fill; repeat split; vm_compute; reflexivity. Qed.

Example validate_date_year_999 :
  validate_date true "0999-01-15" = Return (Some "0999-01-31")
  ∧ validate_date false "0999-01-15" = Return (Some "999-01-31")
  ∧ validate_date false "999-01-31" = Return None
  ∧ validate_date false "0001-01-01" = Return (Some "1-01-31").
Proof. repeat split; vm_compute; reflexivity. Qed.

(* ===================================================================== *)
(** ** Properties of the calendar *)
(* ===================================================================== *)

Lemma month_cases (m : Z) :
  1 ≤ m ≤ 12 →
  m = 1 ∨ m = 2 ∨ m = 3 ∨ m = 4 ∨ m = 5 ∨ m = 6 ∨ m = 7 ∨ m = 8 ∨ m = 9
  ∨ m = 10 ∨ m = 11 ∨ m = 12.
Proof. lia. Qed.

Lemma days_in_month_bounds (y m : Z) :
  1 ≤ m ≤ 12 → 28 ≤ days_in_month y m ≤ 31.
Proof.
  intros Hm. unfold days_in_month.
  destruct (month_cases m Hm) as [-> | [-> | [-> | [-> | [-> | [-> | [-> | [-> | [-> | [-> | [-> | ->]]]]]]]]]]];
    destruct (is_leap y); simpl; lia.
Qed.

Lemma new_datetime_Return (y m d : Z) (dt : datetime) :
  new_datetime y m d = Return dt ↔ calendar_date y m d ∧ dt = mk_datetime y m d.
Proof.
  unfold new_datetime, calendar_date, MINYEAR, MAXYEAR.
  destruct (1 <=? y) eqn:H1, (y <=? 9999) eqn:H2, (1 <=? m) eqn:H3,
    (m <=? 12) eqn:H4, (1 <=? d) eqn:H5, (d <=? days_in_month y m) eqn:H6;
    simpl; split; try discriminate; try (intros [? _]; lia).
  - intros [= <-]. split; [lia | done].
  - intros [_ ->]. done.
Qed.

Lemma new_datetime_raises (y m d : Z) (e : exn) :
  new_datetime y m d = Raise e → is_ValueError e = true.
Proof.
  unfold new_datetime.
  repeat (case_match; try discriminate); by intros [= <-].
Qed.

(** The two [timedelta] steps of [validate_date] land on the last day of
    the month of [dt]; in December 9999 the first one leaves the calendar. *)
Lemma days_in_month_eq (y m : Z) :
  days_in_month y m =
    if m =? 2 then (if is_leap y then 29 else 28)
    else nth (Z.to_nat m) DAYS_IN_MONTH (-1).
Proof.
  unfold days_in_month. destruct (m =? 2) eqn:Hm; [|done].
  apply Z.eqb_eq in Hm as ->. by destruct (is_leap y).
Qed.

Lemma next_day_eq (y m d : Z) :
  next_day (mk_datetime y m d) =
    if d <? days_in_month y m then mk_datetime y m (d + 1)
    else if m <? 12 then mk_datetime y (m + 1) 1
    else mk_datetime (y + 1) 1 1.
Proof. reflexivity. Qed.

Lemma prev_day_eq (y m d : Z) :
  prev_day (mk_datetime y m d) =
    if 1 <? d then mk_datetime y m (d - 1)
    else if 1 <? m then mk_datetime y (m - 1) (days_in_month y (m - 1))
    else mk_datetime (y - 1) 12 31.
Proof. reflexivity. Qed.

Lemma add_days_eq (dt : datetime) (k : Z) :
  add_days dt k =
    let r := if 0 <=? k then Nat.iter (Z.to_nat k) next_day dt
             else Nat.iter (Z.to_nat (- k)) prev_day dt in
    if (1 <=? year r) && (year r <=? 9999) then Return r
    else Raise (OverflowError "date value out of range").
Proof. reflexivity. Qed.

#[local] Opaque next_day prev_day add_days days_in_month.

(** Closed comparisons and sums are evaluated; terms with a variable are
    left alone. *)
Ltac eval_closed_Z :=
  repeat match goal with
  | |- context [Z.ltb ?a ?b] =>
      let v := eval vm_compute in (Z.ltb a b) in
      match v with
      | true => change (Z.ltb a b) with true
      | false => change (Z.ltb a b) with false
      end
  | |- context [Z.eqb ?a ?b] =>
      let v := eval vm_compute in (Z.eqb a b) in
      match v with
      | true => change (Z.eqb a b) with true
      | false => change (Z.eqb a b) with false
      end
  | |- context [Z.add (Zpos ?a) (Zpos ?b)] =>
      let v := eval vm_compute in (Z.add (Zpos a) (Zpos b)) in
      change (Z.add (Zpos a) (Zpos b)) with v
  | |- context [nth (Z.to_nat (Zpos ?a)) ?l ?d] =>
      let v := eval vm_compute in (nth (Z.to_nat (Zpos a)) l d) in
      change (nth (Z.to_nat (Zpos a)) l d) with v
  | |- context [Z.sub (Zpos ?a) (Zpos ?b)] =>
      let v := eval vm_compute in (Z.sub (Zpos a) (Zpos b)) in
      change (Z.sub (Zpos a) (Zpos b)) with v
  end; cbn beta iota.

Ltac calendar_step Hleap :=
  first [ rewrite next_day_eq | rewrite prev_day_eq ];
  rewrite ?days_in_month_eq, ?Hleap; eval_closed_Z.

Lemma end_of_month_steps (y m d : Z) :
  1 ≤ y ≤ 9999 → 1 ≤ m ≤ 12 →
  (next_month ← add_days (replace_day28 (mk_datetime y m d)) 4;
   add_days next_month (- day next_month))
  = if (y =? 9999) && (m =? 12)
    then Raise (OverflowError "date value out of range")
    else Return (mk_datetime y m (days_in_month y m)).
Proof.
  intros Hy Hm. unfold replace_day28. rewrite add_days_eq. simpl.
  destruct (month_cases m Hm) as [-> | [-> | [-> | [-> | [-> | [-> | [-> | [-> | [-> | [-> | [-> | ->]]]]]]]]]]].
  all: destruct (is_leap y) eqn:Hleap.
  all: rewrite (days_in_month_eq y), ?Hleap; eval_closed_Z.
  all: repeat calendar_step Hleap.
  all: rewrite ?andb_false_r, ?andb_true_r; cbn [year month day].
  all: try (destruct (Z.eqb_spec y 9999) as [-> | Hne]; [reflexivity |]).
  all: replace ((1 <=? y) && (y <=? 9999)) with true by lia.
  all: try replace ((1 <=? y + 1) && (y + 1 <=? 9999)) with true by lia.
  all: unfold mbind, outcome_bind; cbn beta iota; rewrite add_days_eq; simpl.
  all: repeat calendar_step Hleap.
  all: cbn [year]; rewrite ?Z.add_simpl_r.
  all: by replace ((1 <=? y) && (y <=? 9999)) with true by lia.
Qed.

#[local] Transparent next_day prev_day add_days days_in_month.

(* ===================================================================== *)
(** ** What [strptime] accepts *)
(* ===================================================================== *)

Lemma ascii_code_range (lo hi : nat) (c : ascii) :
  (lo ≤ nat_of_ascii c ≤ hi)%nat →
  c ∈ map ascii_of_nat (seq lo (S hi - lo)).
Proof.
  intros H. rewrite <- (ascii_nat_embedding c).
  apply list_elem_of_In, in_map, in_seq. lia.
Qed.

Lemma is_digit_cases (c : ascii) :
  is_digit c = true →
  c ∈ ["0"; "1"; "2"; "3"; "4"; "5"; "6"; "7"; "8"; "9"]%char.
Proof.
  unfold is_digit. intros H. apply (ascii_code_range 48 57). lia.
Qed.

Lemma range_cases (lo hi c : ascii) :
  cclass_match (Range lo hi) c = true →
  c ∈ map ascii_of_nat
        (seq (nat_of_ascii lo) (S (nat_of_ascii hi) - nat_of_ascii lo)).
Proof. simpl. intros H. apply ascii_code_range. lia. Qed.

Lemma is_digit_digit_char (v : Z) : 0 ≤ v ≤ 9 → is_digit (digit_char v) = true.
Proof.
  intros H.
  assert (v = 0 ∨ v = 1 ∨ v = 2 ∨ v = 3 ∨ v = 4 ∨ v = 5 ∨ v = 6 ∨ v = 7
          ∨ v = 8 ∨ v = 9) as Hv by lia.
  repeat destruct Hv as [-> | Hv]; try subst v; reflexivity.
Qed.

Lemma digit_val_digit_char (v : Z) : 0 ≤ v ≤ 9 → digit_val (digit_char v) = v.
Proof.
  intros H.
  assert (v = 0 ∨ v = 1 ∨ v = 2 ∨ v = 3 ∨ v = 4 ∨ v = 5 ∨ v = 6 ∨ v = 7
          ∨ v = 8 ∨ v = 9) as Hv by lia.
  repeat destruct Hv as [-> | Hv]; try subst v; reflexivity.
Qed.

Lemma digit_char_digit_val (c : ascii) :
  is_digit c = true → digit_char (digit_val c) = c ∧ 0 ≤ digit_val c ≤ 9.
Proof.
  intros H. apply is_digit_cases in H.
  repeat (apply elem_of_cons in H as [-> | H]; [by vm_compute |]).
  by apply elem_of_nil in H.
Qed.

Lemma lstrip_digit (c : ascii) (s : string) :
  is_digit c = true → lstrip (String c s) = String c s.
Proof.
  intros H. apply is_digit_cases in H.
  repeat (apply elem_of_cons in H as [-> | H]; [reflexivity |]).
  by apply elem_of_nil in H.
Qed.

Lemma four_digits_of_digits (a b c d : Z) :
  0 ≤ a ≤ 9 → 0 ≤ b ≤ 9 → 0 ≤ c ≤ 9 → 0 ≤ d ≤ 9 →
  four_digits (1000 * a + 100 * b + 10 * c + d)
  = String (digit_char a) (String (digit_char b)
      (String (digit_char c) (String (digit_char d) ""))).
Proof.
  intros Ha Hb Hc Hd. unfold four_digits, two_digits.
  repeat f_equal; Z.div_mod_to_equations; lia.
Qed.

Lemma py_int_four_digits (y : Z) : 0 ≤ y ≤ 9999 → py_int (four_digits y) = y.
Proof.
  intros Hy. unfold py_int, four_digits, two_digits.
  rewrite lstrip_digit by (apply is_digit_digit_char; Z.div_mod_to_equations; lia).
  cbn [int_digits].
  rewrite !digit_val_digit_char by (Z.div_mod_to_equations; lia).
  Z.div_mod_to_equations; lia.
Qed.

(** *** Inversion of the matcher *)

Lemma match_alt_cons_inv (k : cclass) (alt : list cclass) (s txt r : string) :
  match_alt (k :: alt) s = Some (txt, r) →
  ∃ c s' txt', s = String c s' ∧ cclass_match k c = true
               ∧ match_alt alt s' = Some (txt', r) ∧ txt = String c txt'.
Proof.
  destruct s as [|c s']; cbn [match_alt]; [done |].
  destruct (cclass_match k c) eqn:Hk; [| done].
  destruct (match_alt alt s') as [[txt' r'] |] eqn:Halt; [| done].
  intros [= <- <-]. by exists c, s', txt'.
Qed.

Lemma match_alt_nil_inv (s txt r : string) :
  match_alt [] s = Some (txt, r) → txt = "" ∧ r = s.
Proof. by intros [= <- <-]. Qed.

Lemma append_String (c : ascii) (s r : string) :
  String c s +:+ r = String c (s +:+ r).
Proof. reflexivity. Qed.

Lemma append_empty (r : string) : "" +:+ r = r.
Proof. reflexivity. Qed.

Lemma append_empty_r (s : string) : s +:+ "" = s.
Proof. induction s as [| c s IH]; [done |]. by rewrite append_String, IH. Qed.

Lemma match_alt_append (alt : list cclass) (s txt r : string) :
  match_alt alt s = Some (txt, r) → s = txt +:+ r.
Proof.
  revert s txt. induction alt as [| k alt IH]; intros s txt H.
  - by apply match_alt_nil_inv in H as [-> ->].
  - apply match_alt_cons_inv in H as (c & s' & txt' & -> & _ & H & ->).
    rewrite append_String. f_equal. by apply IH.
Qed.

Lemma first_some_inv {A B} (f : A → option B) (l : list A) (b : B) :
  first_some f l = Some b → ∃ a, a ∈ l ∧ f a = Some b.
Proof.
  induction l as [| a l IH]; [done |]. cbn.
  destruct (f a) as [b' |] eqn:Ha.
  - intros [= ->]. exists a. split; [left | done].
  - intros H. destruct (IH H) as (a' & ? & ?). exists a'. split; [by right | done].
Qed.

Lemma match_groups_cons_inv alts gs (s : string) txts rest :
  match_groups (alts :: gs) s = Some (txts, rest) →
  ∃ alt txt r txts', alt ∈ alts ∧ match_alt alt s = Some (txt, r)
                     ∧ match_groups gs r = Some (txts', rest)
                     ∧ txts = txt :: txts'.
Proof.
  cbn [match_groups]. intros H.
  apply first_some_inv in H as (alt & Hin & H).
  destruct (match_alt alt s) as [[txt r] |] eqn:Halt; [| done].
  destruct (match_groups gs r) as [[txts' rest'] |] eqn:Hgs; [| done].
  injection H as <- <-. by exists alt, txt, r, txts'.
Qed.

(** Every character class of the format narrows the character down to a
    short list; [class_cases] walks an alternative and enumerates them. *)
Ltac class_cases H :=
  repeat match type of H with
  | match_alt (_ :: _) _ = Some _ =>
      let Hc := fresh "Hc" in
      apply match_alt_cons_inv in H as (? & ? & ? & -> & Hc & H & ->);
      lazymatch type of Hc with
      | cclass_match Digit _ = true => apply is_digit_cases in Hc
      | cclass_match (Range _ _) _ = true => apply range_cases in Hc
      | cclass_match (Lit _) _ = true =>
          cbn [cclass_match] in Hc; apply Ascii.eqb_eq in Hc
      end;
      revert Hc
  | match_alt [] _ = Some _ => apply match_alt_nil_inv in H as [-> ->]
  end.

Ltac enum_char :=
  let Hc := fresh "Hc" in
  intros Hc;
  lazymatch type of Hc with
  | _ = _ => subst
  | _ ∈ ?l =>
      let l' := eval vm_compute in l in
      change l with l' in Hc;
      repeat (apply elem_of_cons in Hc as [-> | Hc]);
      [ .. | by apply elem_of_nil in Hc ]
  end.

Ltac exists_py_int :=
  match goal with
  | |- ∃ n, _ ∧ _ ∧ py_int ?t = n =>
      let v := eval vm_compute in (py_int t) in exists v
  end.

Lemma re_dash_inv (alt : list cclass) (s txt r : string) :
  alt ∈ re_dash → match_alt alt s = Some (txt, r) →
  txt = "-" ∧ s = String "-" r.
Proof.
  intros Hin H. apply list_elem_of_singleton in Hin as ->.
  class_cases H. by intros <-.
Qed.

Lemma re_m_inv (alt : list cclass) (s txt r : string) :
  alt ∈ re_m → match_alt alt s = Some (txt, r) →
  ∃ m, 1 ≤ m ≤ 12 ∧ txt ∈ month_texts m ∧ py_int txt = m.
Proof.
  intros Hin H. unfold re_m in Hin.
  repeat (apply elem_of_cons in Hin as [-> | Hin]);
    [ .. | by apply elem_of_nil in Hin ].
  all: class_cases H; repeat enum_char.
  all: exists_py_int; split; [lia | split; [| reflexivity]].
  all: vm_compute; repeat first [ by left | right ].
Qed.

Lemma re_d_inv (alt : list cclass) (s txt r : string) :
  alt ∈ re_d → match_alt alt s = Some (txt, r) →
  ∃ d, 1 ≤ d ≤ 31 ∧ txt ∈ day_texts d ∧ py_int txt = d.
Proof.
  intros Hin H. unfold re_d in Hin.
  repeat (apply elem_of_cons in Hin as [-> | Hin]);
    [ .. | by apply elem_of_nil in Hin ].
  all: class_cases H; repeat enum_char.
  all: exists_py_int; split; [lia | split; [| reflexivity]].
  all: vm_compute; repeat first [ by left | right ].
Qed.

Lemma re_Y_inv (alt : list cclass) (s txt r : string) :
  alt ∈ re_Y → match_alt alt s = Some (txt, r) →
  ∃ y, 0 ≤ y ≤ 9999 ∧ txt = four_digits y ∧ py_int txt = y.
Proof.
  intros Hin H. apply list_elem_of_singleton in Hin as ->.
  repeat (apply match_alt_cons_inv in H as (? & ? & ? & -> & ?%digit_char_digit_val & H & ->)).
  apply match_alt_nil_inv in H as [-> ->].
  repeat match goal with H : _ ∧ _ |- _ => destruct H as [? ?] end.
  match goal with
  | |- ∃ y, _ ∧ String ?a (String ?b (String ?c (String ?d "")))  = _ ∧ _ =>
      exists (1000 * digit_val a + 100 * digit_val b + 10 * digit_val c
              + digit_val d)
  end.
  split; [lia |]. split.
  - rewrite four_digits_of_digits by lia. congruence.
  - unfold py_int. rewrite lstrip_digit.
    + cbn [int_digits]. lia.
    + rewrite <- H0. apply is_digit_digit_char. lia.
Qed.


(** *** Completeness of the matcher on the date texts *)

Lemma match_Y_four_digits (y : Z) (gs : list (list (list cclass))) (r : string) :
  0 ≤ y ≤ 9999 →
  match_groups (re_Y :: gs) (four_digits y +:+ r)
  = match match_groups gs r with
    | Some (txts, rest) => Some (four_digits y :: txts, rest)
    | None => None
    end.
Proof.
  intros Hy. unfold four_digits, two_digits, re_Y.
  rewrite !append_String, append_empty.
  cbn [match_groups first_some match_alt cclass_match].
  rewrite !is_digit_digit_char by (Z.div_mod_to_equations; lia).
  by destruct (match_groups gs r) as [[txts rest] |].
Qed.

Lemma tail_matches_all :
  forallb (λ m, forallb (λ mt, forallb (λ d, forallb (tail_matches m d mt)
     (day_texts d)) day_numbers) (month_texts m)) month_numbers = true.
Proof. vm_compute. reflexivity. Qed.

Lemma match_tail (m d : Z) (mt dt : string) :
  1 ≤ m ≤ 12 → 1 ≤ d ≤ 31 → mt ∈ month_texts m → dt ∈ day_texts d →
  match_groups [re_dash; re_m; re_dash; re_d] ("-" +:+ mt +:+ "-" +:+ dt)
  = Some (["-"; mt; "-"; dt], "") ∧ py_int mt = m ∧ py_int dt = d.
Proof.
  intros Hm Hd Hmt Hdt.
  pose proof tail_matches_all as H.
  rewrite forallb_forall in H.
  assert (In m month_numbers) as Hm' by (unfold month_numbers; simpl; lia).
  specialize (H m Hm'). rewrite forallb_forall in H.
  specialize (H mt (proj1 (list_elem_of_In _ _) Hmt)).
  rewrite forallb_forall in H.
  assert (In d day_numbers) as Hd' by (unfold day_numbers; simpl; lia).
  specialize (H d Hd'). rewrite forallb_forall in H.
  specialize (H dt (proj1 (list_elem_of_In _ _) Hdt)).
  unfold tail_matches in H.
  destruct (match_groups _ _) as [[txts rest] |]; [| done].
  apply andb_prop in H as [H Hd2]. apply andb_prop in H as [H Hm2].
  apply andb_prop in H as [H1 H2].
  apply bool_decide_eq_true in H1 as ->. apply bool_decide_eq_true in H2 as ->.
  split; [done | lia].
Qed.

(** [strptime] returns a date exactly on the date texts of the calendar
    dates of years 1 to 9999, and raises nothing but [ValueError]. *)
Lemma strptime_Return (s : string) (dt : datetime) :
  strptime s = Return dt
  ↔ calendar_date (year dt) (month dt) (day dt)
    ∧ date_text s (year dt) (month dt) (day dt).
Proof.
  split.
  - unfold strptime, format_regex.
    destruct (match_groups _ s) as [[txts rest] |] eqn:Hmatch; [| done].
    destruct rest; [| done].
    apply match_groups_cons_inv in Hmatch
      as (aY & tY & r1 & txts1 & HaY & HmY & Hmatch & ->).
    apply match_groups_cons_inv in Hmatch
      as (a1 & t1 & r2 & txts2 & Ha1 & Hm1 & Hmatch & ->).
    apply match_groups_cons_inv in Hmatch
      as (am & tm & r3 & txts3 & Ham & Hmm & Hmatch & ->).
    apply match_groups_cons_inv in Hmatch
      as (a2 & t2 & r4 & txts4 & Ha2 & Hm2 & Hmatch & ->).
    apply match_groups_cons_inv in Hmatch
      as (ad & td & r5 & txts5 & Had & Hmd & Hmatch & ->).
    injection Hmatch as <- ->.
    pose proof (match_alt_append _ _ _ _ HmY) as ->.
    pose proof (match_alt_append _ _ _ _ Hmm) as ->.
    pose proof (match_alt_append _ _ _ _ Hmd) as ->.
    destruct (re_dash_inv _ _ _ _ Ha1 Hm1) as [-> ->].
    destruct (re_dash_inv _ _ _ _ Ha2 Hm2) as [-> ->].
    destruct (re_Y_inv _ _ _ _ HaY HmY) as (y & Hy & -> & ->).
    destruct (re_m_inv _ _ _ _ Ham Hmm) as (m & Hm & Hmt & ->).
    destruct (re_d_inv _ _ _ _ Had Hmd) as (d & Hd & Hdt & ->).
    intros [Hcal ->]%new_datetime_Return. split; [done |].
    exists tm, td. split; [done |]. split; [done |].
    cbn [year]. by rewrite append_empty_r, !append_String, !append_empty.
  - intros [Hcal (mt & dtx & Hmt & Hdt & ->)].
    destruct Hcal as (Hy & Hm & Hd).
    pose proof (days_in_month_bounds (year dt) _ Hm) as Hdim.
    destruct (match_tail (month dt) (day dt) mt dtx) as (Hmatch & Hpm & Hpd);
      [lia | lia | done | done |].
    unfold strptime, format_regex.
    rewrite match_Y_four_digits by lia. rewrite Hmatch.
    rewrite py_int_four_digits, Hpm, Hpd by lia.
    apply new_datetime_Return. split; [done |]. by destruct dt.
Qed.

Lemma strptime_raises (s : string) (e : exn) :
  strptime s = Raise e → is_ValueError e = true.
Proof.
  unfold strptime.
  destruct (match_groups _ s) as [[txts rest] |]; [| by intros [= <-]].
  destruct rest; [| by intros [= <-]].
  destruct txts as [| Y [| ? [| m [| ? [| d [| ? ?]]]]]]; try by intros [= <-].
  apply new_datetime_raises.
Qed.

(* ===================================================================== *)
(** ** Properties of [validate_date] *)
(* ===================================================================== *)

Import AgentApi.

Lemma outcome_bind_assoc {A B C} (c : outcome A) (f : A → outcome B)
    (g : B → outcome C) :
  (c ≫= f) ≫= g = c ≫= (λ a, f a ≫= g).
Proof. by destruct c. Qed.

Lemma outcome_bind_Return {A B} (a : A) (k : A → outcome B) :
  Return a ≫= k = k a.
Proof. reflexivity. Qed.

(** [validate_date] in closed form: the parse decides between [None] and a
    date, the date between the input and the formatted end of its month. *)
Lemma validate_date_eq (zero_fill : bool) (s : string) :
  validate_date zero_fill s =
    match strptime s with
    | Raise _ => Return None
    | Return dt =>
        if (year dt =? 9999) && (month dt =? 12)
        then Raise (OverflowError "date value out of range")
        else if datetime_eqb dt (last_day_of_month dt) then Return (Some s)
             else Return (Some (strftime zero_fill (last_day_of_month dt)))
    end.
Proof.
  unfold validate_date.
  destruct (strptime s) as [dt | e] eqn:Hparse.
  - apply strptime_Return in Hparse as [(Hy & Hm & Hd) _].
    rewrite outcome_bind_Return, <- outcome_bind_assoc.
    destruct dt as [y m d]. cbn [year month day] in *.
    rewrite end_of_month_steps by done. unfold last_day_of_month.
    cbn [year month day].
    destruct ((y =? 9999) && (m =? 12)); [done |].
    rewrite outcome_bind_Return. by destruct (datetime_eqb _ _).
  - apply strptime_raises in Hparse. by destruct e.
Qed.

Lemma datetime_eqb_last_day (y m d : Z) :
  datetime_eqb (mk_datetime y m d) (last_day_of_month (mk_datetime y m d))
  = (d =? days_in_month y m).
Proof.
  unfold datetime_eqb, last_day_of_month. cbn [year month day].
  by rewrite !Z.eqb_refl.
Qed.

(** A date of years 1..9999 outside December 9999, in any of its texts. *)
Lemma validate_date_on_date (zero_fill : bool) (s : string) (y m d : Z) :
  calendar_date y m d → date_text s y m d → ¬ (y = 9999 ∧ m = 12) →
  validate_date zero_fill s =
    Return (Some (if d =? days_in_month y m then s
                  else strftime zero_fill
                         (mk_datetime y m (days_in_month y m)))).
Proof.
  intros Hcal Htxt Hdec. rewrite validate_date_eq.
  assert (strptime s = Return (mk_datetime y m d)) as ->
    by by apply strptime_Return.
  cbn [year month day].
  replace ((y =? 9999) && (m =? 12)) with false by lia.
  rewrite datetime_eqb_last_day. by destruct (d =? _).
Qed.

Lemma validate_date_None (zero_fill : bool) (s : string) :
  validate_date zero_fill s = Return None
  ↔ ¬ ∃ y m d, calendar_date y m d ∧ date_text s y m d.
Proof.
  rewrite validate_date_eq. split.
  - intros H (y & m & d & Hcal & Htxt).
    assert (strptime s = Return (mk_datetime y m d)) as Hp
      by by apply strptime_Return.
    rewrite Hp in H. by repeat case_match.
  - intros H. destruct (strptime s) as [dt | e] eqn:Hp; [| done].
    destruct H. exists (year dt), (month dt), (day dt).
    by apply strptime_Return.
Qed.

(** From year 1000 on a plain number has four digits. *)
Lemma decimal_four_digits_table :
  forallb (λ n, String.eqb (decimal (Z.of_nat n)) (four_digits (Z.of_nat n)))
    (seq 1000 (Z.to_nat 9000)) = true.
Proof. vm_compute. reflexivity. Qed.

Lemma decimal_four_digits (y : Z) :
  1000 ≤ y ≤ 9999 → decimal y = four_digits y.
Proof.
  intros Hy. pose proof decimal_four_digits_table as H.
  rewrite forallb_forall in H. specialize (H (Z.to_nat y)).
  rewrite Z2Nat.id in H by lia. apply String.eqb_eq, H, in_seq. lia.
Qed.

Lemma strftime_iso (zero_fill : bool) (y m d : Z) :
  zero_fill = true ∨ 1000 ≤ y ≤ 9999 →
  strftime zero_fill (mk_datetime y m d)
  = four_digits y +:+ "-" +:+ two_digits m +:+ "-" +:+ two_digits d.
Proof.
  intros H. unfold strftime, year_text. cbn [year month day].
  destruct zero_fill; [done |]. destruct H as [? | H]; [done |].
  by rewrite decimal_four_digits.
Qed.

(** C5, as stated, fails: a month or a day written without its leading zero
    is outside [YYYY-MM-DD], and is accepted and normalised all the same. *)
Lemma validate_date_accepts_short_fields :
  ¬ (∀ (zero_fill : bool) (s : string),
       strict_ymd s = false → validate_date zero_fill s = Return None).
Proof.
  intros H. specialize (H true "2023-1-15" eq_refl).
  vm_compute in H. discriminate.
Qed.

(** C5 (amended): on the strings of the model, whose characters are the
    code points below 256 (of these only [0]..[9] are decimal digits),
    [validate_date] returns [None] exactly on the strings that
    are not a text of a calendar date of years 1..9999: four digits of year,
    a dash, the month, a dash, the day, month and day with or without their
    leading zero (the day also with a blank for it). On such a text, before
    December 9999, it returns the input itself when the day is the last one
    of its month, and otherwise the last day of that month as [strftime]
    writes it: [YYYY-MM-DD] from year 1000 on, and for every year where the
    platform zero-fills the year. In particular ["2023-01-15"] gives
    ["2023-01-31"] and ["2023-03-31"] itself. *)
Theorem validate_date_spec (zero_fill : bool) :
  (∀ s : string,
     validate_date zero_fill s = Return None
     ↔ ¬ ∃ y m d, calendar_date y m d ∧ date_text s y m d)
  ∧ (∀ (s : string) (y m d : Z),
       calendar_date y m d → date_text s y m d → ¬ (y = 9999 ∧ m = 12) →
       (d ≠ days_in_month y m →
        validate_date zero_fill s
        = Return (Some (strftime zero_fill
                          (mk_datetime y m (days_in_month y m))))
        ∧ (zero_fill = true ∨ 1000 ≤ y →
           validate_date zero_fill s
           = Return (Some (four_digits y +:+ "-" +:+ two_digits m +:+ "-"
                             +:+ two_digits (days_in_month y m)))))
       ∧ (d = days_in_month y m → validate_date zero_fill s = Return (Some s)))
  ∧ validate_date zero_fill "2023-01-15" = Return (Some "2023-01-31")
  ∧ validate_date zero_fill "2023-03-31" = Return (Some "2023-03-31").
Proof.
  split; [apply validate_date_None |].
  split; [| by destruct zero_fill; split; vm_compute].
  intros s y m d Hcal Htxt Hdec.
  rewrite (validate_date_on_date zero_fill s y m d) by done.
  split; intros Hd.
  - replace (d =? days_in_month y m) with false by lia.
    split; [done |]. intros Hfill. rewrite strftime_iso; [done |].
    destruct Hcal as [? _]. destruct Hfill; [by left | right; lia].
  - by replace (d =? days_in_month y m) with true by lia.
Qed.

Lemma validate_date_spec_witness :
  validate_date false "2024-2-3" = Return (Some "2024-02-29")
  ∧ validate_date false "2024-02-29" = Return (Some "2024-02-29").
Proof.
  destruct (validate_date_spec false) as (_ & H & _).
  split.
  - refine (proj2 (proj1 (H "2024-2-3" 2024 2 3 _ _ _) _) _).
    + vm_compute. repeat split; discriminate.
    + exists "2", "3". repeat split; compute_done.
    + lia.
    + vm_compute. discriminate.
    + right. lia.
  - refine (proj2 (H "2024-02-29" 2024 2 29 _ _ _) _).
    + vm_compute. repeat split; discriminate.
    + exists "02", "29". repeat split; compute_done.
    + lia.
    + reflexivity.
Defined.

(** A date in [YYYY-MM-DD] is one of its own texts. *)
Lemma date_text_iso (y m d : Z) :
  date_text (four_digits y +:+ "-" +:+ two_digits m +:+ "-" +:+ two_digits d)
    y m d.
Proof.
  exists (two_digits m), (two_digits d). unfold month_texts, day_texts.
  split; [by destruct (m <? 10); left |]. split; [by destruct (d <? 10); left |].
  reflexivity.
Qed.

(** C6, as stated, fails where the platform writes the year of a date as a
    plain number: the end of January 999 comes out as ["999-01-31"], which
    is not accepted again. *)
Lemma validate_date_not_idempotent_before_1000 :
  ¬ (∀ (zero_fill : bool) (d r : string),
       validate_date zero_fill d = Return (Some r) →
       validate_date zero_fill r = Return (Some r)).
Proof.
  intros H. specialize (H false "0999-01-15" "999-01-31").
  assert (validate_date false "999-01-31" = Return (Some "999-01-31")) as Hr
    by (apply H; vm_compute; reflexivity).
  vm_compute in Hr. discriminate.
Qed.

(** C6 (amended): date normalisation is idempotent on every accepted date
    string of a year from 1000 on, on every accepted date string where the
    platform zero-fills the year, and on every accepted date string that
    already names the last day of its month: there, whatever [d] is mapped
    to is mapped to itself. *)
Theorem validate_date_idempotent (zero_fill : bool) (d r : string)
    (dt : datetime) :
  validate_date zero_fill d = Return (Some r) →
  strptime d = Return dt →
  zero_fill = true ∨ 1000 ≤ year dt
  ∨ day dt = days_in_month (year dt) (month dt) →
  validate_date zero_fill r = Return (Some r).
Proof.
  intros H Hp Hfill. pose proof H as H'. rewrite validate_date_eq, Hp in H.
  destruct dt as [y m dd].
  apply strptime_Return in Hp as [Hcal Htxt]. cbn [year month day] in *.
  destruct ((y =? 9999) && (m =? 12)) eqn:Hdec; [done |].
  rewrite datetime_eqb_last_day in H.
  destruct (dd =? days_in_month y m) eqn:Hd.
  - by injection H as <-.
  - injection H as <-. unfold last_day_of_month. cbn [year month day].
    destruct Hcal as (Hy & Hm & Hdd).
    pose proof (days_in_month_bounds y m Hm).
    assert (zero_fill = true ∨ 1000 ≤ y ≤ 9999) as Hiso
      by (destruct Hfill as [? | [? | ?]]; [by left | right; lia | lia]).
    rewrite strftime_iso by done.
    rewrite (validate_date_on_date _ _ y m (days_in_month y m)).
    + by rewrite Z.eqb_refl.
    + repeat split; lia.
    + apply date_text_iso.
    + lia.
Qed.

Lemma validate_date_idempotent_witness :
  validate_date false "2023-01-31" = Return (Some "2023-01-31").
Proof.
  apply (validate_date_idempotent false "2023-1-15" "2023-01-31"
           (mk_datetime 2023 1 15)).
  - vm_compute. reflexivity.
  - vm_compute. reflexivity.
  - right. left. cbn. lia.
Defined.

(* ===================================================================== *)
(** ** Properties of the metric engine *)
(* ===================================================================== *)

Section MetricEngine.

Import Formulas.

Lemma map_nth_seq {A B} (g : A → B) (d : A) (l : list A) :
  map (λ i, g (nth i l d)) (seq 0 (length l)) = map g l.
Proof.
  induction l as [| x l IH]; [done |].
  cbn [length seq map nth]. f_equal.
  by rewrite <- seq_shift, map_map.
Qed.

Lemma rounded_sum_nth (g : float → float) (l : list float) :
  rounded_sum (length l) (λ i, g (nth i l 0%float)) = add_reduce (map g l).
Proof. unfold rounded_sum. by rewrite map_nth_seq. Qed.

Lemma rounded_mean_eq (l : list float) : rounded_mean l = np_mean (Arr1 l).
Proof.
  unfold rounded_mean. cbn [np_mean].
  by rewrite (rounded_sum_nth (λ x, x)), map_id.
Qed.

(** [volatility] of a list is the formula of the specification, computed
    in binary64. *)
Lemma volatility_eq (returns : list float) :
  volatility (PyList returns) = Return (rounded_sample_std returns).
Proof.
  unfold volatility, rounded_sample_std.
  cbn [np_array np_sub_scalar np_square np_sum py_len].
  rewrite outcome_bind_Return, map_map, rounded_mean_eq.
  by rewrite (rounded_sum_nth
                (λ x, ((x - np_mean (Arr1 returns))
                       * (x - np_mean (Arr1 returns)))%float)).
Qed.

Lemma pairwise_sum_short (depth : nat) (l : list float) :
  (length l < 8)%nat → pairwise_sum depth l = sum_left 0%float l.
Proof.
  intros H%Nat.ltb_lt. by destruct depth; cbn [pairwise_sum]; rewrite H.
Qed.

Lemma sum_left_upto (n : nat) (f : nat → float) :
  sum_left 0%float (map f (seq 0 n)) = sum_upto_rounded n f.
Proof.
  unfold sum_left. induction n as [| n IH]; [done |].
  rewrite seq_S, map_app, fold_left_app, IH. reflexivity.
Qed.

Lemma rounded_sum_short (n : nat) (f : nat → float) :
  (n < 8)%nat → rounded_sum n f = (0 + sum_upto_rounded n f)%float.
Proof.
  intros Hn. unfold rounded_sum, add_reduce.
  rewrite pairwise_sum_short by (by rewrite length_map, length_seq).
  by rewrite sum_left_upto.
Qed.

Lemma sample_volatility :
  volatility (PyList [0.01; 0.02; -0.01; 0.03]%float)
  = Return 0.017078251276599333%float.
Proof. vm_compute. reflexivity. Qed.

Lemma sample_volatility_value :
  float_value 0.017078251276599333%float
  = Some (IZR 4922470789467677 * powerRZ 2 (-58))%R.
Proof.
  unfold float_value.
  assert (FloatOps.Prim2SF 0.017078251276599333%float
          = SpecFloat.S754_finite false 4922470789467677 (-58)) as ->
    by (vm_compute; reflexivity).
  reflexivity.
Qed.

Lemma powerRZ_2_minus_58 : (powerRZ 2 (-58) = / 288230376151711744)%R.
Proof.
  change (-58)%Z with (Z.opp (Z.of_nat 58)).
  rewrite powerRZ_neg', <- pow_powerRZ. f_equal.
  change 2%R with (IZR 2). rewrite pow_IZR. f_equal.
Qed.

Lemma sample_volatility_is_close :
  (Rabs (IZR 4922470789467677 * powerRZ 2 (-58) - sqrt (7 / 24000))
   < 1 / 10 ^ 17)%R.
Proof.
  rewrite powerRZ_2_minus_58.
  set (x := (4922470789467677 * / 288230376151711744)%R).
  assert (0 < x - 1 / 10 ^ 17)%R as Hlow by (unfold x; lra).
  assert (x - 1 / 10 ^ 17 < sqrt (7 / 24000))%R as H1.
  { rewrite <- (sqrt_pow2 (x - 1 / 10 ^ 17)) by lra.
    apply sqrt_lt_1; [apply pow_le; lra | lra |]. unfold x. lra. }
  assert (sqrt (7 / 24000) < x + 1 / 10 ^ 17)%R as H2.
  { rewrite <- (sqrt_pow2 (x + 1 / 10 ^ 17)) by lra.
    apply sqrt_lt_1; [lra | apply pow_le; lra |]. unfold x. lra. }
  apply Rabs_def1; lra.
Qed.

(** The rounding is that of the program: three equal returns do not have
    volatility 0, and the sum of an empty array is the identity. *)
Example volatility_rounding :
  volatility (PyList [0.1; 0.1; 0.1]%float)
  = Return 1.6996749443881478e-17%float
  ∧ volatility (PyList []) = Return (-0)%float
  ∧ volatility (PyList [0.5]%float) = Return nan.
Proof. repeat split; vm_compute; reflexivity. Qed.

Lemma sample_std_of_sample :
  sample_std [0.01; 0.02; -0.01; 0.03]%R = sqrt (7 / 24000).
Proof.
  unfold sample_std, sum_squared_deviations, series_mean.
  cbn [length sum_upto nth INR]. f_equal. lra.
Qed.

Lemma volatility_overflow :
  volatility (PyList [1e308; -1e308]%float) = Return infinity.
Proof. vm_compute. reflexivity. Qed.

(** C7, as stated, fails, and not by a rounding error: read with the
    tolerance of the specification's scenario (six decimal places), the
    claim says that for every series of at least two finite returns
    [volatility] returns a number within [1/10^6] of the sample standard
    deviation. For [1e308, -1e308] the squares of the deviations overflow
    and [volatility] returns [inf], which is no number at all, while the
    sample standard deviation of the series is finite. *)
Lemma volatility_is_not_always_a_number :
  ¬ (∀ returns : list float,
       (2 ≤ length returns)%nat →
       Forall (λ x, is_Some (float_value x)) returns →
       ∃ v x,
         volatility (PyList returns) = Return v
         ∧ float_value v = Some x
         ∧ (Rabs (x - sample_std (map exact_value returns)) <= 1 / 10 ^ 6)%R).
Proof.
  intros H.
  destruct (H [1e308; -1e308]%float) as (v & x & Hv & Hx & _).
  - cbn [length]. lia.
  - repeat constructor; unfold float_value;
      match goal with
      | |- context [FloatOps.Prim2SF ?y] =>
          let r := eval vm_compute in (FloatOps.Prim2SF y) in
          change (FloatOps.Prim2SF y) with r
      end; by eexists.
  - rewrite volatility_overflow in Hv. injection Hv as <-.
    vm_compute in Hx. discriminate Hx.
Qed.

(** C7 (amended): [volatility] of a list of binary64 returns never raises
    and is the formula of the specification, the square root of the sum of
    the squared deviations from the mean over [n - 1], with every
    operation rounded to binary64 and the two sums taken as numpy takes
    them: the identity [0.0] plus the terms, from left to right when there
    are fewer than 8. For [0.01, 0.02, -0.01, 0.03] the result is the
    binary64 number [0.017078251276599333], which is within [1/10^17] of
    the sample standard deviation of that series, [sqrt (7/24000)]. The
    result need not be a number: for [1e308, -1e308] it is [inf]. *)
Theorem volatility_is_rounded_sample_std :
  (∀ returns : list float,
     volatility (PyList returns) = Return (rounded_sample_std returns))
  ∧ (∀ (n : nat) (f : nat → float),
       (n < 8)%nat → rounded_sum n f = (0 + sum_upto_rounded n f)%float)
  ∧ volatility (PyList [0.01; 0.02; -0.01; 0.03]%float)
    = Return 0.017078251276599333%float
  ∧ (∃ x, float_value 0.017078251276599333%float = Some x
          ∧ (Rabs (x - sample_std [0.01; 0.02; -0.01; 0.03]) < 1 / 10 ^ 17)%R)
  ∧ sample_std [0.01; 0.02; -0.01; 0.03]%R = sqrt (7 / 24000)
  ∧ volatility (PyList [1e308; -1e308]%float) = Return infinity.
Proof.
  split; [exact volatility_eq |]. split; [exact rounded_sum_short |].
  split; [exact sample_volatility |].
  split; [| split; [exact sample_std_of_sample | exact volatility_overflow]].
  eexists. split; [exact sample_volatility_value |].
  rewrite sample_std_of_sample. exact sample_volatility_is_close.
Qed.

End MetricEngine.

Section SeriesOfDifferentLengths.

Import Formulas.

Context (np : Numpy).

(** Two arrays of different lengths are subtracted only when one of them
    has a single element. *)
Lemma np_sub_mismatch (p b : list float) :
  length p ≠ length b → length p ≠ 1%nat → length b ≠ 1%nat →
  np_sub np (Arr1 p) (Arr1 b)
  = Raise (ValueError (broadcast_error np (length p) (length b))).
Proof.
  intros Hpb Hp Hb. unfold np_sub.
  destruct (Nat.eqb_spec (length p) (length b)); [done |].
  destruct (Nat.eqb_spec (length p) 1); [done |].
  by destruct (Nat.eqb_spec (length b) 1).
Qed.

Lemma np_sub_stretch_right (p : list float) (y : float) :
  length p ≠ 1%nat →
  np_sub np (Arr1 p) (Arr1 [y]) = Return (Arr1 (map (λ x, (x - y)%float) p)).
Proof.
  intros Hp. unfold np_sub. cbn [length hd].
  destruct (Nat.eqb_spec (length p) 1); [done |]. reflexivity.
Qed.

Lemma np_sub_stretch_left (x : float) (b : list float) :
  length b ≠ 1%nat →
  np_sub np (Arr1 [x]) (Arr1 b) = Return (Arr1 (map (λ y, (x - y)%float) b)).
Proof.
  intros Hb. unfold np_sub. cbn [length hd].
  destruct (Nat.eqb_spec 1 (length b)); [congruence |]. reflexivity.
Qed.

Lemma np_sub_equal_lengths (p b : list float) :
  length p = length b →
  np_sub np (Arr1 p) (Arr1 b) = Return (Arr1 (zip_with_F PrimFloat.sub p b)).
Proof. intros H. unfold np_sub. by rewrite H, Nat.eqb_refl. Qed.

Lemma zip_with_F_repeat_right (p : list float) (y : float) :
  zip_with_F PrimFloat.sub p (map (λ _, y) p) = map (λ x, (x - y)%float) p.
Proof. induction p as [| x p IH]; [done |]. cbn. by rewrite IH. Qed.

Lemma zip_with_F_repeat_left (x : float) (b : list float) :
  zip_with_F PrimFloat.sub (map (λ _, x) b) b = map (λ y, (x - y)%float) b.
Proof. induction b as [| y b IH]; [done |]. cbn. by rewrite IH. Qed.

(** The difference with a series of one return is the difference with
    that return repeated along the other series. *)
Lemma np_sub_single_right (p : list float) (y : float) :
  length p ≠ 1%nat →
  np_sub np (Arr1 p) (Arr1 [y]) = np_sub np (Arr1 p) (Arr1 (map (λ _, y) p)).
Proof.
  intros Hp. rewrite np_sub_stretch_right by done.
  rewrite np_sub_equal_lengths by (by rewrite length_map).
  by rewrite zip_with_F_repeat_right.
Qed.

Lemma np_sub_single_left (x : float) (b : list float) :
  length b ≠ 1%nat →
  np_sub np (Arr1 [x]) (Arr1 b) = np_sub np (Arr1 (map (λ _, x) b)) (Arr1 b).
Proof.
  intros Hb. rewrite np_sub_stretch_left by done.
  rewrite np_sub_equal_lengths by (by rewrite length_map).
  by rewrite zip_with_F_repeat_left.
Qed.

(** Once the difference is taken, the two formulas return. *)
Lemma tracking_error_after_sub (p b : pyvalue) (diff : list float) :
  np_sub np (np_array p) (np_array b) = Return (Arr1 diff) →
  ∃ v, tracking_error np p b = Return v.
Proof.
  intros H. unfold tracking_error. rewrite H, outcome_bind_Return.
  cbn [np_len]. rewrite outcome_bind_Return. by eexists.
Qed.

Lemma information_ratio_after_sub (p b : pyvalue) (diff : list float) :
  np_sub np (np_array p) (np_array b) = Return (Arr1 diff) →
  ∃ v, information_ratio np p b = Return v.
Proof.
  intros H. destruct (tracking_error_after_sub p b diff H) as [te Hte].
  unfold information_ratio. rewrite H, outcome_bind_Return, Hte.
  rewrite outcome_bind_Return. by eexists.
Qed.

(** The two formulas depend on their arguments only through the
    difference. *)
Lemma tracking_error_same_sub (p b p' b' : pyvalue) :
  np_sub np (np_array p) (np_array b) = np_sub np (np_array p') (np_array b') →
  tracking_error np p b = tracking_error np p' b'
  ∧ information_ratio np p b = information_ratio np p' b'.
Proof.
  intros H.
  assert (tracking_error np p b = tracking_error np p' b') as Hte
    by (unfold tracking_error; by rewrite H).
  split; [done |]. unfold information_ratio. by rewrite H, Hte.
Qed.

Lemma call_two_series py (name : string) (f : pyvalue → pyvalue → outcome float)
    (p b : pyvalue) :
  FormulaApi.call_with_keywords py name
    (FormulaApi.Formula2 "portfolio_returns" "benchmark_returns" f)
    (<["portfolio_returns" := p]> (<["benchmark_returns" := b]> ∅))
  = (v ← f p b; Return (Some v)).
Proof.
  unfold FormulaApi.call_with_keywords.
  rewrite lookup_insert_eq, lookup_insert_ne, lookup_insert_eq by done.
  by rewrite bool_decide_eq_true_2 by (rewrite !dom_insert_L; set_solver).
Qed.

(** C8, as stated, fails: a benchmark series of one return against a
    portfolio series of three is no error; the single return is subtracted
    from each of the three. *)
Lemma tracking_error_broadcasts_single_return :
  ¬ (∀ (np : Numpy) (p b : list float),
       length p ≠ length b →
       (∃ e, tracking_error np (PyList p) (PyList b) = Raise e)
       ∧ (∃ e, information_ratio np (PyList p) (PyList b) = Raise e)).
Proof.
  intros H.
  destruct (H Samples.numpy [0.03; 0.01; 0.02]%float [0.01]%float)
    as [[e He] _]; [cbn; lia |].
  vm_compute in He. discriminate He.
Qed.

(** C8 (amended): for two series of different lengths neither of which has
    exactly one element, [tracking_error] and [information_ratio] raise
    the [ValueError] of numpy's subtraction, and the formula service
    answers with status 400 and the text of that error. No series is cut
    to the length of the other. When one of two series of different
    lengths has exactly one element there is no error: that element is
    subtracted from (or has subtracted from it) every element of the other
    series, and both formulas return what they return for the other series
    against the element repeated along it: a value over as many
    differences as the other series has returns. *)
Theorem mismatched_series_fail_unless_single (p b : list float) :
  length p ≠ length b →
  (length p ≠ 1%nat → length b ≠ 1%nat →
   tracking_error np (PyList p) (PyList b)
   = Raise (ValueError (broadcast_error np (length p) (length b)))
   ∧ information_ratio np (PyList p) (PyList b)
     = Raise (ValueError (broadcast_error np (length p) (length b)))
   ∧ (∀ py name, name = "tracking_error" ∨ name = "information_ratio" →
        FormulaApi.compute_metric np py
          {| FormulaApi.metric := name;
             FormulaApi.inputs :=
               <["portfolio_returns" := PyList p]>
                 (<["benchmark_returns" := PyList b]> ∅) |}
        = Raise (HTTPException 400
                   (broadcast_error np (length p) (length b)))))
  ∧ (∀ y, b = [y] →
       np_sub np (Arr1 p) (Arr1 b) = Return (Arr1 (map (λ x, (x - y)%float) p))
       ∧ (∃ v, tracking_error np (PyList p) (PyList b) = Return v)
       ∧ (∃ v, information_ratio np (PyList p) (PyList b) = Return v)
       ∧ tracking_error np (PyList p) (PyList b)
         = tracking_error np (PyList p) (PyList (map (λ _, y) p))
       ∧ information_ratio np (PyList p) (PyList b)
         = information_ratio np (PyList p) (PyList (map (λ _, y) p)))
  ∧ (∀ x, p = [x] →
       np_sub np (Arr1 p) (Arr1 b) = Return (Arr1 (map (λ y, (x - y)%float) b))
       ∧ (∃ v, tracking_error np (PyList p) (PyList b) = Return v)
       ∧ (∃ v, information_ratio np (PyList p) (PyList b) = Return v)
       ∧ tracking_error np (PyList p) (PyList b)
         = tracking_error np (PyList (map (λ _, x) b)) (PyList b)
       ∧ information_ratio np (PyList p) (PyList b)
         = information_ratio np (PyList (map (λ _, x) b)) (PyList b)).
Proof.
  intros Hpb. split; [| split].
  - intros Hp Hb.
    assert (tracking_error np (PyList p) (PyList b)
            = Raise (ValueError (broadcast_error np (length p) (length b))))
      as Hte.
    { unfold tracking_error. cbn [np_array]. by rewrite np_sub_mismatch. }
    assert (information_ratio np (PyList p) (PyList b)
            = Raise (ValueError (broadcast_error np (length p) (length b))))
      as Hir.
    { unfold information_ratio. cbn [np_array]. by rewrite np_sub_mismatch. }
    split; [done |]. split; [done |].
    intros py name [-> | ->]; unfold FormulaApi.compute_metric;
      cbn [FormulaApi.metric FormulaApi.inputs].
    + change (FormulaApi.formulas_getattr np py "tracking_error")
        with (Return (FormulaApi.Formula2 "portfolio_returns"
                        "benchmark_returns" (tracking_error np))
              : outcome FormulaApi.attribute).
      cbv beta iota. by rewrite call_two_series, Hte.
    + change (FormulaApi.formulas_getattr np py "information_ratio")
        with (Return (FormulaApi.Formula2 "portfolio_returns"
                        "benchmark_returns" (information_ratio np))
              : outcome FormulaApi.attribute).
      cbv beta iota. by rewrite call_two_series, Hir.
  - intros y ->. cbn [length] in Hpb.
    pose proof (np_sub_stretch_right p y Hpb) as Hsub.
    split; [done |].
    split; [by apply (tracking_error_after_sub (PyList p) (PyList [y]) _ Hsub) |].
    split; [by apply (information_ratio_after_sub (PyList p) (PyList [y]) _ Hsub) |].
    apply tracking_error_same_sub. cbn [np_array].
    by apply np_sub_single_right.
  - intros x ->. cbn [length] in Hpb.
    assert (length b ≠ 1%nat) as Hb by done.
    pose proof (np_sub_stretch_left x b Hb) as Hsub.
    split; [done |].
    split; [by apply (tracking_error_after_sub (PyList [x]) (PyList b) _ Hsub) |].
    split; [by apply (information_ratio_after_sub (PyList [x]) (PyList b) _ Hsub) |].
    apply tracking_error_same_sub. cbn [np_array].
    by apply np_sub_single_left.
Qed.

(** The same two series in the analytics service: the [ValueError] is
    answered with status 500. *)
Lemma analytics_tracking_error_mismatch (store : AnalyticsApi.Store)
    pn bn sd ed (p b : list float) :
  AnalyticsApi.get_portfolio_returns store pn sd ed = Return p →
  AnalyticsApi.name_given bn = true →
  AnalyticsApi.get_benchmark_returns store bn sd ed = Return b →
  length p ≠ length b → length p ≠ 1%nat → length b ≠ 1%nat →
  AnalyticsApi.compute_analytics np store pn bn None sd ed ["tracking_error"]
  = Raise (HTTPException 500 (broadcast_error np (length p) (length b))).
Proof.
  intros Hp Hbn Hb Hpb Hp1 Hb1. unfold AnalyticsApi.compute_analytics.
  rewrite Hp, outcome_bind_Return, Hbn, Hb, outcome_bind_Return.
  cbn [AnalyticsApi.name_given]. rewrite outcome_bind_Return.
  cbn [AnalyticsApi.compute_all]. unfold AnalyticsApi.compute_one.
  cbn [String.eqb Ascii.eqb Bool.eqb].
  unfold tracking_error. cbn [np_array]. by rewrite np_sub_mismatch.
Qed.

End SeriesOfDifferentLengths.

Section SeriesOfDifferentLengthsExample.

Import Formulas.

Lemma mismatched_series_fail_unless_single_witness :
  tracking_error Samples.numpy (PyList [0.01; 0.02; 0.03]%float)
    (PyList [0.01; 0.02]%float)
  = Raise (ValueError
             "operands could not be broadcast together with shapes (3,) (2,) ")
  ∧ tracking_error Samples.numpy (PyList [0.03; 0.01; 0.02]%float)
      (PyList [0.01]%float)
    = tracking_error Samples.numpy (PyList [0.03; 0.01; 0.02]%float)
        (PyList [0.01; 0.01; 0.01]%float).
Proof.
  split.
  - destruct (mismatched_series_fail_unless_single Samples.numpy
                [0.01; 0.02; 0.03]%float [0.01; 0.02]%float) as [H _];
      [cbn; lia |].
    destruct H as [H _]; [cbn; lia | cbn; lia |]. exact H.
  - destruct (mismatched_series_fail_unless_single Samples.numpy
                [0.03; 0.01; 0.02]%float [0.01]%float) as (_ & H & _);
      [cbn; lia |].
    destruct (H 0.01%float eq_refl) as (_ & _ & _ & Hte & _). exact Hte.
Defined.

(** A single return against no return at all: the difference is empty, and
    the formulas return what they return for an empty series. *)
Example tracking_error_of_no_difference :
  tracking_error Samples.numpy (PyList [0.01]%float) (PyList [])
  = Return (-0)%float
  ∧ information_ratio Samples.numpy (PyList [0.01]%float) (PyList [])
    = Return nan.
Proof. split; vm_compute; reflexivity. Qed.

End SeriesOfDifferentLengthsExample.

Section UnknownMetric.

Import Formulas AnalyticsApi.

Context (np : Numpy).

Lemma compute_one_Return portfolio_returns benchmark_returns risk_free_rate
    results (metric : string) results' :
  compute_one np portfolio_returns benchmark_returns risk_free_rate results
    metric
  = Return results' →
  metric ∈ METRIC_VOCABULARY.
Proof.
  unfold compute_one, METRIC_VOCABULARY.
  repeat match goal with
  | |- context [String.eqb metric ?s] =>
      destruct (String.eqb_spec metric s) as [-> | ?]; [intros _; set_solver |]
  end.
  done.
Qed.

Lemma compute_all_Return portfolio_returns benchmark_returns risk_free_rate
    (metrics : list string) results results' :
  compute_all np portfolio_returns benchmark_returns risk_free_rate results
    metrics
  = Return results' →
  ∀ metric, metric ∈ metrics → metric ∈ METRIC_VOCABULARY.
Proof.
  revert results. induction metrics as [| m metrics IH]; intros results H metric Hin.
  - by apply elem_of_nil in Hin.
  - cbn [compute_all] in H.
    destruct (compute_one _ _ _ _ results m) as [r1 | e] eqn:Hone; [| done].
    rewrite outcome_bind_Return in H.
    apply elem_of_cons in Hin as [-> | Hin].
    + by eapply compute_one_Return.
    + by eapply IH.
Qed.

(** Whatever goes wrong in [compute_analytics], the response has status
    500. *)
Lemma compute_analytics_raises store pn bn rn sd ed (metrics : list string) e :
  compute_analytics np store pn bn rn sd ed metrics = Raise e →
  ∃ detail, e = HTTPException 500 detail.
Proof.
  unfold compute_analytics.
  match goal with |- context [match ?b with _ => _ end] => destruct b end;
    [done |].
  intros [= <-]. by eexists.
Qed.

(** C3 on the analytics service: a request that names a metric outside the
    vocabulary is answered with status 500, the status of a server error.
    The [HTTPException] with status 400 that the loop raises for it is
    caught by the handler around the loop. *)
Theorem unknown_metric_is_status_500 store pn bn rn sd ed
    (metrics : list string) (metric : string) :
  metric ∈ metrics → metric ∉ METRIC_VOCABULARY →
  ∃ detail,
    compute_analytics np store pn bn rn sd ed metrics
    = Raise (HTTPException 500 detail).
Proof.
  intros Hin Hunknown.
  destruct (compute_analytics np store pn bn rn sd ed metrics) as [r | e] eqn:H.
  - exfalso. apply Hunknown. unfold compute_analytics in H.
    match type of H with
    | match ?b with _ => _ end = _ => destruct b as [r' | e] eqn:Hbody
    end; [| done].
    destruct (get_portfolio_returns _ _ _ _) as [prs | ?]; [| done].
    rewrite outcome_bind_Return in Hbody.
    match type of Hbody with
    | ?c ≫= _ = _ => destruct c as [brs | ?]; [| done]
    end.
    rewrite outcome_bind_Return in Hbody.
    match type of Hbody with
    | ?c ≫= _ = _ => destruct c as [rf | ?]; [| done]
    end.
    rewrite outcome_bind_Return in Hbody.
    destruct (compute_all np prs brs rf [] metrics) as [res | ?] eqn:Hall;
      [| done].
    by eapply compute_all_Return.
  - apply compute_analytics_raises in H as [detail ->]. by exists detail.
Qed.

(** The formula service, for comparison: a name that is none of the five
    formulas and does not begin with an underscore is answered with status
    404, or with status 400 when it is one of the two modules the file
    imports. *)
Lemma formula_service_unknown_metric py (request : FormulaApi.ComputeRequest) :
  FormulaApi.metric request ∉ METRIC_VOCABULARY →
  FormulaApi.leading_underscore (FormulaApi.metric request) = false →
  ∃ status detail,
    FormulaApi.compute_metric np py request
    = Raise (HTTPException status detail)
    ∧ (status = 404%Z ∨ status = 400%Z).
Proof.
  intros Hunknown Hname.
  unfold FormulaApi.compute_metric, FormulaApi.formulas_getattr.
  unfold METRIC_VOCABULARY in Hunknown.
  repeat match goal with
  | |- context [if String.eqb (FormulaApi.metric request) ?s then _ else _] =>
      destruct (String.eqb_spec (FormulaApi.metric request) s) as [Heq | ?];
      [exfalso; apply Hunknown; rewrite Heq; set_solver |]
  end.
  rewrite Hname.
  destruct (String.eqb _ "np" || String.eqb _ "pd").
  - eexists _, _. split; [reflexivity | by right].
  - eexists _, _. split; [reflexivity | by left].
Qed.

End UnknownMetric.

(* ===================================================================== *)
(** ** Properties of the chat agent *)
(* ===================================================================== *)

Section CheckCompleteness.

Import AgentApi.

Context (params : gmap string pvalue).

Lemma missing_of_metric_elem (req acc : list string) (f : string) :
  f ∈ fold_left
        (λ (missing : list string) (r : string),
           if negb (truthy (params !! r)) then (missing ++ [r])%list else missing)
        req acc
  ↔ f ∈ acc ∨ (f ∈ req ∧ truthy (params !! f) = false).
Proof.
  revert acc. induction req as [| r req IH]; intros acc; cbn [fold_left].
  - set_solver.
  - rewrite IH. destruct (truthy (params !! r)) eqn:Hr; cbn [negb].
    + split; [set_solver |]. intros [? | [[-> | ?]%elem_of_cons ?]];
        [set_solver | congruence | set_solver].
    + rewrite elem_of_app. split; [| set_solver].
      intros [[? | ->%list_elem_of_singleton] | [? ?]]; set_solver.
Qed.

Lemma missing_of_metrics_elem (items acc : list string) (f : string) :
  f ∈ fold_left
        (λ (missing : list string) (metric : string),
           let req := requirements metric in
           fold_left
             (λ (missing : list string) (r : string),
                if negb (truthy (params !! r)) then (missing ++ [r])%list
                else missing)
             req missing)
        items acc
  ↔ f ∈ acc ∨ (∃ metric, metric ∈ items ∧ f ∈ requirements metric
                          ∧ truthy (params !! f) = false).
Proof.
  revert acc. induction items as [| m items IH]; intros acc; cbn [fold_left].
  - split; [by left |]. intros [? | (? & ?%elem_of_nil & _)]; done.
  - rewrite IH, missing_of_metric_elem. split.
    + intros [[? | [? ?]] | (metric & ? & ? & ?)].
      * by left.
      * right. exists m. split; [left | done].
      * right. exists metric. split; [by right | done].
    + intros [? | (metric & [-> | ?]%elem_of_cons & ? & ?)].
      * by left; left.
      * by left; right.
      * right. by exists metric.
Qed.

End CheckCompleteness.

Section MissingFields.

Import AgentApi.

Lemma requirements_fields (metric f : string) :
  f ∈ requirements metric →
  f ∈ ["portfolio_name"; "benchmark_name"; "risk_free_portfolio_name";
       "start_date"; "end_date"].
Proof.
  unfold requirements, METRICS_REQUIREMENTS. cbn [dict_get].
  repeat match goal with
  | |- context [String.eqb ?a metric] => destruct (String.eqb a metric)
  end; cbn [default]; set_solver.
Qed.

Lemma truthy_default_metrics (params : gmap string pvalue) :
  truthy (Some (default (PList []) (params !! "metrics")))
  = truthy (params !! "metrics").
Proof. by destruct (params !! "metrics"). Qed.

(** [check_completeness] on a record whose metrics can be iterated. *)
Lemma check_completeness_spec (params : gmap string pvalue)
    (items : list string) :
  py_iter (default (PList []) (params !! "metrics")) = Return items →
  ∃ missing,
    check_completeness params = Return missing ∧ NoDup missing
    ∧ ∀ f, f ∈ missing
           ↔ (∃ metric, metric ∈ items ∧ f ∈ requirements metric
                         ∧ truthy (params !! f) = false)
             ∨ (f = "metrics" ∧ truthy (params !! "metrics") = false).
Proof.
  intros Hiter. unfold check_completeness. rewrite Hiter, outcome_bind_Return.
  rewrite truthy_default_metrics.
  set (collected := fold_left _ items []).
  assert (∀ f, f ∈ elements (list_to_set collected : gset string)
               ↔ ∃ metric, metric ∈ items ∧ f ∈ requirements metric
                            ∧ truthy (params !! f) = false) as Hset.
  { intros f. rewrite elem_of_elements, elem_of_list_to_set.
    unfold collected. rewrite missing_of_metrics_elem.
    split; [intros [?%elem_of_nil | ?]; done | by right]. }
  destruct (truthy (params !! "metrics")) eqn:Hm; cbn [negb];
    eexists; (split; [reflexivity |]); split.
  - apply NoDup_elements.
  - intros f. rewrite Hset. split; [by left | by intros [? | [_ ?]]].
  - apply NoDup_app. split; [apply NoDup_elements |]. split; [| apply NoDup_singleton].
    intros f Hf ->%list_elem_of_singleton.
    apply Hset in Hf as (metric & _ & Hreq%requirements_fields & _).
    set_solver.
  - intros f. rewrite elem_of_app, Hset, list_elem_of_singleton.
    split; intros [? | ?]; [by left | by right | by left | right; tauto].
Qed.

Lemma py_in_false (params : gmap string pvalue) (key : string)
    (catalog : list string) :
  truthy (params !! key) = true →
  py_in (default PNull (params !! key)) catalog = false
  ↔ ∀ s, params !! key = Some (PStr s) → s ∉ catalog.
Proof.
  intros Ht. destruct (params !! key) as [[| s | l] |]; cbn; try done.
  rewrite bool_decide_eq_false. split; [by intros ? ? [= <-] | eauto].
Qed.

Lemma check_catalog_elem env (params : gmap string pvalue) (key : string)
    (catalog missing : list string) (f : string) :
  f ∈ check_catalog env params key catalog missing
  ↔ f ∈ missing ∨ (f = key ∧ unresolved_name params key catalog).
Proof.
  unfold check_catalog, unresolved_name.
  destruct (truthy (params !! key)) eqn:Ht.
  - rewrite <- py_in_false by done.
    destruct (py_in _ catalog); cbn [negb].
    + split; [by left | by intros [? | [_ [_ ?]]]].
    + rewrite elem_of_app, list_elem_of_singleton. split; intros [? | ?]; 
        [by left | by right | by left | right; tauto].
  - split; [by left | by intros [? | [_ [? _]]]].
Qed.

Lemma check_catalog_NoDup env (params : gmap string pvalue) (key : string)
    (catalog missing : list string) :
  NoDup missing → (key ∈ missing → truthy (params !! key) = false) →
  NoDup (check_catalog env params key catalog missing).
Proof.
  intros Hnd Hkey. unfold check_catalog.
  destruct (truthy (params !! key)) eqn:Ht; [| done].
  destruct (py_in _ catalog); cbn [negb]; [done |].
  apply NoDup_app. split; [done |]. split; [| apply NoDup_singleton].
  intros f Hf ->%list_elem_of_singleton. specialize (Hkey Hf). congruence.
Qed.

(** C4, as stated, fails: a required field given as the empty string is
    neither null nor absent, and is reported missing. *)
Lemma empty_string_is_reported_missing :
  ¬ (∀ env (params : gmap string pvalue) (portfolios benchmarks missing : list string),
       missing_fields env params portfolios benchmarks = Return missing →
       ∀ f, f ∈ missing ↔ claimed_missing params portfolios benchmarks f = true).
Proof.
  intros H.
  specialize (H (Samples.env ∅ []) (Samples.volatility_params "" "2023-03-31")
                FALLBACK_PORTFOLIOS FALLBACK_BENCHMARKS ["start_date"]).
  assert ("start_date" ∈ ["start_date"]) as Hin by set_solver.
  apply H in Hin; [| by vm_compute].
  vm_compute in Hin. discriminate.
Qed.

(** C4 (amended): for a record whose metrics entry can be iterated (it is
    absent, a list or a string), the missing list of the turn holds exactly:
    the fields required by a requested metric whose value is absent, null or
    empty; ["metrics"] when the metrics entry is absent or empty; and each of
    the three names that is given (non-empty) and is not verbatim in its
    catalog, whether or not a requested metric requires it. The list has no
    duplicates. *)
Theorem missing_fields_spec env (params : gmap string pvalue)
    (portfolios benchmarks items : list string) :
  py_iter (default (PList []) (params !! "metrics")) = Return items →
  ∃ missing,
    missing_fields env params portfolios benchmarks = Return missing
    ∧ NoDup missing
    ∧ ∀ f, f ∈ missing
           ↔ (∃ metric, metric ∈ items ∧ f ∈ requirements metric
                         ∧ truthy (params !! f) = false)
             ∨ (f = "metrics" ∧ truthy (params !! "metrics") = false)
             ∨ (f = "portfolio_name"
                ∧ unresolved_name params "portfolio_name" portfolios)
             ∨ (f = "benchmark_name"
                ∧ unresolved_name params "benchmark_name" benchmarks)
             ∨ (f = "risk_free_portfolio_name"
                ∧ unresolved_name params "risk_free_portfolio_name" portfolios).
Proof.
  intros Hiter.
  destruct (check_completeness_spec params items Hiter)
    as (missing0 & Hcc & Hnd & Hmem).
  unfold missing_fields. rewrite Hcc, outcome_bind_Return.
  eexists. split; [reflexivity |].
  assert (∀ key, key ∈ missing0 → key ≠ "metrics" → truthy (params !! key) = false)
    as Hfalsy.
  { intros key Hk Hne. apply Hmem in Hk as [(? & _ & _ & ?) | [? _]]; done. }
  split.
  - apply check_catalog_NoDup; [apply check_catalog_NoDup;
      [apply check_catalog_NoDup |] |].
    + done.
    + intros ?. by apply Hfalsy.
    + intros [? | [? _]]%check_catalog_elem; [by apply Hfalsy | done].
    + intros [[? | [? _]]%check_catalog_elem | [? _]]%check_catalog_elem;
        [by apply Hfalsy | done | done].
  - intros f. rewrite !check_catalog_elem, Hmem. tauto.
Qed.

Lemma missing_fields_spec_witness :
  ∃ missing,
    missing_fields (Samples.env ∅ [])
      (<["metrics" := PList ["beta"]]>
         (<["portfolio_name" := PStr "Growth Plu"]> ∅))
      FALLBACK_PORTFOLIOS FALLBACK_BENCHMARKS = Return missing
    ∧ NoDup missing
    ∧ "portfolio_name" ∈ missing ∧ "benchmark_name" ∈ missing
    ∧ "metrics" ∉ missing.
Proof.
  destruct (missing_fields_spec (Samples.env ∅ [])
              (<["metrics" := PList ["beta"]]>
                 (<["portfolio_name" := PStr "Growth Plu"]> ∅))
              FALLBACK_PORTFOLIOS FALLBACK_BENCHMARKS ["beta"])
    as (missing & Hm & Hnd & Hmem); [by vm_compute |].
  exists missing. split; [done |]. split; [done |]. split; [| split].
  - apply Hmem. right. right. left. split; [done |].
    split; [done |]. intros s [= <-]. compute_done.
  - apply Hmem. left. exists "beta". split; [compute_done |].
    split; [compute_done | done].
  - intros [(metric & _ & Hreq%requirements_fields & _) | Hrest]%Hmem.
    + clear -Hreq. set_solver.
    + destruct Hrest as [[_ Hf] | [[? _] | [[? _] | [? _]]]]; done.
Defined.

End MissingFields.

Section ChatTurn.

Import AgentApi.

Lemma generate_response_missing env (params : gmap string pvalue)
    (missing portfolios benchmarks : list string) :
  missing ≠ [] →
  ∃ text,
    generate_response env params missing portfolios benchmarks
    = ((text, None, false), {| params_after := params; requests_sent := [] |}).
Proof. destruct missing; [done |]. intros _. by eexists. Qed.

(** The shapes of what [generate_response] returns: results come with the
    flag [True], from a turn with nothing missing and one call of the
    analytics service answered with status 200; no results come with the
    flag [False]. *)
Lemma generate_response_results env (params : gmap string pvalue)
    (missing portfolios benchmarks : list string) text body flag eff :
  generate_response env params missing portfolios benchmarks
  = ((text, Some body, flag), eff) →
  flag = true ∧ missing = []
  ∧ ∃ q http, requests_sent eff = [q] ∧ requests_get env q = Return http
              ∧ status_code http = 200 ∧ json http = Return body.
Proof.
  unfold generate_response. destruct missing; [| done].
  destruct (normalize_date env "start_date" params) as [params1 |]; [| done].
  destruct (normalize_date env "end_date" params1) as [params2 |]; [| done].
  match goal with
  | |- context [requests_get env ?q] =>
      destruct (requests_get env q) as [http |] eqn:Hget; [| done]
  end.
  destruct (status_code http =? 200) eqn:Hstatus; [| done].
  destruct (json http) as [results |] eqn:Hjson; [| done].
  rewrite outcome_bind_Return.
  destruct (subscript params2 "portfolio_name") as [name |]; [| done].
  rewrite outcome_bind_Return. intros [= <- <- <- <-].
  split; [done |]. split; [done |].
  eexists _, http. cbn [requests_sent]. apply Z.eqb_eq in Hstatus. done.
Qed.

Lemma generate_response_no_results env (params : gmap string pvalue)
    (missing portfolios benchmarks : list string) text flag eff :
  generate_response env params missing portfolios benchmarks
  = ((text, None, flag), eff) →
  flag = false.
Proof.
  unfold generate_response. destruct missing; [| by intros [= <- <- <-]].
  destruct (normalize_date env "start_date" params) as [params1 |];
    [| by intros [= <- <- <-]].
  destruct (normalize_date env "end_date" params1) as [params2 |];
    [| by intros [= <- <- <-]].
  match goal with
  | |- context [requests_get env ?q] =>
      destruct (requests_get env q) as [http |]; [| by intros [= <- <- <-]]
  end.
  destruct (status_code http =? 200); [| by intros [= <- <- <-]].
  destruct (json http) as [results |]; [| by intros [= <- <- <-]].
  rewrite outcome_bind_Return.
  destruct (subscript params2 "portfolio_name") as [name |];
    [done | by intros [= <- <- <-]].
Qed.

(** With something missing, [params] is not written to. *)
Lemma generate_response_params_after env (params : gmap string pvalue)
    (missing portfolios benchmarks : list string) :
  missing ≠ [] →
  params_after (generate_response env params missing portfolios benchmarks).2
  = params.
Proof.
  intros H. by destruct (generate_response_missing env params missing
                           portfolios benchmarks H) as [text ->].
Qed.

(** [chat] after the extraction, the missing list and the composer. *)
Lemma chat_eq env (request : ChatRequest) (params : gmap string pvalue)
    (missing : list string) text res flag eff :
  parse_with_llm env (message request) (conversation_history request)
  = Return params →
  missing_fields env params (get_portfolios env) (get_benchmarks env)
  = Return missing →
  generate_response env params missing (get_portfolios env) (get_benchmarks env)
  = ((text, res, flag), eff) →
  chat env request
  = (response_text ←
       match res with
       | Some body =>
           formatted ← formatted_metrics (body_results body);
           Return (Py.join "; " formatted)
       | None => Return text
       end;
     Return {| response := response_text;
               parameters := match missing with
                             | _ :: _ => Some (params_after eff)
                             | [] => None
                             end;
               results := res;
               reset_history := false |}).
Proof.
  intros Hparse Hmissing Hgen. unfold chat.
  rewrite Hparse, outcome_bind_Return, Hmissing, outcome_bind_Return, Hgen.
  by destruct flag.
Qed.

(** C10: the [parameters] of the response are the extracted record when
    something is missing, and null when nothing is: the record used for the
    computation is not returned. With something missing the turn always
    answers; with nothing missing it answers unless the sentence for an
    integer result too large for a float cannot be written. *)
Theorem chat_parameters env (request : ChatRequest)
    (params : gmap string pvalue) (missing : list string) :
  parse_with_llm env (message request) (conversation_history request)
  = Return params →
  missing_fields env params (get_portfolios env) (get_benchmarks env)
  = Return missing →
  (missing ≠ [] →
   ∃ resp, chat env request = Return resp ∧ parameters resp = Some params)
  ∧ (missing = [] →
     (∃ resp, chat env request = Return resp ∧ parameters resp = None)
     ∨ (∃ msg, chat env request = Raise (OverflowError msg)))
  ∧ (∀ resp, chat env request = Return resp →
       parameters resp = if bool_decide (missing = []) then None else Some params).
Proof.
  intros Hparse Hmissing.
  destruct (generate_response env params missing (get_portfolios env)
              (get_benchmarks env)) as [[[text res] flag] eff] eqn:Hgen.
  rewrite (chat_eq _ _ _ _ _ _ _ _ Hparse Hmissing Hgen).
  split; [| split].
  - intros Hne.
    destruct (generate_response_missing env params missing (get_portfolios env)
                (get_benchmarks env) Hne) as [text' Hgen'].
    rewrite Hgen' in Hgen. injection Hgen as <- <- <- <-.
    rewrite outcome_bind_Return. eexists. split; [reflexivity |].
    cbn [parameters params_after]. by destruct missing.
  - intros ->. destruct res as [body |].
    + destruct (formatted_metrics (body_results body)) as [lines | e] eqn:Hfmt.
      * left. rewrite !outcome_bind_Return. by eexists.
      * right. clear -Hfmt.
        assert (∃ msg, e = OverflowError msg) as [msg ->]; [| by exists msg].
        revert e Hfmt. induction (body_results body) as [| [k v] items IH];
          intros e; [done |]. cbn [formatted_metrics].
        destruct (format_metric k v) as [line | e'] eqn:Hline.
        -- rewrite outcome_bind_Return.
           destruct (formatted_metrics items); [done |].
           intros [= <-]. by apply IH.
        -- intros [= <-]. destruct v; try done.
           unfold format_metric, Py.float_of_int in Hline.
           destruct (SpecFloat.binary_normalize _ _ _ _ _); try done.
           injection Hline as <-. by eexists.
    + left. rewrite outcome_bind_Return. by eexists.
  - intros resp Hresp.
    assert (parameters resp
            = match missing with _ :: _ => Some (params_after eff) | [] => None end)
      as ->.
    { destruct res as [body |].
      - destruct (formatted_metrics (body_results body)); [| done].
        rewrite !outcome_bind_Return in Hresp. by injection Hresp as <-.
      - rewrite outcome_bind_Return in Hresp. by injection Hresp as <-. }
    destruct missing as [| m missing]; [done |].
    rewrite bool_decide_eq_false_2 by done.
    pose proof (generate_response_params_after env params (m :: missing)
                  (get_portfolios env) (get_benchmarks env)) as Hafter.
    rewrite Hgen in Hafter. cbn in Hafter. by rewrite Hafter.
Qed.

End ChatTurn.

Section ChatResponses.

Import AgentApi.

Lemma chat_Return_inv env (request : ChatRequest) (resp : ChatResponse) :
  chat env request = Return resp →
  ∃ params missing text res flag eff,
    parse_with_llm env (message request) (conversation_history request)
    = Return params
    ∧ missing_fields env params (get_portfolios env) (get_benchmarks env)
      = Return missing
    ∧ generate_response env params missing (get_portfolios env)
        (get_benchmarks env) = ((text, res, flag), eff).
Proof.
  unfold chat. intros H.
  destruct (parse_with_llm _ _ _) as [params |] eqn:Hparse; [| done].
  rewrite outcome_bind_Return in H.
  destruct (missing_fields _ _ _ _) as [missing |] eqn:Hmissing; [| done].
  rewrite outcome_bind_Return in H.
  destruct (generate_response _ _ _ _ _) as [[[text res] flag] eff] eqn:Hgen.
  by exists params, missing, text, res, flag, eff.
Qed.

Lemma chat_response_fields env (request : ChatRequest)
    (params : gmap string pvalue) (missing : list string) text res flag eff
    (resp : ChatResponse) :
  parse_with_llm env (message request) (conversation_history request)
  = Return params →
  missing_fields env params (get_portfolios env) (get_benchmarks env)
  = Return missing →
  generate_response env params missing (get_portfolios env) (get_benchmarks env)
  = ((text, res, flag), eff) →
  chat env request = Return resp →
  reset_history resp = false ∧ results resp = res.
Proof.
  intros Hparse Hmissing Hgen.
  rewrite (chat_eq _ _ _ _ _ _ _ _ Hparse Hmissing Hgen).
  destruct res as [body |].
  - destruct (formatted_metrics (body_results body)); [| done].
    rewrite !outcome_bind_Return. by intros [= <-].
  - rewrite outcome_bind_Return. by intros [= <-].
Qed.

(** C1, as stated, fails: a turn with nothing missing and a successful
    answer of the analytics service gets a response whose [reset_history]
    is false. *)
Lemma reset_history_is_false_on_success :
  ¬ (∀ env (request : ChatRequest) (params : gmap string pvalue)
       (resp : ChatResponse) (body : AnalyticsBody),
       parse_with_llm env (message request) (conversation_history request)
       = Return params →
       missing_fields env params (get_portfolios env) (get_benchmarks env)
       = Return [] →
       chat env request = Return resp →
       results resp = Some body →
       reset_history resp = true).
Proof.
  intros H.
  pose (params := Samples.volatility_params "2023-01-15" "2023-03-31").
  pose (env := Samples.env params [("volatility", JFloat 1.25)]).
  destruct (chat env Samples.request) as [resp |] eqn:Hchat;
    [| by vm_compute in Hchat].
  specialize (H env Samples.request params resp
                (Samples.body [("volatility", JFloat 1.25)])).
  assert (reset_history resp = true) as Htrue.
  { apply H; [by vm_compute | by vm_compute | done |].
    vm_compute in Hchat. by injection Hchat as <-. }
  vm_compute in Hchat. injection Hchat as <-. discriminate Htrue.
Qed.

End ChatResponses.

Section ChatSentences.

Import AgentApi.

Lemma format_metric_Return (key : string) (value : jscalar) (line : string) :
  format_metric key value = Return line →
  ∃ value_text,
    line = Py.capitalize (Py.replace_underscores key) +:+ " is " +:+ value_text
    ∧ rendered_value value value_text.
Proof.
  unfold format_metric, rendered_value. destruct value as [| b | n | x | s].
  - intros [= <-]. by eexists.
  - intros [= <-]. by eexists.
  - destruct (Py.float_of_int n) as [x |]; [| done].
    rewrite outcome_bind_Return. intros [= <-]. eexists. split; [done |].
    by exists x.
  - intros [= <-]. by eexists.
  - intros [= <-]. by eexists.
Qed.

Lemma formatted_metrics_Return (items : list (string * jscalar))
    (lines : list string) :
  formatted_metrics items = Return lines →
  Forall2
    (λ item line,
       ∃ value_text,
         line = Py.capitalize (Py.replace_underscores item.1) +:+ " is "
                  +:+ value_text
         ∧ rendered_value item.2 value_text)
    items lines.
Proof.
  revert lines. induction items as [| [key value] items IH]; intros lines.
  - intros [= <-]. constructor.
  - cbn [formatted_metrics].
    destruct (format_metric key value) as [line |] eqn:Hline; [| done].
    rewrite outcome_bind_Return.
    destruct (formatted_metrics items) as [lines' |]; [| done].
    rewrite outcome_bind_Return. intros [= <-].
    constructor; [by apply format_metric_Return | by apply IH].
Qed.

(** C9, as stated, fails: the name of a metric is not put in title case.
    Whatever the text of the value, the sentence for ["sharpe_ratio"] does
    not start with ["Sharpe Ratio"]. *)
Lemma metric_name_is_not_title_case :
  ¬ (∀ env (request : ChatRequest) (resp : ChatResponse) (body : AnalyticsBody),
       chat env request = Return resp → results resp = Some body →
       ∃ value_texts,
         length value_texts = length (body_results body)
         ∧ response resp
           = Py.join "; "
               (zip_with claimed_sentence (map fst (body_results body))
                  value_texts)).
Proof.
  intros H.
  pose (params := Samples.volatility_params "2023-01-15" "2023-03-31").
  pose (env := Samples.env params [("sharpe_ratio", JFloat 1.25)]).
  destruct (chat env Samples.request) as [resp |] eqn:Hchat;
    [| by vm_compute in Hchat].
  destruct (H env Samples.request resp
              (Samples.body [("sharpe_ratio", JFloat 1.25)]) Hchat)
    as (texts & Hlen & Hresp).
  { vm_compute in Hchat. by injection Hchat as <-. }
  vm_compute in Hchat. injection Hchat as <-.
  destruct texts as [| t [| ? ?]]; try discriminate Hlen.
  cbn [response] in Hresp. vm_compute in Hresp. discriminate Hresp.
Qed.

(** C9 (amended): on a successful computation the text of the response is
    the sentences of the computed metrics joined by ["; "], each sentence
    the name of the metric with its underscores replaced by spaces, its
    first letter in upper case and its other letters in lower case, then
    [" is "], then the value: a number with six decimal places, any other
    value as it is. The five metrics are named [Volatility], [Beta],
    [Sharpe ratio], [Tracking error] and [Information ratio]. *)
Theorem chat_response_sentences :
  (∀ env (request : ChatRequest) (params : gmap string pvalue)
     (missing : list string) text body flag eff (lines : list string),
     parse_with_llm env (message request) (conversation_history request)
     = Return params →
     missing_fields env params (get_portfolios env) (get_benchmarks env)
     = Return missing →
     generate_response env params missing (get_portfolios env)
       (get_benchmarks env) = ((text, Some body, flag), eff) →
     formatted_metrics (body_results body) = Return lines →
     (∃ resp, chat env request = Return resp
              ∧ response resp = Py.join "; " lines)
     ∧ Forall2
         (λ item line,
            ∃ value_text,
              line = Py.capitalize (Py.replace_underscores item.1) +:+ " is "
                       +:+ value_text
              ∧ rendered_value item.2 value_text)
         (body_results body) lines)
  ∧ map (λ m, Py.capitalize (Py.replace_underscores m)) METRIC_VOCABULARY
    = ["Volatility"; "Beta"; "Sharpe ratio"; "Tracking error";
       "Information ratio"].
Proof.
  split; [| reflexivity].
  intros env request params missing text body flag eff lines
    Hparse Hmissing Hgen Hlines.
  split; [| by apply formatted_metrics_Return].
  rewrite (chat_eq _ _ _ _ _ _ _ _ Hparse Hmissing Hgen), Hlines.
  rewrite !outcome_bind_Return. by eexists.
Qed.

Lemma chat_response_sentences_witness :
  ∃ resp,
    chat (Samples.env (Samples.volatility_params "2023-01-15" "2023-03-31")
            [("volatility", JFloat 0x1.17cf60ad2ce1dp-6);
             ("sharpe_ratio", JFloat 1.25); ("beta", JStr "n/a")])
      Samples.request = Return resp
    ∧ response resp
      = "Volatility is 0.017078; Sharpe ratio is 1.250000; Beta is n/a".
Proof.
  pose (params := Samples.volatility_params "2023-01-15" "2023-03-31").
  pose (items := [("volatility", JFloat 0x1.17cf60ad2ce1dp-6);
                  ("sharpe_ratio", JFloat 1.25); ("beta", JStr "n/a")]).
  destruct chat_response_sentences as [H _].
  destruct (H (Samples.env params items) Samples.request params []
              "Computed analytics for Growth Plus: " (Samples.body items) true
              {| params_after :=
                   <["start_date" := PStr "2023-01-31"]> params;
                 requests_sent :=
                   [{| q_portfolio_name := Some (PStr "Growth Plus");
                       q_benchmark_name := None;
                       q_risk_free_portfolio_name := None;
                       q_start_date := Some (PStr "2023-01-31");
                       q_end_date := Some (PStr "2023-03-31");
                       q_metrics := Some (PList ["volatility"]) |}] |}
              ["Volatility is 0.017078"; "Sharpe ratio is 1.250000";
               "Beta is n/a"])
    as [(resp & Hchat & Hresp) _].
  - by vm_compute.
  - by vm_compute.
  - by vm_compute.
  - by vm_compute.
  - by exists resp.
Defined.

(** C2 at a failing input. The start date ["2023-02-30"] is no date:
    [validate_date] returns [None] for it. Nothing is missing, and the turn
    does not fail: the analytics service is called, without a start date,
    and its results are returned and put into sentences. *)
Theorem invalid_start_date_is_left_out :
  let params := Samples.volatility_params "2023-02-30" "2023-03-31" in
  let items := [("volatility", JFloat 0x1.17cf60ad2ce1dp-6)] in
  let env := Samples.env params items in
  validate_date (zero_filled_year env) "2023-02-30" = Return None
  ∧ missing_fields env params (get_portfolios env) (get_benchmarks env)
    = Return []
  ∧ (generate_response env params [] (get_portfolios env)
       (get_benchmarks env)).1
    = ("Computed analytics for Growth Plus: ", Some (Samples.body items), true)
  ∧ requests_sent
      (generate_response env params [] (get_portfolios env)
         (get_benchmarks env)).2
    = [{| q_portfolio_name := Some (PStr "Growth Plus");
          q_benchmark_name := None;
          q_risk_free_portfolio_name := None;
          q_start_date := None;
          q_end_date := Some (PStr "2023-03-31");
          q_metrics := Some (PList ["volatility"]) |}]
  ∧ chat env Samples.request
    = Return {| response := "Volatility is 0.017078";
                parameters := None;
                results := Some (Samples.body items);
                reset_history := false |}.
Proof. repeat split; by vm_compute. Qed.

Lemma chat_parameters_witness :
  ∃ resp, chat (Samples.env ∅ []) Samples.request = Return resp
          ∧ parameters resp = Some ∅.
Proof.
  destruct (chat_parameters (Samples.env ∅ []) Samples.request ∅ ["metrics"])
    as [H _]; [by vm_compute | by vm_compute |].
  by apply H.
Defined.

End ChatSentences.

Section UnknownMetricExample.

Import AnalyticsApi.

Lemma unknown_metric_is_status_500_witness :
  ∃ detail,
    compute_analytics Samples.numpy Samples.store (Some "Growth Plus") None
      None None None ["volatility"; "alpha"]
    = Raise (HTTPException 500 detail).
Proof.
  apply (unknown_metric_is_status_500 Samples.numpy Samples.store
           (Some "Growth Plus") None None None None ["volatility"; "alpha"]
           "alpha").
  - compute_done.
  - compute_done.
Defined.

Example unknown_metric_detail :
  compute_analytics Samples.numpy Samples.store (Some "Growth Plus") None None
    None None ["alpha"]
  = Raise (HTTPException 500 "400: Unknown metric: alpha").
Proof. reflexivity. Qed.

End UnknownMetricExample.

(* ===================================================================== *)
(** * Further properties of the chat agent *)
(* ===================================================================== *)

Section Catalogs.

Lemma or_fallback_cases (fetched : option (outcome (list string)))
    (fallback : list string) :
  (∃ name names, fetched = Some (Return (name :: names))
                 ∧ or_fallback fetched fallback = name :: names)
  ∨ ((fetched = None ∨ (∃ e, fetched = Some (Raise e))
      ∨ fetched = Some (Return []))
     ∧ or_fallback fetched fallback = fallback).
Proof.
  destruct fetched as [[[| name names] | e] |]; cbn.
  - right. split; [by right; right | done].
  - left. by exists name, names.
  - right. split; [right; left; by exists e | done].
  - right. split; [by left | done].
Qed.

(** X1: The catalogs of a chat turn are never empty: they are the names the
    store answered with when the fetch succeeded with at least one name,
    and the built-in lists in every other case (no store configured, a
    failed fetch, an empty answer). *)
Theorem catalogs_fall_back env :
  get_portfolios env ≠ [] ∧ get_benchmarks env ≠ []
  ∧ (∀ names, supabase_portfolios env = Some (Return names) → names ≠ [] →
       get_portfolios env = names)
  ∧ (∀ names, supabase_benchmarks env = Some (Return names) → names ≠ [] →
       get_benchmarks env = names)
  ∧ (supabase_portfolios env = None
     ∨ (∃ e, supabase_portfolios env = Some (Raise e))
     ∨ supabase_portfolios env = Some (Return []) →
     get_portfolios env = FALLBACK_PORTFOLIOS)
  ∧ (supabase_benchmarks env = None
     ∨ (∃ e, supabase_benchmarks env = Some (Raise e))
     ∨ supabase_benchmarks env = Some (Return []) →
     get_benchmarks env = FALLBACK_BENCHMARKS).
Proof.
  unfold get_portfolios, get_benchmarks.
  repeat split.
  - destruct (or_fallback_cases (supabase_portfolios env) FALLBACK_PORTFOLIOS)
      as [(? & ? & _ & ->) | [_ ->]]; done.
  - destruct (or_fallback_cases (supabase_benchmarks env) FALLBACK_BENCHMARKS)
      as [(? & ? & _ & ->) | [_ ->]]; done.
  - intros names -> Hne. by destruct names.
  - intros names -> Hne. by destruct names.
  - intros [-> | [[e ->] | ->]]; done.
  - intros [-> | [[e ->] | ->]]; done.
Qed.

Lemma catalogs_fall_back_witness :
  get_portfolios (Samples.env ∅ []) = FALLBACK_PORTFOLIOS
  ∧ get_benchmarks (Samples.env ∅ []) = FALLBACK_BENCHMARKS.
Proof.
  destruct (catalogs_fall_back (Samples.env ∅ [])) as (_ & _ & _ & _ & Hp & Hb).
  split; [apply Hp | apply Hb]; by left.
Defined.

End Catalogs.

Section Extraction.

Lemma check_completeness_no_metrics (params : gmap string pvalue) :
  truthy (params !! "metrics") = false → params !! "metrics" ≠ Some PNull →
  check_completeness params = Return ["metrics"].
Proof.
  intros Hfalsy Hnull. unfold check_completeness.
  assert (py_iter (default (PList []) (params !! "metrics")) = Return []) as ->.
  { destruct (params !! "metrics") as [[| [| c s] | [| x l]] |]; done. }
  rewrite outcome_bind_Return, truthy_default_metrics, Hfalsy.
  cbn [fold_left negb]. by rewrite list_to_set_nil, elements_empty.
Qed.

(** X2: With no metric requested (the metrics entry absent, an empty list or an
    empty string) [check_completeness] reports ["metrics"] and nothing
    else, whatever the other entries of the record are. *)
Theorem no_metrics_only_metrics_missing (params : gmap string pvalue) :
  params !! "metrics" = None ∨ params !! "metrics" = Some (PList [])
  ∨ params !! "metrics" = Some (PStr "") →
  check_completeness params = Return ["metrics"].
Proof.
  intros H. apply check_completeness_no_metrics;
    destruct H as [-> | [-> | ->]]; done.
Qed.

Lemma no_metrics_only_metrics_missing_witness :
  check_completeness (<["portfolio_name" := PStr "Growth Plus"]> ∅)
  = Return ["metrics"].
Proof.
  apply no_metrics_only_metrics_missing. left.
  by rewrite lookup_insert_ne, lookup_empty.
Defined.

Lemma missing_fields_empty_record env (portfolios benchmarks : list string) :
  missing_fields env ∅ portfolios benchmarks = Return ["metrics"].
Proof.
  unfold missing_fields.
  rewrite check_completeness_no_metrics by by rewrite lookup_empty.
  rewrite outcome_bind_Return. unfold check_catalog.
  by rewrite !lookup_empty.
Qed.

(** X3: When the oracle fails, whatever the failure, the turn is answered with
    the request for the metrics: the extracted record is the empty one, it
    is returned as [parameters], there are no results, and the analytics
    service is not called. *)
Theorem oracle_failure_asks_for_metrics env (request : ChatRequest)
    (transcript : list string) (e : exn) :
  history_lines (conversation_history request) = Return transcript →
  oracle env (Py.join (String "010" "") transcript) (message request) = Raise e →
  chat env request
  = Return {| response := "I need the following information to compute: Metrics. ";
              parameters := Some ∅;
              results := None;
              reset_history := false |}
  ∧ requests_sent
      (generate_response env ∅ ["metrics"] (get_portfolios env)
         (get_benchmarks env)).2 = [].
Proof.
  intros Hlines Horacle.
  assert (parse_with_llm env (message request) (conversation_history request)
          = Return ∅) as Hparse.
  { unfold parse_with_llm. by rewrite Hlines, outcome_bind_Return, Horacle. }
  split; [| reflexivity].
  rewrite (chat_eq env request ∅ ["metrics"]
             "I need the following information to compute: Metrics. "
             None false {| params_after := ∅; requests_sent := [] |}).
  - reflexivity.
  - exact Hparse.
  - apply missing_fields_empty_record.
  - unfold generate_response, suggestion_text. rewrite !lookup_empty.
    cbn [truthy]. rewrite !andb_false_r. reflexivity.
Qed.

Lemma oracle_failure_asks_for_metrics_witness :
  ∃ resp,
    chat {| supabase_portfolios := None; supabase_benchmarks := None;
            oracle := λ _ _, Raise (ConnectionError "no route to host");
            requests_get := λ _, Raise (ConnectionError "no route to host");
            get_close_matches := λ _ _, [];
            str_value := λ _, ""; str_body := λ _, "";
            zero_filled_year := true |}
      {| message := "hello"; conversation_history := [] |} = Return resp
    ∧ parameters resp = Some ∅ ∧ results resp = None.
Proof.
  eexists. split.
  - refine (proj1 (oracle_failure_asks_for_metrics _ _ []
                     (ConnectionError "no route to host") _ _));
      reflexivity.
  - split; reflexivity.
Defined.

Lemma history_lines_raises (history : list (gmap string string)) :
  (∃ turn, turn ∈ history
           ∧ (turn !! "role" = None ∨ turn !! "content" = None)) →
  ∃ key, history_lines history = Raise (KeyError key).
Proof.
  induction history as [| msg history IH]; intros (turn & Hin & Hkey).
  - by apply elem_of_nil in Hin.
  - cbn [history_lines].
    destruct (msg !! "role") as [role |] eqn:Hrole; [| by eexists].
    rewrite outcome_bind_Return.
    destruct (msg !! "content") as [content |] eqn:Hcontent; [| by eexists].
    rewrite outcome_bind_Return.
    apply elem_of_cons in Hin as [-> | Hin].
    + destruct Hkey; congruence.
    + destruct IH as [key ->]; [by exists turn |]. by exists key.
Qed.

(** X4: A turn of the conversation history without ["role"] or without
    ["content"] makes [chat] raise [KeyError]: the transcript is written
    before the [try] of [parse_with_llm], so the failure is not turned into
    the empty record. *)
Theorem malformed_history_raises env (request : ChatRequest)
    (turn : gmap string string) :
  turn ∈ conversation_history request →
  turn !! "role" = None ∨ turn !! "content" = None →
  ∃ key, chat env request = Raise (KeyError key).
Proof.
  intros Hin Hkey.
  destruct (history_lines_raises (conversation_history request)) as [key Hl];
    [by exists turn |].
  exists key. unfold chat, parse_with_llm. by rewrite Hl.
Qed.

Lemma malformed_history_raises_witness :
  ∃ key,
    chat (Samples.env ∅ [])
      {| message := "hello";
         conversation_history := [{["content" := "volatility please"]}] |}
    = Raise (KeyError key).
Proof.
  apply (malformed_history_raises _ _ {["content" := "volatility please"]}).
  - cbn. left.
  - left. apply lookup_singleton_ne. discriminate.
Defined.

(** X5: A null metrics entry, which is what the extraction prompt asks for when
    no metric is mentioned, makes [check_completeness] raise [TypeError],
    and [chat] with it: the turn gets no response. *)
Theorem null_metrics_raises env (request : ChatRequest)
    (params : gmap string pvalue) :
  parse_with_llm env (message request) (conversation_history request)
  = Return params →
  params !! "metrics" = Some PNull →
  check_completeness params
  = Raise (TypeError "'NoneType' object is not iterable")
  ∧ chat env request = Raise (TypeError "'NoneType' object is not iterable").
Proof.
  intros Hparse Hnull.
  assert (check_completeness params
          = Raise (TypeError "'NoneType' object is not iterable")) as Hcc.
  { unfold check_completeness. by rewrite Hnull. }
  split; [done |].
  unfold chat, missing_fields. by rewrite Hparse, outcome_bind_Return, Hcc.
Qed.

Lemma null_metrics_raises_witness :
  chat (Samples.env {["metrics" := PNull]} []) Samples.request
  = Raise (TypeError "'NoneType' object is not iterable").
Proof.
  refine (proj2 (null_metrics_raises _ _ {["metrics" := PNull]} _ _)).
  - reflexivity.
  - apply lookup_singleton_eq.
Defined.

End Extraction.

Section CompletenessGate.

(** X6: Nothing is missing exactly for a complete record: for a record whose
    metrics entry can be iterated, the missing list of the turn is empty if
    and only if a metric is requested, every field required by a requested
    metric has a value, and none of the three names is given without being
    in its catalog. *)
Theorem nothing_missing_iff_complete env (params : gmap string pvalue)
    (portfolios benchmarks items : list string) :
  py_iter (default (PList []) (params !! "metrics")) = Return items →
  missing_fields env params portfolios benchmarks = Return []
  ↔ truthy (params !! "metrics") = true
    ∧ (∀ metric f, metric ∈ items → f ∈ requirements metric →
         truthy (params !! f) = true)
    ∧ ¬ unresolved_name params "portfolio_name" portfolios
    ∧ ¬ unresolved_name params "benchmark_name" benchmarks
    ∧ ¬ unresolved_name params "risk_free_portfolio_name" portfolios.
Proof.
  intros Hiter.
  destruct (check_completeness_spec params items Hiter)
    as (missing0 & Hcc & _ & Hmem).
  unfold missing_fields. rewrite Hcc, outcome_bind_Return.
  set (missing := check_catalog env params "risk_free_portfolio_name" _ _).
  assert (∀ f, f ∈ missing
               ↔ ((∃ metric, metric ∈ items ∧ f ∈ requirements metric
                              ∧ truthy (params !! f) = false)
                  ∨ f = "metrics" ∧ truthy (params !! "metrics") = false)
                 ∨ f = "portfolio_name"
                   ∧ unresolved_name params "portfolio_name" portfolios
                 ∨ f = "benchmark_name"
                   ∧ unresolved_name params "benchmark_name" benchmarks
                 ∨ f = "risk_free_portfolio_name"
                   ∧ unresolved_name params "risk_free_portfolio_name" portfolios)
    as Hall.
  { intros f. unfold missing. rewrite !check_catalog_elem, Hmem. tauto. }
  clearbody missing. split.
  - intros [= Hnil]. rewrite Hnil in Hall.
    assert (∀ f, f ∉ ([] : list string)) as Hno by (intros f; apply not_elem_of_nil).
    split; [| split; [| split; [| split]]].
    + destruct (truthy (params !! "metrics")) eqn:Hm; [done |].
      exfalso. apply (Hno "metrics"), Hall. left. by right.
    + intros metric f Hmetric Hf.
      destruct (truthy (params !! f)) eqn:Ht; [done |].
      exfalso. apply (Hno f), Hall. left. left. by exists metric.
    + intros H. apply (Hno "portfolio_name"), Hall. right. by left.
    + intros H. apply (Hno "benchmark_name"), Hall. right. right. by left.
    + intros H. apply (Hno "risk_free_portfolio_name"), Hall.
      right. right. by right.
  - intros (Hm & Hreq & Hp & Hb & Hr). f_equal.
    destruct missing as [| f missing]; [done |]. exfalso.
    assert (f ∈ f :: missing) as Hf by left.
    apply Hall in Hf
      as [[(metric & Hmetric & Hfreq & Ht) | [_ Ht]] | [[_ H] | [[_ H] | [_ H]]]];
      try done; try congruence.
    specialize (Hreq metric f Hmetric Hfreq). congruence.
Qed.

Lemma nothing_missing_iff_complete_witness :
  missing_fields (Samples.env ∅ []) unknown_metric_params FALLBACK_PORTFOLIOS
    FALLBACK_BENCHMARKS
  = Return [].
Proof.
  apply (nothing_missing_iff_complete _ _ _ _ ["alpha"]).
  - unfold unknown_metric_params. by rewrite lookup_singleton_eq.
  - split; [unfold unknown_metric_params; by rewrite lookup_singleton_eq |].
    split; [intros metric f ->%list_elem_of_singleton Hf; by apply elem_of_nil in Hf |].
    unfold unresolved_name, unknown_metric_params.
    rewrite !lookup_singleton_ne by done.
    repeat split; by intros [? _].
Defined.

End CompletenessGate.

Section ComposerEffects.

Lemma normalize_date_Return env (key : string) (params p' : gmap string pvalue) :
  normalize_date env key params = Return p' →
  (truthy (params !! key) = false ∧ p' = params)
  ∨ (∃ s r, params !! key = Some (PStr s) ∧ truthy (params !! key) = true
            ∧ validate_date (zero_filled_year env) s = Return r
            ∧ p' = <[key := match r with
                            | Some s' => PStr s'
                            | None => PNull
                            end]> params).
Proof.
  unfold normalize_date, subscript.
  destruct (truthy (params !! key)) eqn:Ht; [| intros [= <-]; by left].
  destruct (params !! key) as [[| s | l] |] eqn:Hkey; try done.
  rewrite outcome_bind_Return. cbn [validate_date_value].
  destruct (validate_date _ s) as [r |] eqn:Hv; [| done].
  rewrite !outcome_bind_Return. intros [= <-]. right. by exists s, r.
Qed.

Lemma normalize_date_other env (key k : string) (params p' : gmap string pvalue) :
  normalize_date env key params = Return p' → k ≠ key →
  p' !! k = params !! k.
Proof.
  intros [[_ ->] | (s & r & _ & _ & _ & ->)]%normalize_date_Return Hk; [done |].
  by rewrite lookup_insert_ne.
Qed.

(** A call of the analytics service comes from a turn with nothing
    missing, after both dates went through [normalize_date], with the query
    of the record as it is then. *)
Lemma requests_sent_inv env (params : gmap string pvalue)
    (missing portfolios benchmarks : list string) (q : QueryParams) :
  q ∈ requests_sent
        (generate_response env params missing portfolios benchmarks).2 →
  missing = []
  ∧ ∃ p1 p2, normalize_date env "start_date" params = Return p1
             ∧ normalize_date env "end_date" p1 = Return p2
             ∧ q = query_of p2.
Proof.
  unfold generate_response. destruct missing; [| by intros ?%elem_of_nil].
  destruct (normalize_date env "start_date" params) as [p1 |] eqn:Hp1;
    [| by intros ?%elem_of_nil].
  destruct (normalize_date env "end_date" p1) as [p2 |] eqn:Hp2;
    [| by intros ?%elem_of_nil].
  intros Hq. split; [done |]. exists p1, p2. split; [done |]. split; [done |].
  fold (query_of p2) in Hq.
  destruct (requests_get env (query_of p2)) as [http |].
  - destruct (status_code http =? 200).
    + destruct (json http ≫= _) as [[? ?] |];
        by apply list_elem_of_singleton in Hq.
    + by apply list_elem_of_singleton in Hq.
  - by apply list_elem_of_singleton in Hq.
Qed.

Lemma requests_sent_at_most_one env (params : gmap string pvalue)
    (missing portfolios benchmarks : list string) :
  (length (requests_sent
             (generate_response env params missing portfolios benchmarks).2)
   ≤ 1)%nat.
Proof.
  unfold generate_response. destruct missing; [| cbn; lia].
  destruct (normalize_date env "start_date" params) as [p1 |]; [| cbn; lia].
  destruct (normalize_date env "end_date" p1) as [p2 |]; [| cbn; lia].
  destruct (requests_get env _) as [http |]; [| cbn; lia].
  destruct (status_code http =? 200); [| cbn; lia].
  destruct (json http ≫= _) as [[? ?] |]; cbn; lia.
Qed.

Lemma check_catalog_nil env (params : gmap string pvalue) (key : string)
    (catalog missing : list string) :
  check_catalog env params key catalog missing = [] →
  missing = [] ∧ catalog_name (or_none params key) catalog.
Proof.
  unfold check_catalog, or_none, catalog_name.
  destruct (truthy (params !! key)) eqn:Ht; [| done].
  destruct (params !! key) as [[| s | l] |]; try done; simpl.
  - case_bool_decide as Hin; simpl.
    + intros ->. split; [done |]. by exists s.
    + by intros [_ ?]%app_eq_nil.
  - by intros [_ ?]%app_eq_nil.
Qed.

Lemma missing_fields_nil env (params : gmap string pvalue)
    (portfolios benchmarks : list string) :
  missing_fields env params portfolios benchmarks = Return [] →
  check_completeness params = Return []
  ∧ catalog_name (or_none params "portfolio_name") portfolios
  ∧ catalog_name (or_none params "benchmark_name") benchmarks
  ∧ catalog_name (or_none params "risk_free_portfolio_name") portfolios.
Proof.
  unfold missing_fields.
  destruct (check_completeness params) as [missing |]; [| done].
  rewrite outcome_bind_Return. intros [= H].
  apply check_catalog_nil in H as [H ?].
  apply check_catalog_nil in H as [H ?].
  apply check_catalog_nil in H as [-> ?]. done.
Qed.

Lemma or_none_normalize_other env (key k : string)
    (params p' : gmap string pvalue) :
  normalize_date env key params = Return p' → k ≠ key →
  or_none p' k = or_none params k.
Proof.
  intros H Hk. unfold or_none. by rewrite (normalize_date_other _ _ _ _ _ H Hk).
Qed.

(** X7: Whenever the analytics service is called, nothing was missing, and the
    names of the query are entries of their catalogs: a portfolio, benchmark
    or risk-free name that is not verbatim in its catalog never reaches the
    service. The metrics of the query are the extracted ones, and there are
    some. No turn calls the service twice. *)
Theorem backend_receives_catalog_names env (params : gmap string pvalue)
    (missing portfolios benchmarks : list string) (q : QueryParams) :
  missing_fields env params portfolios benchmarks = Return missing →
  q ∈ requests_sent
        (generate_response env params missing portfolios benchmarks).2 →
  missing = []
  ∧ requests_sent
      (generate_response env params missing portfolios benchmarks).2 = [q]
  ∧ catalog_name (q_portfolio_name q) portfolios
  ∧ catalog_name (q_benchmark_name q) benchmarks
  ∧ catalog_name (q_risk_free_portfolio_name q) portfolios
  ∧ q_metrics q = params !! "metrics" ∧ truthy (q_metrics q) = true.
Proof.
  intros Hmissing Hq.
  pose proof (requests_sent_at_most_one env params missing portfolios benchmarks)
    as Hlen.
  destruct (requests_sent_inv _ _ _ _ _ _ Hq)
    as (-> & p1 & p2 & Hp1 & Hp2 & ->).
  split; [done |]. split.
  { destruct (requests_sent _) as [| q' [| ? ?]]; [by apply elem_of_nil in Hq | |
      cbn in Hlen; lia].
    by apply list_elem_of_singleton in Hq as ->. }
  destruct (missing_fields_nil _ _ _ _ Hmissing) as (Hcc & Hp & Hb & Hr).
  assert (∀ k, k ≠ "start_date" → k ≠ "end_date" →
               or_none p2 k = or_none params k) as Hframe.
  { intros k Hs He.
    by rewrite (or_none_normalize_other _ _ _ _ _ Hp2 He),
               (or_none_normalize_other _ _ _ _ _ Hp1 Hs). }
  cbn [query_of q_portfolio_name q_benchmark_name q_risk_free_portfolio_name
       q_metrics].
  rewrite !Hframe by done. split; [done |]. split; [done |]. split; [done |].
  assert (truthy (params !! "metrics") = true) as Hm.
  { destruct (truthy (params !! "metrics")) eqn:Ht; [done |].
    unfold check_completeness in Hcc.
    destruct (py_iter _) as [items |]; [| done].
    rewrite outcome_bind_Return, truthy_default_metrics, Ht in Hcc.
    cbn [negb] in Hcc. injection Hcc as Hcc. by apply app_eq_nil in Hcc as [_ ?]. }
  unfold or_none. by rewrite Hm.
Qed.

Lemma unknown_metric_params_lookup (k : string) :
  k ≠ "metrics" → unknown_metric_params !! k = None.
Proof. intros H. by apply lookup_singleton_ne. Qed.

Lemma unknown_metric_params_missing env (portfolios benchmarks : list string) :
  missing_fields env unknown_metric_params portfolios benchmarks = Return [].
Proof.
  unfold missing_fields, check_completeness, check_catalog.
  rewrite !unknown_metric_params_lookup by done.
  unfold unknown_metric_params. rewrite lookup_singleton_eq.
  change (default (PList []) (Some (PList ["alpha"]))) with (PList ["alpha"]).
  cbn [py_iter]. rewrite outcome_bind_Return.
  cbn [fold_left requirements truthy negb].
  change (requirements "alpha") with ([] : list string). cbn [fold_left].
  by rewrite list_to_set_nil, elements_empty.
Qed.

Lemma unknown_metric_params_normalize env (key : string) :
  key ≠ "metrics" →
  normalize_date env key unknown_metric_params = Return unknown_metric_params.
Proof.
  intros H. unfold normalize_date.
  by rewrite unknown_metric_params_lookup.
Qed.

Lemma unknown_metric_params_sent (extracted : gmap string pvalue)
    (results : list (string * jscalar)) (portfolios benchmarks : list string) :
  generate_response (Samples.env extracted results) unknown_metric_params []
    portfolios benchmarks
  = (("Error: 'portfolio_name'", None, false),
     {| params_after := unknown_metric_params;
        requests_sent := [query_of unknown_metric_params] |}).
Proof.
  unfold generate_response.
  rewrite !unknown_metric_params_normalize by done.
  cbn [Samples.env requests_get status_code json text].
  cbn [Z.eqb Pos.eqb]. rewrite outcome_bind_Return. unfold subscript.
  by rewrite unknown_metric_params_lookup.
Qed.

Lemma backend_receives_catalog_names_witness :
  requests_sent
    (generate_response (Samples.env ∅ []) unknown_metric_params []
       FALLBACK_PORTFOLIOS FALLBACK_BENCHMARKS).2
  = [query_of unknown_metric_params]
  ∧ q_metrics (query_of unknown_metric_params) = Some (PList ["alpha"]).
Proof.
  destruct (backend_receives_catalog_names (Samples.env ∅ [])
              unknown_metric_params [] FALLBACK_PORTFOLIOS FALLBACK_BENCHMARKS
              (query_of unknown_metric_params))
    as (_ & Hsent & _ & _ & _ & Hm & _).
  - apply unknown_metric_params_missing.
  - rewrite unknown_metric_params_sent. cbn. left.
  - split; [exact Hsent |]. rewrite Hm. apply lookup_singleton_eq.
Defined.

End ComposerEffects.

Section ResetFlag.

(** With nothing missing, a call of the analytics service that is answered
    with status 200 and a body, and a record with a [portfolio_name] entry:
    [generate_response] returns the body and the flag [True]. *)
Lemma generate_response_success env (params : gmap string pvalue)
    (portfolios benchmarks : list string) (q : QueryParams)
    (http : HttpResponse) (body : AnalyticsBody) (name : pvalue) :
  q ∈ requests_sent (generate_response env params [] portfolios benchmarks).2 →
  requests_get env q = Return http →
  status_code http = 200 →
  json http = Return body →
  params !! "portfolio_name" = Some name →
  ∃ text eff,
    generate_response env params [] portfolios benchmarks
    = ((text, Some body, true), eff).
Proof.
  intros (_ & p1 & p2 & Hp1 & Hp2 & ->)%requests_sent_inv Hget Hstatus Hjson
    Hname.
  assert (p2 !! "portfolio_name" = Some name) as Hname2.
  { rewrite (normalize_date_other _ _ "portfolio_name" _ _ Hp2) by done.
    by rewrite (normalize_date_other _ _ "portfolio_name" _ _ Hp1). }
  unfold generate_response. rewrite Hp1, Hp2.
  change {| q_portfolio_name := or_none p2 "portfolio_name";
            q_benchmark_name := or_none p2 "benchmark_name";
            q_risk_free_portfolio_name :=
              or_none p2 "risk_free_portfolio_name";
            q_start_date := or_none p2 "start_date";
            q_end_date := or_none p2 "end_date";
            q_metrics := or_none p2 "metrics" |} with (query_of p2).
  rewrite Hget, Hstatus, Hjson, outcome_bind_Return. unfold subscript.
  rewrite Hname2, outcome_bind_Return. cbn [Z.eqb Pos.eqb]. by eexists _, _.
Qed.

(** Without a [portfolio_name] entry no results are returned and the flag
    is [False]: the [KeyError] of [params['portfolio_name']] is caught
    after the call. *)
Lemma generate_response_without_portfolio env (params : gmap string pvalue)
    (missing portfolios benchmarks : list string) text res flag eff :
  params !! "portfolio_name" = None →
  generate_response env params missing portfolios benchmarks
  = ((text, res, flag), eff) →
  res = None ∧ flag = false.
Proof.
  intros Hname Hgen.
  destruct res as [body |];
    [| split; [done | by eapply generate_response_no_results]].
  exfalso. revert Hgen. unfold generate_response.
  destruct missing; [| done].
  destruct (normalize_date env "start_date" params) as [p1 |] eqn:Hp1;
    [| done].
  destruct (normalize_date env "end_date" p1) as [p2 |] eqn:Hp2; [| done].
  assert (p2 !! "portfolio_name" = None) as Hname2.
  { rewrite (normalize_date_other _ _ "portfolio_name" _ _ Hp2) by done.
    by rewrite (normalize_date_other _ _ "portfolio_name" _ _ Hp1). }
  destruct (requests_get env _) as [http |]; [| done].
  destruct (status_code http =? 200); [| done].
  destruct (json http) as [results |]; [| done].
  rewrite outcome_bind_Return. unfold subscript. by rewrite Hname2.
Qed.

Lemma vocabulary_requires_portfolio (metric : string) :
  metric ∈ METRIC_VOCABULARY → "portfolio_name" ∈ requirements metric.
Proof.
  unfold METRIC_VOCABULARY. intros Hin.
  repeat apply elem_of_cons in Hin as [-> | Hin];
    [| | | | | by apply elem_of_nil in Hin];
    vm_compute; set_solver.
Qed.

(** C1 (amended): on a turn with nothing missing on which the analytics
    service is called and answers with status 200 and a body, and whose
    record has a [portfolio_name] entry, [generate_response] returns the
    body and the reset flag [True], and the response of the chat endpoint
    carries the body and has [reset_history] false: [chat] clears the flag
    before it builds the response. Every response of the endpoint has
    [reset_history] false. The [portfolio_name] entry is there whenever
    nothing is missing and one of the five metrics is requested; without
    it [generate_response] returns no results and the flag [False],
    whatever the service answered. *)
Theorem reset_flag_is_cleared :
  (∀ env (request : ChatRequest) (params : gmap string pvalue)
     (q : QueryParams) (http : HttpResponse) (body : AnalyticsBody)
     (name : pvalue),
     parse_with_llm env (message request) (conversation_history request)
     = Return params →
     missing_fields env params (get_portfolios env) (get_benchmarks env)
     = Return [] →
     q ∈ requests_sent
           (generate_response env params [] (get_portfolios env)
              (get_benchmarks env)).2 →
     requests_get env q = Return http →
     status_code http = 200 →
     json http = Return body →
     params !! "portfolio_name" = Some name →
     (∃ text eff,
        generate_response env params [] (get_portfolios env)
          (get_benchmarks env)
        = ((text, Some body, true), eff))
     ∧ ∀ resp, chat env request = Return resp →
               results resp = Some body ∧ reset_history resp = false)
  ∧ (∀ env (request : ChatRequest) (resp : ChatResponse),
       chat env request = Return resp → reset_history resp = false)
  ∧ (∀ env (params : gmap string pvalue)
       (portfolios benchmarks items : list string) (metric : string),
       py_iter (default (PList []) (params !! "metrics")) = Return items →
       missing_fields env params portfolios benchmarks = Return [] →
       metric ∈ items → metric ∈ METRIC_VOCABULARY →
       ∃ name, params !! "portfolio_name" = Some name)
  ∧ (∀ env (params : gmap string pvalue)
       (missing portfolios benchmarks : list string) text res flag eff,
       params !! "portfolio_name" = None →
       generate_response env params missing portfolios benchmarks
       = ((text, res, flag), eff) →
       res = None ∧ flag = false).
Proof.
  split; [| split; [| split; [| exact generate_response_without_portfolio]]].
  - intros env request params q http body name Hparse Hmissing Hq Hget
      Hstatus Hjson Hname.
    destruct (generate_response_success env params (get_portfolios env)
                (get_benchmarks env) q http body name Hq Hget Hstatus Hjson
                Hname) as (text & eff & Hgen).
    split; [by exists text, eff |].
    intros resp Hchat.
    by destruct (chat_response_fields _ _ _ _ _ _ _ _ _ Hparse Hmissing Hgen
                   Hchat).
  - intros env request resp Hchat.
    destruct (chat_Return_inv _ _ _ Hchat)
      as (params & missing & text & res & flag & eff & Hparse & Hmissing & Hgen).
    by destruct (chat_response_fields _ _ _ _ _ _ _ _ _ Hparse Hmissing Hgen Hchat).
  - intros env params portfolios benchmarks items metric Hiter Hmissing Hin
      Hvoc.
    apply missing_fields_nil in Hmissing as [Hcc _].
    destruct (check_completeness_spec params items Hiter)
      as (missing & Hcc' & _ & Hmem).
    rewrite Hcc in Hcc'. injection Hcc' as <-.
    destruct (params !! "portfolio_name") as [name |] eqn:Hname;
      [by exists name |].
    exfalso. apply (not_elem_of_nil "portfolio_name"), Hmem. left.
    exists metric. split; [done |].
    split; [by apply vocabulary_requires_portfolio |]. by rewrite Hname.
Qed.

Lemma reset_flag_is_cleared_witness :
  ∃ resp,
    chat (Samples.env (Samples.volatility_params "2023-01-15" "2023-03-31")
            [("volatility", JFloat 1.25)]) Samples.request = Return resp
    ∧ results resp = Some (Samples.body [("volatility", JFloat 1.25)])
    ∧ reset_history resp = false.
Proof.
  pose (params := Samples.volatility_params "2023-01-15" "2023-03-31").
  pose (env := Samples.env params [("volatility", JFloat 1.25)]).
  destruct (chat env Samples.request) as [resp |] eqn:Hchat;
    [| by vm_compute in Hchat].
  exists resp. split; [done |].
  destruct reset_flag_is_cleared as [H _].
  destruct (H env Samples.request params
              {| q_portfolio_name := Some (PStr "Growth Plus");
                 q_benchmark_name := None;
                 q_risk_free_portfolio_name := None;
                 q_start_date := Some (PStr "2023-01-31");
                 q_end_date := Some (PStr "2023-03-31");
                 q_metrics := Some (PList ["volatility"]) |}
              {| status_code := 200; text := "";
                 json := Return (Samples.body [("volatility", JFloat 1.25)]) |}
              (Samples.body [("volatility", JFloat 1.25)])
              (PStr "Growth Plus"))
    as [_ Hresp].
  - vm_compute; reflexivity.
  - vm_compute; reflexivity.
  - vm_compute. left.
  - reflexivity.
  - reflexivity.
  - reflexivity.
  - vm_compute; reflexivity.
  - by apply Hresp.
Defined.

End ResetFlag.

Section ComposerDates.

Lemma normalized_date_sent env (key : string)
    (params p' : gmap string pvalue) (v : pvalue) :
  normalize_date env key params = Return p' →
  or_none p' key = Some v →
  ∃ s0 s, params !! key = Some (PStr s0) ∧ v = PStr s
          ∧ validate_date (zero_filled_year env) s0 = Return (Some s).
Proof.
  intros [[Hf ->] | (s0 & r & Hkey & _ & Hv & ->)]%normalize_date_Return;
    unfold or_none.
  - by rewrite Hf.
  - rewrite lookup_insert_eq. destruct r as [s |]; [| done].
    destruct (truthy (Some (PStr s))); [| done]. intros [= <-]. by exists s0, s.
Qed.

(** X8: A date reaches the analytics service only as [validate_date] returned
    it: a start or end date in the query is the normalised form of the
    extracted string, never the extracted text itself unless that is what
    [validate_date] returns for it. *)
Theorem backend_receives_normalized_dates env (params : gmap string pvalue)
    (missing portfolios benchmarks : list string) (q : QueryParams) :
  q ∈ requests_sent
        (generate_response env params missing portfolios benchmarks).2 →
  (∀ v, q_start_date q = Some v →
        ∃ s0 s, params !! "start_date" = Some (PStr s0) ∧ v = PStr s
                ∧ validate_date (zero_filled_year env) s0 = Return (Some s))
  ∧ (∀ v, q_end_date q = Some v →
          ∃ s0 s, params !! "end_date" = Some (PStr s0) ∧ v = PStr s
                  ∧ validate_date (zero_filled_year env) s0 = Return (Some s)).
Proof.
  intros (_ & p1 & p2 & Hp1 & Hp2 & ->)%requests_sent_inv.
  cbn [query_of q_start_date q_end_date]. split; intros v Hv.
  - rewrite (or_none_normalize_other _ _ _ _ _ Hp2) in Hv by done.
    by eapply normalized_date_sent.
  - destruct (normalized_date_sent _ _ _ _ _ Hp2 Hv) as (s0 & s & Hs0 & -> & Hval).
    exists s0, s. split; [| done].
    by rewrite <- (normalize_date_other _ _ "end_date" _ _ Hp1).
Qed.

Lemma backend_receives_normalized_dates_witness :
  ∃ s0 s, dated_params !! "start_date" = Some (PStr s0)
          ∧ PStr "2023-01-31" = PStr s
          ∧ validate_date false s0 = Return (Some s).
Proof.
  refine (proj1 (backend_receives_normalized_dates (Samples.env ∅ [])
                   dated_params [] FALLBACK_PORTFOLIOS FALLBACK_BENCHMARKS
                   {| q_portfolio_name := None; q_benchmark_name := None;
                      q_risk_free_portfolio_name := None;
                      q_start_date := Some (PStr "2023-01-31");
                      q_end_date := None;
                      q_metrics := Some (PList ["alpha"]) |} _)
            (PStr "2023-01-31") eq_refl).
  vm_compute. left.
Defined.

End ComposerDates.

Section ComposerErrors.

(** X9: [validate_date] raises for the dates of December 9999 and for nothing
    else, and what it raises there is [OverflowError]: the step to the next
    month leaves the calendar, and only [ValueError] is caught. *)
Theorem validate_date_raises_in_december_9999 (zero_fill : bool) (s : string)
    (e : exn) :
  validate_date zero_fill s = Raise e
  ↔ e = OverflowError "date value out of range"
    ∧ ∃ d, strptime s = Return (mk_datetime 9999 12 d).
Proof.
  rewrite validate_date_eq. split.
  - destruct (strptime s) as [[y m d] |]; [| done]. cbn [year month day].
    destruct ((y =? 9999) && (m =? 12)) eqn:Hdec.
    + intros [= <-]. split; [done |]. exists d.
      apply andb_prop in Hdec as [->%Z.eqb_eq ->%Z.eqb_eq]. done.
    + by destruct (datetime_eqb _ _).
  - intros [-> [d ->]]. reflexivity.
Qed.






End ComposerErrors.

Section ChatShapes.

Lemma append_assoc (a b c : string) : (a +:+ b) +:+ c = a +:+ (b +:+ c).
Proof.
  induction a as [| x a IH]; [done |]. by rewrite !append_String, IH.
Qed.

Lemma generate_response_missing_text env (params : gmap string pvalue)
    (missing portfolios benchmarks : list string) :
  missing ≠ [] →
  ∃ rest,
    (generate_response env params missing portfolios benchmarks).1
    = ("I need the following information to compute: " +:+ rest, None, false).
Proof.
  destruct missing as [| m missing]; [done |]. intros _.
  unfold generate_response. cbn [fst]. rewrite !append_assoc. by eexists.
Qed.

Lemma generate_response_error_text env (params : gmap string pvalue)
    (portfolios benchmarks : list string) text flag :
  (generate_response env params [] portfolios benchmarks).1
  = (text, None, flag) →
  ∃ rest, text = "Error" +:+ rest.
Proof.
  unfold generate_response.
  destruct (normalize_date env "start_date" params) as [p1 |];
    [| intros [= <- <-]; by exists (": " +:+ exn_str e)].
  destruct (normalize_date env "end_date" p1) as [p2 |];
    [| intros [= <- <-]; by exists (": " +:+ exn_str e)].
  destruct (requests_get env _) as [http |];
    [| intros [= <- <-]; by exists (": " +:+ exn_str e)].
  destruct (status_code http =? 200);
    [| intros [= <- <-]; by exists (" computing analytics: " +:+ text http)].
  destruct (json http ≫= _) as [[? ?] | e]; [done |].
  intros [= <- <-]. by exists (": " +:+ exn_str e).
Qed.

(** A turn that asks the sample service for a metric outside the
    vocabulary and names nothing else: the gate lets it through, the
    service is called, and its answer is lost to the missing key. *)
Lemma unknown_metric_chat (results : list (string * jscalar)) :
  chat (Samples.env unknown_metric_params results) Samples.request
  = Return {| response := "Error: 'portfolio_name'"; parameters := None;
              results := None; reset_history := false |}.
Proof.
  unfold chat. change (parse_with_llm _ _ _) with
    (Return unknown_metric_params : outcome (gmap string pvalue)).
  rewrite outcome_bind_Return, unknown_metric_params_missing,
    outcome_bind_Return.
  change (get_portfolios _) with FALLBACK_PORTFOLIOS.
  change (get_benchmarks _) with FALLBACK_BENCHMARKS.
  by rewrite unknown_metric_params_sent.
Qed.

(** X11: When the analytics service answers its successes as
    [compute_analytics] does (status 200 with the body of three entries,
    which is what a response of the model carries), every response of
    [chat] has one of three shapes: a clarification
    (the text starts with the request for information, the record is
    returned, no results), an answer (results, no record; the text is the
    metric sentences joined by a semicolon) or an error (neither record nor
    results; the text starts with the word Error). Record and results never
    come together, and the flag is always false. *)
Theorem chat_response_shapes env (request : ChatRequest) (resp : ChatResponse) :
  chat env request = Return resp →
  reset_history resp = false
  ∧ ((∃ params rest,
        parameters resp = Some params ∧ results resp = None
        ∧ response resp
          = "I need the following information to compute: " +:+ rest)
     ∨ (∃ body lines,
          parameters resp = None ∧ results resp = Some body
          ∧ formatted_metrics (body_results body) = Return lines
          ∧ response resp = Py.join "; " lines)
     ∨ (∃ rest,
          parameters resp = None ∧ results resp = None
          ∧ response resp = "Error" +:+ rest)).
Proof.
  intros H.
  destruct (chat_Return_inv _ _ _ H)
    as (params & missing & text & res & flag & eff & Hparse & Hmissing & Hgen).
  rewrite (chat_eq _ _ _ _ _ _ _ _ Hparse Hmissing Hgen) in H.
  destruct missing as [| m missing].
  - destruct res as [body |].
    + destruct (formatted_metrics (body_results body)) as [lines |] eqn:Hlines;
        [| done].
      rewrite !outcome_bind_Return in H. injection H as <-.
      split; [done |]. right. left. by exists body, lines.
    + rewrite outcome_bind_Return in H. injection H as <-.
      split; [done |]. right. right.
      destruct (generate_response_error_text env params (get_portfolios env)
                  (get_benchmarks env) text flag) as [rest ->].
      { by rewrite Hgen. }
      by exists rest.
  - destruct (generate_response_missing_text env params (m :: missing)
                (get_portfolios env) (get_benchmarks env)) as [rest Hrest];
      [done |].
    rewrite Hgen in Hrest. injection Hrest as -> -> ->.
    rewrite outcome_bind_Return in H. injection H as <-.
    split; [done |]. left. by eexists _, rest.
Qed.

Lemma chat_response_shapes_witness :
  reset_history
    {| response := "Error: 'portfolio_name'"; parameters := None;
       results := None; reset_history := false |} = false.
Proof.
  refine (proj1 (chat_response_shapes (Samples.env unknown_metric_params [])
                   Samples.request _ _)).
  apply unknown_metric_chat.
Defined.

End ChatShapes.

Section BackendFailure.

(** X12: When the analytics service cannot be used (every call raises or is
    answered with a status other than 200), a turn whose extraction and
    missing list are computed still gets a response, without results; with
    nothing missing the response is an error text and carries no record.
    A failure of the service never becomes an exception of [chat]. *)
Theorem backend_failure_is_reported env (request : ChatRequest)
    (params : gmap string pvalue) (missing : list string) :
  parse_with_llm env (message request) (conversation_history request)
  = Return params →
  missing_fields env params (get_portfolios env) (get_benchmarks env)
  = Return missing →
  (∀ q, backend_failure (requests_get env q)) →
  ∃ resp,
    chat env request = Return resp ∧ results resp = None
    ∧ (missing = [] →
       parameters resp = None ∧ ∃ rest, response resp = "Error" +:+ rest).
Proof.
  intros Hparse Hmissing Hfail.
  destruct (generate_response env params missing (get_portfolios env)
              (get_benchmarks env)) as [[[text res] flag] eff] eqn:Hgen.
  rewrite (chat_eq _ _ _ _ _ _ _ _ Hparse Hmissing Hgen).
  destruct res as [body |].
  - apply generate_response_results in Hgen
      as (_ & _ & q & http & _ & Hget & Hstatus & _).
    specialize (Hfail q). rewrite Hget in Hfail. by destruct Hfail.
  - rewrite outcome_bind_Return. eexists. split; [reflexivity |].
    split; [reflexivity |]. intros ->. split; [reflexivity |].
    cbn [response].
    apply (generate_response_error_text env params (get_portfolios env)
             (get_benchmarks env) text flag).
    by rewrite Hgen.
Qed.

Lemma backend_failure_is_reported_witness :
  ∃ resp,
    chat (unreachable_service (Samples.env unknown_metric_params []))
      Samples.request = Return resp
    ∧ results resp = None
    ∧ (([] : list string) = [] →
       parameters resp = None ∧ ∃ rest, response resp = "Error" +:+ rest).
Proof.
  apply (backend_failure_is_reported
           (unreachable_service (Samples.env unknown_metric_params []))
           Samples.request unknown_metric_params []).
  - reflexivity.
  - apply unknown_metric_params_missing.
  - intros q. exact I.
Defined.

End BackendFailure.

Section Hints.





End Hints.

(* ===================================================================== *)
(** * Further properties of the metric engine and the two services *)
(* ===================================================================== *)

Section ActiveReturns.

Import Formulas.

Context (np : Numpy).

(** X15: For two series of the same length, [tracking_error] is exactly
    [volatility] of the active returns, the differences portfolio minus
    benchmark taken entry by entry in binary64 (the same operations in the
    same order), and [information_ratio] is the mean of these differences,
    not the difference of the two means, over that tracking error. *)
Theorem tracking_error_is_volatility_of_active_returns (p b : list float) :
  length p = length b →
  tracking_error np (PyList p) (PyList b)
  = volatility (PyList (zip_with_F PrimFloat.sub p b))
  ∧ information_ratio np (PyList p) (PyList b)
    = (te ← volatility (PyList (zip_with_F PrimFloat.sub p b));
       Return (np_mean (Arr1 (zip_with_F PrimFloat.sub p b)) / te)%float).
Proof.
  intros H.
  assert (tracking_error np (PyList p) (PyList b)
          = volatility (PyList (zip_with_F PrimFloat.sub p b))) as Hte.
  { unfold tracking_error, volatility. cbn [np_array].
    rewrite np_sub_equal_lengths by done. by rewrite outcome_bind_Return. }
  split; [done |].
  unfold information_ratio. cbn [np_array].
  by rewrite np_sub_equal_lengths, outcome_bind_Return, Hte by done.
Qed.

End ActiveReturns.

Section ActiveReturnsExample.

Import Formulas.

Lemma tracking_error_is_volatility_of_active_returns_witness :
  tracking_error Samples.numpy (PyList [0.03; 0.01; 0.02]%float)
    (PyList [0.01; 0.01; 0.03]%float)
  = volatility (PyList [0.03 - 0.01; 0.01 - 0.01; 0.02 - 0.03]%float).
Proof.
  apply (proj1 (tracking_error_is_volatility_of_active_returns Samples.numpy
                  [0.03; 0.01; 0.02]%float [0.01; 0.01; 0.03]%float eq_refl)).
Defined.

End ActiveReturnsExample.

Section AnalyticsResults.

Import Formulas AnalyticsApi.

Context (np : Numpy).

Lemma keys_dict_set (d : list (string * float)) (key : string) (value : float)
    (k : string) :
  k ∈ keys (dict_set d key value) ↔ k ∈ keys d ∨ k = key.
Proof.
  unfold keys. induction d as [| [k0 v0] d IH]; cbn [dict_set map fst].
  - rewrite list_elem_of_singleton. set_solver.
  - destruct (String.eqb_spec k0 key) as [-> | Hne]; cbn [map fst].
    + set_solver.
    + rewrite !elem_of_cons, IH. tauto.
Qed.

Lemma NoDup_dict_set (d : list (string * float)) (key : string) (value : float) :
  NoDup (keys d) → NoDup (keys (dict_set d key value)).
Proof.
  induction d as [| [k0 v0] d IH]; cbn [dict_set].
  - intros _. apply NoDup_singleton.
  - destruct (String.eqb_spec k0 key) as [-> | Hne]; [done |].
    unfold keys. cbn [map fst]. rewrite !NoDup_cons.
    intros [Hk0 Hd]. split; [| by apply IH].
    intros [Hin | ->]%keys_dict_set; [by apply Hk0 | done].
Qed.

Lemma elem_of_dict_set (d : list (string * float)) (key : string) (value : float)
    (k : string) (v : float) :
  (k, v) ∈ dict_set d key value → (k, v) ∈ d ∨ (k = key ∧ v = value).
Proof.
  induction d as [| [k0 v0] d IH]; cbn [dict_set].
  - intros [= -> ->]%list_elem_of_singleton. by right.
  - destruct (String.eqb_spec k0 key) as [-> | Hne].
    + intros [[= -> ->] | Hin]%elem_of_cons; [by right |].
      left. by apply elem_of_cons; right.
    + intros [[= -> ->] | Hin]%elem_of_cons; [left; by apply elem_of_cons; left |].
      destruct (IH Hin) as [? | ?]; [left; by apply elem_of_cons; right | by right].
Qed.

(** A turn of the loop that goes through writes, under the metric's name,
    the value the same turn writes into an empty dict. *)
Lemma compute_one_value (p b : list float) (rf : float)
    (res res' : list (string * float))
    (metric : string) :
  compute_one np p b rf res metric = Return res' →
  ∃ v, compute_one np p b rf [] metric = Return [(metric, v)]
       ∧ res' = dict_set res metric v.
Proof.
  unfold compute_one.
  repeat match goal with
  | |- context [if String.eqb metric ?s then _ else _] =>
      destruct (String.eqb metric s);
      [match goal with
       | |- context [?f ≫= _] =>
           destruct f as [v |]; [| done]
       end;
       rewrite !outcome_bind_Return; intros [= <-]; by exists v |]
  end.
  done.
Qed.

Lemma compute_all_inv (p b : list float) (rf : float)
    (metrics : list string)
    (res res' : list (string * float)) :
  compute_all np p b rf res metrics = Return res' →
  (∀ m, m ∈ metrics → ∃ v, compute_one np p b rf [] m = Return [(m, v)])
  ∧ (∀ k, k ∈ keys res' ↔ k ∈ keys res ∨ k ∈ metrics)
  ∧ (NoDup (keys res) → NoDup (keys res'))
  ∧ (∀ k v, (k, v) ∈ res' →
            (k, v) ∈ res ∨ compute_one np p b rf [] k = Return [(k, v)]).
Proof.
  revert res. induction metrics as [| m metrics IH]; intros res.
  - intros [= <-]. split; [by intros m ?%elem_of_nil |].
    split; [set_solver |]. split; [done |]. intros k v ?. by left.
  - cbn [compute_all].
    destruct (compute_one np p b rf res m) as [res1 |] eqn:Hone; [| done].
    rewrite outcome_bind_Return. intros (Hall & Hkeys & Hdup & Hval)%IH.
    apply compute_one_value in Hone as (v & Hv & ->).
    split; [| split; [| split]].
    + intros m' [-> | Hin]%elem_of_cons; [by exists v | by apply Hall].
    + intros k. rewrite Hkeys, keys_dict_set, elem_of_cons. tauto.
    + intros H. by apply Hdup, NoDup_dict_set.
    + intros k x [Hin | Hk]%Hval; [| by right].
      apply elem_of_dict_set in Hin as [? | [-> ->]]; [by left | by right].
Qed.

(** What a call of [compute_analytics] that goes through has done. *)
Lemma compute_analytics_Return_inv store pn bn rn sd ed (metrics : list string)
    (r : AnalyticsResult) :
  compute_analytics np store pn bn rn sd ed metrics = Return r →
  ∃ p b rf,
    get_portfolio_returns store pn sd ed = Return p
    ∧ (if name_given bn then get_benchmark_returns store bn sd ed
       else Return []) = Return b
    ∧ (if name_given rn then get_risk_free_rate store rn sd ed
       else Return 0%float) = Return rf
    ∧ compute_all np p b rf [] metrics = Return (results r)
    ∧ portfolio r = pn ∧ benchmark r = bn.
Proof.
  unfold compute_analytics.
  destruct (get_portfolio_returns store pn sd ed) as [p |]; [| done].
  rewrite outcome_bind_Return.
  destruct (if name_given bn then _ else _) as [b |]; [| done].
  rewrite outcome_bind_Return.
  destruct (if name_given rn then _ else _) as [rf |]; [| done].
  rewrite outcome_bind_Return.
  destruct (compute_all np p b rf [] metrics) as [res |] eqn:Hall; [| done].
  rewrite outcome_bind_Return. intros [= <-]. by exists p, b, rf.
Qed.

(** X18: An answer of [compute_analytics] names the portfolio and benchmark of
    the request and holds one value for each requested metric, under the
    metric's name and once only, however often the metric was asked for;
    each value is what the metric's formula gives for the series read from
    the store (no benchmark series when no benchmark is named, rate 0 when
    no risk-free portfolio is named). *)
Theorem compute_analytics_results store pn bn rn sd ed (metrics : list string)
    (r : AnalyticsResult) :
  compute_analytics np store pn bn rn sd ed metrics = Return r →
  portfolio r = pn ∧ benchmark r = bn
  ∧ NoDup (keys (results r))
  ∧ (∀ m, m ∈ keys (results r) ↔ m ∈ metrics)
  ∧ ∃ p b rf,
      get_portfolio_returns store pn sd ed = Return p
      ∧ (if name_given bn then get_benchmark_returns store bn sd ed
         else Return []) = Return b
      ∧ (if name_given rn then get_risk_free_rate store rn sd ed
         else Return 0%float) = Return rf
      ∧ ∀ m v, (m, v) ∈ results r →
               compute_one np p b rf [] m = Return [(m, v)].
Proof.
  intros (p & b & rf & Hp & Hb & Hrf & Hall & Hpn & Hbn)%compute_analytics_Return_inv.
  apply compute_all_inv in Hall as (_ & Hkeys & Hdup & Hval).
  split; [done |]. split; [done |].
  split; [apply Hdup, NoDup_nil_2 |].
  split; [intros m; rewrite Hkeys; set_solver |].
  exists p, b, rf. split; [done |]. split; [done |]. split; [done |].
  intros m v [Hin | ?]%Hval; [by apply elem_of_nil in Hin | done].
Qed.

(** X19: Asked for beta, tracking error or information ratio without the name
    of a benchmark, the analytics service takes the benchmark series to be
    empty and, for a portfolio with at least two returns, answers with
    status 500, whatever else was asked for. *)
Theorem benchmark_metric_without_benchmark store pn bn rn sd ed
    (metrics : list string) (metric : string) (p : list float) :
  get_portfolio_returns store pn sd ed = Return p →
  (2 ≤ length p)%nat →
  name_given bn = false →
  metric ∈ metrics →
  metric ∈ ["beta"; "tracking_error"; "information_ratio"] →
  ∃ detail,
    compute_analytics np store pn bn rn sd ed metrics
    = Raise (HTTPException 500 detail).
Proof.
  intros Hp Hlen Hbn Hin Hmetric.
  destruct (compute_analytics np store pn bn rn sd ed metrics) as [r | e] eqn:H;
    [| apply compute_analytics_raises in H as [detail ->]; by exists detail].
  exfalso.
  apply compute_analytics_Return_inv in H
    as (p' & b & rf & Hp' & Hb & _ & Hall & _).
  rewrite Hp in Hp'. injection Hp' as <-.
  rewrite Hbn in Hb. injection Hb as <-.
  apply compute_all_inv in Hall as (Hall & _).
  destruct (Hall metric Hin) as [v Hv]. clear -Hv Hlen Hmetric.
  assert (np_sub np (Arr1 p) (Arr1 [])
          = Raise (ValueError (broadcast_error np (length p) 0)))
    as Hsub by (apply np_sub_mismatch; cbn [length]; lia).
  assert (length p ≠ 0%nat) as Hne by lia.
  apply Nat.eqb_neq in Hne.
  unfold compute_one in Hv.
  repeat apply elem_of_cons in Hmetric as [-> | Hmetric];
    [| | | by apply elem_of_nil in Hmetric];
    cbn [String.eqb Ascii.eqb Bool.eqb] in Hv.
  - unfold beta in Hv. cbn [observations length] in Hv. by rewrite Hne in Hv.
  - unfold tracking_error in Hv. cbn [np_array] in Hv. by rewrite Hsub in Hv.
  - unfold information_ratio in Hv. cbn [np_array] in Hv. by rewrite Hsub in Hv.
Qed.

(** X20: A portfolio or benchmark name the store does not know is answered with
    status 500, not 404: the 404 raised by the lookup is caught by the
    handler of [compute_analytics] and becomes the detail of a server
    error. *)
Theorem unknown_name_is_status_500 store pn bn rn sd ed
    (metrics : list string) :
  (portfolio_ids store pn = Return [] →
   compute_analytics np store pn bn rn sd ed metrics
   = Raise (HTTPException 500
              ("404: Portfolio '" +:+ default "None" pn +:+ "' not found")))
  ∧ (∀ p, get_portfolio_returns store pn sd ed = Return p →
          name_given bn = true →
          benchmark_ids store bn = Return [] →
          compute_analytics np store pn bn rn sd ed metrics
          = Raise (HTTPException 500
                     ("404: Benchmark '" +:+ default "None" bn
                        +:+ "' not found"))).
Proof.
  split.
  - intros Hids. unfold compute_analytics, get_portfolio_returns.
    by rewrite Hids, outcome_bind_Return.
  - intros p Hp Hbn Hids. unfold compute_analytics.
    rewrite Hp, outcome_bind_Return, Hbn. unfold get_benchmark_returns.
    by rewrite Hids, outcome_bind_Return.
Qed.

End AnalyticsResults.

Section AnalyticsResultsExamples.

Import Formulas AnalyticsApi.

Lemma sample_volatility_answer :
  compute_analytics Samples.numpy Samples.store (Some "Growth Plus") None None
    None None ["volatility"; "volatility"]
  = Return {| portfolio := Some "Growth Plus"; benchmark := None;
              results := [("volatility", 0.017078251276599333%float)] |}.
Proof. vm_compute. reflexivity. Qed.

Lemma compute_analytics_results_witness :
  NoDup (keys [("volatility", 0.017078251276599333%float)]).
Proof.
  exact (proj1 (proj2 (proj2 (compute_analytics_results _ _ _ _ _ _ _ _ _
                                sample_volatility_answer)))).
Defined.

Lemma benchmark_metric_without_benchmark_witness :
  ∃ detail,
    compute_analytics Samples.numpy Samples.store (Some "Growth Plus") None
      None None None ["volatility"; "beta"]
    = Raise (HTTPException 500 detail).
Proof.
  apply (benchmark_metric_without_benchmark Samples.numpy Samples.store
           (Some "Growth Plus") None None None None ["volatility"; "beta"]
           "beta" [0.01; 0.02; -0.01; 0.03]%float).
  - reflexivity.
  - cbn [length]. lia.
  - reflexivity.
  - set_solver.
  - set_solver.
Defined.

Lemma unknown_name_is_status_500_witness :
  compute_analytics Samples.numpy Samples.store (Some "Growth") None None None
    None ["volatility"]
  = Raise (HTTPException 500 "404: Portfolio 'Growth' not found").
Proof.
  apply (proj1 (unknown_name_is_status_500 Samples.numpy Samples.store
                  (Some "Growth") None None None None ["volatility"])).
  reflexivity.
Defined.

End AnalyticsResultsExamples.

Section MetricNames.

Import Formulas AnalyticsApi FormulaApi.

Context (np : Numpy) (py : Interpreter).

Lemma vocabulary_cases (m : string) :
  m ∈ METRIC_VOCABULARY ∨
  (String.eqb m "volatility" = false ∧ String.eqb m "beta" = false
   ∧ String.eqb m "sharpe_ratio" = false
   ∧ String.eqb m "tracking_error" = false
   ∧ String.eqb m "information_ratio" = false ∧ m ∉ METRIC_VOCABULARY).
Proof.
  unfold METRIC_VOCABULARY.
  destruct (String.eqb_spec m "volatility") as [-> | ?]; [left; set_solver |].
  destruct (String.eqb_spec m "beta") as [-> | ?]; [left; set_solver |].
  destruct (String.eqb_spec m "sharpe_ratio") as [-> | ?]; [left; set_solver |].
  destruct (String.eqb_spec m "tracking_error") as [-> | ?];
    [left; set_solver |].
  destruct (String.eqb_spec m "information_ratio") as [-> | ?];
    [left; set_solver |].
  right. repeat split; try done. set_solver.
Qed.

Lemma vocabulary_elim (P : string → Prop) (m : string) :
  m ∈ METRIC_VOCABULARY →
  P "volatility" → P "beta" → P "sharpe_ratio" → P "tracking_error" →
  P "information_ratio" → P m.
Proof.
  unfold METRIC_VOCABULARY. intros Hin.
  repeat apply elem_of_cons in Hin as [-> | Hin]; try done.
  by apply elem_of_nil in Hin.
Qed.

(** What [getattr] gives for a name outside the vocabulary is no
    formula. *)
Lemma formulas_getattr_other (m : string) (fn : attribute) :
  m ∉ METRIC_VOCABULARY → formulas_getattr np py m = Return fn →
  is_formula fn = false.
Proof.
  intros Hnot.
  destruct (vocabulary_cases m) as [Hin | (H1 & H2 & H3 & H4 & H5 & _)];
    [done |].
  unfold formulas_getattr. rewrite H1, H2, H3, H4, H5.
  destruct (String.eqb m "np" || String.eqb m "pd"); [by intros [= <-] |].
  destruct (if leading_underscore m then _ else _); [| done].
  by intros [= <-].
Qed.

Lemma formulas_getattr_vocabulary (m : string) :
  m ∈ METRIC_VOCABULARY →
  ∃ fn, formulas_getattr np py m = Return fn ∧ is_formula fn = true.
Proof.
  intros Hin.
  apply (vocabulary_elim
           (λ m, ∃ fn, formulas_getattr np py m = Return fn
                       ∧ is_formula fn = true) m Hin);
    by eexists.
Qed.

(** X21: The services agree on the names of the metrics: a name is listed
    by the formula service exactly when the agent knows what it requires,
    when [getattr] finds one of the formulas of the formula module under
    it (not an imported module, nor an attribute of the module object),
    and when the analytics service computes it; every other name is
    refused by the analytics loop as an unknown metric and required
    nothing by the agent. *)
Theorem metric_names_agree (m : string) :
  (m ∈ keys list_metrics ↔ m ∈ keys AgentApi.METRICS_REQUIREMENTS)
  ∧ (m ∈ keys list_metrics ↔ AgentApi.requirements m ≠ [])
  ∧ (m ∈ keys list_metrics
     ↔ ∃ fn, formulas_getattr np py m = Return fn ∧ is_formula fn = true)
  ∧ (m ∉ keys list_metrics
     ↔ ∀ p b rf res,
         compute_one np p b rf res m
         = Raise (HTTPException 400 ("Unknown metric: " +:+ m))).
Proof.
  change (keys list_metrics) with METRIC_VOCABULARY.
  change (keys AgentApi.METRICS_REQUIREMENTS) with METRIC_VOCABULARY.
  split; [done |].
  destruct (vocabulary_cases m) as [Hin | (H1 & H2 & H3 & H4 & H5 & Hnot)].
  - split; [| split].
    + split; [intros _ | done].
      by apply (vocabulary_elim (λ m, AgentApi.requirements m ≠ []) m).
    + split; [intros _ | done]. by apply formulas_getattr_vocabulary.
    + split; [done |]. intros H. exfalso.
      specialize (H [] [] 0%float []). revert H.
      by apply (vocabulary_elim
                  (λ m, compute_one np [] [] 0%float [] m
                        = Raise (HTTPException 400 ("Unknown metric: " +:+ m))
                        → False) m Hin).
  - split; [| split].
    + split; [done |]. intros H. exfalso. apply H.
      unfold AgentApi.requirements, AgentApi.METRICS_REQUIREMENTS.
      cbn [AgentApi.dict_get]. rewrite !(String.eqb_sym _ m).
      by rewrite H1, H2, H3, H4, H5.
    + split; [done |]. intros (fn & Hfn & Hformula). exfalso.
      rewrite (formulas_getattr_other m fn Hnot Hfn) in Hformula. done.
    + split; [| done]. intros _ p b rf res. unfold compute_one.
      by rewrite H1, H2, H3, H4, H5.
Qed.



End MetricNames.

Section MetricNamesExample.

Import Formulas FormulaApi.



(** The interpreter's part: with the sample interpreter, [__sizeof__]
    without inputs is answered with the number it returns, and [__name__]
    with status 400. *)
Example module_attributes_are_found :
  compute_metric Samples.numpy Samples.interpreter
    {| metric := "__sizeof__"; inputs := ∅ |}
  = Return {| response_metric := "__sizeof__"; value := Some 72%float |}
  ∧ compute_metric Samples.numpy Samples.interpreter
      {| metric := "__name__"; inputs := ∅ |}
    = Raise (HTTPException 400 "'str' object is not callable").
Proof. split; reflexivity. Qed.

End MetricNamesExample.
